(** * The Gemini service of the UI mockup generator, and the generate handler

    A shallow embedding of [services/geminiService.ts] (palette, screen
    names, per-screen image and code, logo, image edit, and the batch
    orchestrator [generateAppScreens]) and of [handleGenerate] in [App.tsx],
    with the properties of the specification proved over it; then of the
    other handlers of [App.tsx] (palette, image selection and edit,
    notifications), of the download name of [components/ScreenCard.tsx]
    and of the radio group of [components/StyleSelector.tsx], with what
    the code shows beyond the specification.

    - A JavaScript string is its sequence of UTF-16 code units: [list N].
    - The hosted model is an oracle [ai]: the reply to a request may depend
      on every request issued before it, and carries the instant at which
      it arrives.
    - An async function is a state-passing computation over the log of
      issued requests that yields a promise: its settlement and the instant
      of that settlement. *)

From Stdlib Require Import String Ascii List NArith Arith Lia Bool.
Import ListNotations.

Set Implicit Arguments.
Set Warnings "-register-all".

(** ** Strings *)

Module Text.

Local Open Scope N_scope.

Definition ustring := list N.

(** A literal of the source, as code units. *)
Definition lit (s : string) : ustring :=
  map N_of_ascii (list_ascii_of_string s).

Arguments lit : simpl never.

Definition dq : ustring := [34%N].
Definition nl : ustring := [10%N].
Definition comma : N := 44%N.
Definition newline : N := 10%N.

Fixpoint ueqb (a b : ustring) : bool :=
  match a, b with
  | [], [] => true
  | x :: a', y :: b' => N.eqb x y && ueqb a' b'
  | _, _ => false
  end.

Fixpoint startsWith (p s : ustring) : bool :=
  match p, s with
  | [], _ => true
  | x :: p', y :: s' => N.eqb x y && startsWith p' s'
  | _ :: _, [] => false
  end.

(** [s.replace(/p1|p2|.../g, '')] for literal alternatives: scanning from
    the left, the first alternative that matches at a position is removed
    and the scan resumes after it. [skip] counts the code units of the
    current match that are still to be dropped. *)
Definition firstMatch (pats : list ustring) (s : ustring) : option ustring :=
  find (fun p => startsWith p s) pats.

Fixpoint removeFrom (pats : list ustring) (skip : nat) (s : ustring) : ustring :=
  match s with
  | [] => []
  | c :: s' =>
      match skip with
      | S k => removeFrom pats k s'
      | O =>
          match firstMatch pats s with
          | Some p =>
              match List.length p with
              | O => c :: removeFrom pats 0 s'
              | S k => removeFrom pats k s'
              end
          | None => c :: removeFrom pats 0 s'
          end
      end
  end.

Definition removeAll (pats : list ustring) (s : ustring) : ustring :=
  removeFrom pats 0 s.

(** [s.replace(/[^a-zA-Z0-9]/g, '')] *)
Definition isAlphaNumeric (c : N) : bool :=
  ((97 <=? c) && (c <=? 122)) || ((65 <=? c) && (c <=? 90))
  || ((48 <=? c) && (c <=? 57)).

Definition keepAlphaNumeric (s : ustring) : ustring := filter isAlphaNumeric s.

(** White space and line terminators of ECMAScript, as [trim] removes
    them. *)
Definition isWhiteSpace (c : N) : bool :=
  ((9 <=? c) && (c <=? 13)) || (c =? 32) || (c =? 160) || (c =? 5760)
  || ((8192 <=? c) && (c <=? 8202)) || (c =? 8232) || (c =? 8233)
  || (c =? 8239) || (c =? 8287) || (c =? 12288) || (c =? 65279).

Fixpoint trimStart (s : ustring) : ustring :=
  match s with
  | c :: s' => if isWhiteSpace c then trimStart s' else s
  | [] => []
  end.

Definition trimEnd (s : ustring) : ustring := rev (trimStart (rev s)).

Definition trim (s : ustring) : ustring := trimEnd (trimStart s).

(** [s.split(sep)] for a separator of one code unit: never an empty
    array. *)
Fixpoint split (sep : N) (s : ustring) : list ustring :=
  match s with
  | [] => [[]]
  | c :: s' =>
      if c =? sep then [] :: split sep s'
      else match split sep s' with
           | seg :: segs => (c :: seg) :: segs
           | [] => [[c]]
           end
  end.

(** [segments.join(sep)] *)
Fixpoint join (sep : ustring) (segments : list ustring) : ustring :=
  match segments with
  | [] => []
  | [seg] => seg
  | seg :: rest => seg ++ sep ++ join sep rest
  end.

(** [`${n}`] for a length: the decimal numeral. *)
Fixpoint digits (d : Decimal.uint) : ustring :=
  match d with
  | Decimal.Nil => []
  | Decimal.D0 d' => 48 :: digits d'
  | Decimal.D1 d' => 49 :: digits d'
  | Decimal.D2 d' => 50 :: digits d'
  | Decimal.D3 d' => 51 :: digits d'
  | Decimal.D4 d' => 52 :: digits d'
  | Decimal.D5 d' => 53 :: digits d'
  | Decimal.D6 d' => 54 :: digits d'
  | Decimal.D7 d' => 55 :: digits d'
  | Decimal.D8 d' => 56 :: digits d'
  | Decimal.D9 d' => 57 :: digits d'
  end.

Definition decimal (n : nat) : ustring := digits (Nat.to_uint n).

(** [/^#[0-9A-F]{6}$/i.test(s)]: without the [u] flag the [i] flag folds
    only within ASCII for these classes, and without the [m] flag [$] is
    the end of the input. *)
Definition isHexDigit (c : N) : bool :=
  ((48 <=? c) && (c <=? 57)) || ((65 <=? c) && (c <=? 70))
  || ((97 <=? c) && (c <=? 102)).

Definition matchesHexColor (s : ustring) : bool :=
  match s with
  | c :: rest => (c =? 35) && (List.length rest =? 6)%nat && forallb isHexDigit rest
  | [] => false
  end.

End Text.
Import Text.

(** ** The SDK's request and response records *)

(** The SDK types both fields of a blob as optional strings: a request of
    the program gives both, a reply may lack either. *)
Record Blob := { data : option ustring; mimeType : option ustring }.

Record Part := { partText : option ustring; inlineData : option Blob }.

Inductive Contents :=
| ContentsText (prompt : ustring)
| ContentsParts (parts : list Part).

Inductive Schema :=
| SchemaString (description : option ustring)
| SchemaArray (items : Schema)
| SchemaObject (properties : list (ustring * Schema)) (required : list ustring).

Inductive Modality := IMAGE.

Record Config := {
  responseMimeType : option ustring;
  responseSchema : option Schema;
  responseModalities : option (list Modality)
}.

Record Request := {
  model : ustring;
  contents : Contents;
  config : option Config
}.

(** What the program reads of a response: [response.text] and
    [response.candidates?.[0]?.content?.parts?.[0]]; each link of the chain
    may be missing. *)
Record Content := { parts : option (list Part) }.
Record Candidate := { content : option Content }.
Record Response := {
  text : option ustring;
  candidates : option (list Candidate)
}.

Definition firstPart (response : Response) : option Part :=
  match candidates response with
  | Some (candidate :: _) =>
      match content candidate with
      | Some c =>
          match parts c with
          | Some (part :: _) => Some part
          | _ => None
          end
      | None => None
      end
  | _ => None
  end.

(** ** Errors, completions and promises *)

(** A thrown value; the program reads only its [message]. *)
Record Exn := { message : ustring }.

Definition Error (msg : ustring) : Exn := {| message := msg |}.

(** The outcome of evaluating a block (returned or thrown), and equally the
    state of a settled promise. *)
Inductive Settled (A : Type) : Type :=
| Fulfilled (value : A)
| Rejected (reason : Exn).

Arguments Fulfilled {A} value.
Arguments Rejected {A} reason.

Definition bindSettled {A B} (c : Settled A) (k : A -> Settled B) : Settled B :=
  match c with
  | Fulfilled a => k a
  | Rejected e => Rejected e
  end.

Notation "x <~ c ;; k" := (bindSettled c (fun x => k))
  (at level 61, c at next level, right associativity).

(** A promise of the program: every one is settled by the reply to some
    request, at the instant that reply arrives. *)
Record Promise (A : Type) : Type := {
  settled : Settled A;
  settledAt : nat
}.

Definition isRejected {A} (p : Promise A) : bool :=
  match settled p with
  | Rejected _ => true
  | Fulfilled _ => false
  end.

(** [try { const r = await p; body(r) } catch (error) { handler(error) }] *)
Definition tryCatch {A B} (p : Promise A) (body : A -> Settled B)
    (handler : Exn -> Settled B) : Promise B :=
  {| settled :=
       match settled p with
       | Fulfilled a =>
           match body a with
           | Fulfilled b => Fulfilled b
           | Rejected e => handler e
           end
       | Rejected e => handler e
       end;
     settledAt := settledAt p |}.

(** [Promise.all] of two promises: fulfilled when both are, otherwise
    rejected with the reason of the rejection that happens first (the
    leftmost one when two happen at the same instant). *)
Definition both {A B} (p : Promise A) (q : Promise B) : Promise (A * B) :=
  match settled p, settled q with
  | Fulfilled a, Fulfilled b =>
      {| settled := Fulfilled (a, b);
         settledAt := Nat.max (settledAt p) (settledAt q) |}
  | Rejected e, Fulfilled _ => {| settled := Rejected e; settledAt := settledAt p |}
  | Fulfilled _, Rejected e => {| settled := Rejected e; settledAt := settledAt q |}
  | Rejected e1, Rejected e2 =>
      if (settledAt p <=? settledAt q)%nat
      then {| settled := Rejected e1; settledAt := settledAt p |}
      else {| settled := Rejected e2; settledAt := settledAt q |}
  end.

(** [Promise.all([a, b])] where [a] is the promise of an async function
    that awaits the promise rejected at [settledAt a] and lets the
    rejection through, while [b] is rejected by the function that handles
    the reply itself: of two rejections at the same instant, that of [b]
    reaches [Promise.all] first. *)
Definition bothOuter {A B} (p : Promise A) (q : Promise B) : Promise (A * B) :=
  match settled p, settled q with
  | Fulfilled a, Fulfilled b =>
      {| settled := Fulfilled (a, b);
         settledAt := Nat.max (settledAt p) (settledAt q) |}
  | Rejected e, Fulfilled _ => {| settled := Rejected e; settledAt := settledAt p |}
  | Fulfilled _, Rejected e => {| settled := Rejected e; settledAt := settledAt q |}
  | Rejected e1, Rejected e2 =>
      if (settledAt p <? settledAt q)%nat
      then {| settled := Rejected e1; settledAt := settledAt p |}
      else {| settled := Rejected e2; settledAt := settledAt q |}
  end.

(** [Promise.all([a, b, c])] *)
Definition all3 {A B C} (a : Promise A) (b : Promise B) (c : Promise C)
    : Promise (A * (B * C)) :=
  both a (both b c).

(** [Promise.allSettled(promises)]: never rejects. *)
Definition allSettled {A} (promises : list (Promise A)) : Promise (list (Settled A)) :=
  {| settled := Fulfilled (map (@settled A) promises);
     settledAt := fold_right Nat.max 0%nat (map (@settledAt A) promises) |}.

(** The continuation of an async function after [await p]. *)
Definition andThen {A B} (p : Promise A) (k : A -> B) : Promise B :=
  {| settled :=
       match settled p with
       | Fulfilled a => Fulfilled (k a)
       | Rejected e => Rejected e
       end;
     settledAt := settledAt p |}.

(** ** Computations that issue requests *)

Definition M (A : Type) : Type := list Request -> A * list Request.

Definition ret {A} (a : A) : M A := fun log => (a, log).

Definition bind {A B} (c : M A) (k : A -> M B) : M B :=
  fun log => let (a, log') := c log in k a log'.

Notation "x <- c ;; k" := (bind c (fun x => k))
  (at level 61, c at next level, right associativity).

(** [items.map(f)] for an [f] that issues requests: in order. *)
Fixpoint mapM {A B} (f : A -> M B) (items : list A) : M (list B) :=
  match items with
  | [] => ret []
  | item :: rest =>
      b <- f item ;;
      bs <- mapM f rest ;;
      ret (b :: bs)
  end.

(** ** types.ts *)

Inductive DesignStyle := MINIMAL | MATERIAL | IOS | DARK | MODERN | NEUMORPHIC.

Definition styleText (style : DesignStyle) : ustring :=
  match style with
  | MINIMAL => lit "Minimal"
  | MATERIAL => lit "Material UI"
  | IOS => lit "iOS Style"
  | DARK => lit "Dark Mode"
  | MODERN => lit "Modern Flat"
  | NEUMORPHIC => lit "Neumorphic"
  end.

Record Code := { react : ustring; flutter : ustring }.

(** The palette of the App state. [generateColorPalette] itself returns the
    parsed object as it is (see [checkedPalette]); the colors are read from
    the state only inside template literals, hence as their text. *)
Record ColorPalette := { primary : ustring; secondary : ustring; accent : ustring }.

(** ** JavaScript values as [JSON.parse] produces them *)

(** JSON numbers are doubles; the program observes of one only whether it
    is zero (truthiness, [=== 0]) and its ToString text. *)
Class Numbers := {
  number : Type;
  number_isZero : number -> bool;
  number_toString : number -> ustring
}.

Inductive JSValue {numbers : Numbers} : Type :=
| JUndefined
| JNull
| JBool (b : bool)
| JNum (n : number)
| JStr (s : ustring)
| JArr (items : list JSValue)
| JObj (props : list (ustring * JSValue)).

(** Errors raised by the engine rather than by a [throw] of the program;
    their message text is the engine's. *)
Inductive EngineFault :=
| InvalidJson        (* JSON.parse: SyntaxError *)
| NullProperty       (* property read of undefined or null: TypeError *)
| NotAFunction       (* call of a property that is not a function: TypeError *)
| NoPrimitive.       (* object that cannot be converted to a string: TypeError *)

(** What the program runs against: [JSON.parse] ([None] when it throws a
    SyntaxError), the engine's error messages, and the hosted model, which
    answers a request given the requests issued before it. *)
Class Host {numbers : Numbers} := {
  JSON_parse : ustring -> option JSValue;
  engineMessage : EngineFault -> ustring;
  ai : list Request -> Request -> Promise Response
}.

Section Service.

Context {numbers : Numbers} {host : Host}.

Definition engineError (fault : EngineFault) : Exn :=
  {| message := engineMessage fault |}.

(** [await ai.models.generateContent(request)], up to the await. *)
Definition generateContent (request : Request) : M (Promise Response) :=
  fun log => (ai log request, log ++ [request]).

Fixpoint lookup (key : ustring) (props : list (ustring * JSValue)) : option JSValue :=
  match props with
  | [] => None
  | (k, v) :: rest => if ueqb k key then Some v else lookup key rest
  end.

(** [v.key], for the keys the program reads this way ([primary],
    [secondary], [accent], [screens]): no built-in prototype defines them,
    so only an object's own properties answer. *)
Definition getProp (v : JSValue) (key : ustring) : Settled JSValue :=
  match v with
  | JUndefined | JNull => Rejected (engineError NullProperty)
  | JObj props =>
      Fulfilled match lookup key props with
                | Some x => x
                | None => JUndefined
                end
  | JBool _ | JNum _ | JStr _ | JArr _ => Fulfilled JUndefined
  end.

(** ToBoolean *)
Definition truthy (v : JSValue) : bool :=
  match v with
  | JUndefined | JNull => false
  | JBool b => b
  | JNum n => negb (number_isZero n)
  | JStr s => match s with [] => false | _ :: _ => true end
  | JArr _ | JObj _ => true
  end.

(** ToString, as template literals and [RegExp.prototype.test] apply it.
    An array joins its elements with commas, undefined and null elements
    giving the empty string; a plain object gives ["[object Object]"]
    unless an own [toString] property (never callable in parsed JSON)
    shadows the inherited method, in which case no primitive is found. *)
Fixpoint ToString (v : JSValue) : Settled ustring :=
  match v with
  | JUndefined => Fulfilled (lit "undefined")
  | JNull => Fulfilled (lit "null")
  | JBool true => Fulfilled (lit "true")
  | JBool false => Fulfilled (lit "false")
  | JNum n => Fulfilled (number_toString n)
  | JStr s => Fulfilled s
  | JArr items =>
      (fix joinItems (l : list JSValue) : Settled ustring :=
         match l with
         | [] => Fulfilled []
         | item :: rest =>
             first <~ match item with
                      | JUndefined | JNull => Fulfilled []
                      | _ => ToString item
                      end ;;
             match rest with
             | [] => Fulfilled first
             | _ :: _ => others <~ joinItems rest ;; Fulfilled (first ++ [comma] ++ others)
             end
         end) items
  | JObj props =>
      match lookup (lit "toString") props with
      | Some _ => Rejected (engineError NoPrimitive)
      | None => Fulfilled (lit "[object Object]")
      end
  end.

(** [JSON.parse(response.text)]; an undefined text is not JSON. *)
Definition parseText (t : option ustring) : Settled JSValue :=
  match t with
  | Some s =>
      match JSON_parse s with
      | Some v => Fulfilled v
      | None => Rejected (engineError InvalidJson)
      end
  | None => Rejected (engineError InvalidJson)
  end.

Record GeneratedScreen := {
  title : JSValue;
  imageUrl : ustring;
  code : Code
}.

Record GenerateAppScreensResult := {
  successfulScreens : list GeneratedScreen;
  failedScreenReasons : list ustring
}.

(** ** services/geminiService.ts *)

Definition jsonConfig (schema : Schema) : Config :=
  {| responseMimeType := Some (lit "application/json");
     responseSchema := Some schema;
     responseModalities := None |}.

Definition imageConfig : Config :=
  {| responseMimeType := None;
     responseSchema := None;
     responseModalities := Some [IMAGE] |}.

Definition textPart (t : ustring) : Part :=
  {| partText := Some t; inlineData := None |}.

(** [`${x}`] for a string that may be missing. *)
Definition templateText (x : option ustring) : ustring :=
  match x with
  | Some s => s
  | None => lit "undefined"
  end.

(** [`data:image/png;base64,${base64ImageBytes}`] when the first part of
    the first candidate carries inline data: the test is on [inlineData],
    and its [data] is interpolated whether it is there or not. *)
Definition inlineImage (response : Response) : option ustring :=
  match firstPart response with
  | Some part =>
      match inlineData part with
      | Some blob => Some (lit "data:image/png;base64," ++ templateText (data blob))
      | None => None
      end
  | None => None
  end.

(** *** generateColorPalette *)

Definition paletteRequest (baseColor : ustring) : Request :=
  let prompt :=
    nl ++
    lit "    Given a base color of " ++ baseColor ++ lit ", generate a harmonious color palette suitable for a modern mobile app UI." ++ nl ++
    lit "    - The primary color should be the provided base color." ++ nl ++
    lit "    - The secondary color should complement the primary color." ++ nl ++
    lit "    - The accent color should be a vibrant color that stands out for calls-to-action." ++ nl ++
    lit "    " ++ nl ++
    lit "    Return the result as a JSON object with three keys: " ++ dq ++ lit "primary" ++ dq ++ lit ", " ++ dq ++ lit "secondary" ++ dq ++ lit ", and " ++ dq ++ lit "accent" ++ dq ++ lit "." ++ nl ++
    lit "    Each key's value must be a 7-character hex color code string (e.g., " ++ dq ++ lit "#RRGGBB" ++ dq ++ lit ")." ++ nl ++
    lit "    " in
  {| model := lit "gemini-2.5-flash";
     contents := ContentsText prompt;
     config := Some (jsonConfig
       (SchemaObject
          [(lit "primary", SchemaString None);
           (lit "secondary", SchemaString None);
           (lit "accent", SchemaString None)]
          [lit "primary"; lit "secondary"; lit "accent"])) |}.

Definition isValidHex (color : JSValue) : Settled bool :=
  s <~ ToString color ;;
  Fulfilled (matchesHexColor s).

(** The [try] block of [generateColorPalette] once the reply is there. *)
Definition checkedPalette (response : Response) : Settled JSValue :=
  palette <~ parseText (text response) ;;
  p <~ getProp palette (lit "primary") ;;
  primaryOk <~ isValidHex p ;;
  if negb primaryOk then Rejected (Error (lit "AI returned invalid hex codes.")) else
  s <~ getProp palette (lit "secondary") ;;
  secondaryOk <~ isValidHex s ;;
  if negb secondaryOk then Rejected (Error (lit "AI returned invalid hex codes.")) else
  a <~ getProp palette (lit "accent") ;;
  accentOk <~ isValidHex a ;;
  if negb accentOk then Rejected (Error (lit "AI returned invalid hex codes.")) else
  Fulfilled palette.

Definition generateColorPalette (baseColor : ustring) : M (Promise JSValue) :=
  response <- generateContent (paletteRequest baseColor) ;;
  ret (tryCatch response checkedPalette
         (fun _ => Rejected (Error (lit "Failed to generate a valid color palette from the AI.")))).

(** *** extractScreenNames *)

Definition extractRequest (prompt : ustring) : Request :=
  {| model := lit "gemini-2.5-flash";
     contents := ContentsText (
       lit "Based on the following app description, identify the distinct user-facing screens or pages." ++ nl ++
       lit "            Description: " ++ dq ++ prompt ++ dq ++ nl ++
       lit "            Return your answer as a JSON array of strings, where each string is a concise name for a screen (e.g., " ++ dq ++ lit "Login Screen" ++ dq ++ lit ", " ++ dq ++ lit "User Dashboard" ++ dq ++ lit ", " ++ dq ++ lit "Settings Page" ++ dq ++ lit ").");
     config := Some (jsonConfig
       (SchemaObject
          [(lit "screens",
            SchemaArray (SchemaString (Some (lit "Name of a single app screen"))))]
          [])) |}.

Definition extractScreenNames (prompt : ustring) : M (Promise JSValue) :=
  response <- generateContent (extractRequest prompt) ;;
  ret (tryCatch response
         (fun response =>
            jsonResponse <~ parseText (text response) ;;
            screens <~ getProp jsonResponse (lit "screens") ;;
            Fulfilled (if truthy screens then screens else JArr []))
         (fun _ => Rejected (Error (lit "Failed to parse app description. Please try rephrasing your idea.")))).

(** *** generateScreenImage

    The three per-screen generators build their prompt before the [try]
    block: when [`${screenName}`] throws, the promise is rejected at once
    and no request is issued. *)

(** A promise rejected before any reply arrives. *)
Definition rejectedAtOnce {A} (e : Exn) : Promise A :=
  {| settled := Rejected e; settledAt := 0 |}.

Definition imageRequest (screenName appDescription : ustring) (style : DesignStyle)
    (primaryColor secondaryColor : ustring) : Request :=
  let detailedPrompt :=
    lit "Generate a high-quality mobile app UI mockup for a '" ++ screenName ++ lit "'." ++ nl ++
    lit "    The app is a '" ++ appDescription ++ lit "'." ++ nl ++
    lit "    The design style must be '" ++ styleText style ++ lit "'." ++ nl ++
    lit "    The primary color for the theme should be " ++ primaryColor ++ lit " and the secondary color should be " ++ secondaryColor ++ lit "." ++ nl ++
    lit "    The screen should look complete, polished, and professional, including relevant UI elements like buttons, text fields, icons, and placeholder content." ++ nl ++
    lit "    Ensure the visual design is modern, aesthetically pleasing, and consistent with the requested style and colors." ++ nl ++
    lit "    Do not include any text labels like " ++ dq ++ lit "UI design" ++ dq ++ lit " or " ++ dq ++ lit "mockup" ++ dq ++ lit " on the image itself. The image should only be the app screen." in
  {| model := lit "gemini-2.5-flash-image";
     contents := ContentsParts [textPart detailedPrompt];
     config := Some imageConfig |}.

Definition generateScreenImage (screenName : JSValue) (appDescription : ustring)
    (style : DesignStyle) (primaryColor secondaryColor : ustring) : M (Promise ustring) :=
  match ToString screenName with
  | Rejected e => ret (rejectedAtOnce e)
  | Fulfilled name =>
      response <- generateContent
        (imageRequest name appDescription style primaryColor secondaryColor) ;;
      ret (tryCatch response
             (fun response =>
                match inlineImage response with
                | Some url => Fulfilled url
                | None =>
                    Rejected (Error (lit "No image data found in response for " ++ name ++ lit "."))
                end)
             (fun _ => Rejected (Error (lit "Failed to generate UI for " ++ name ++ lit "."))))
  end.

(** *** generateScreenCodeReact *)

Definition reactRequest (screenName appDescription : ustring) (style : DesignStyle)
    (primaryColor secondaryColor : ustring) : Request :=
  let codePrompt :=
    lit "Generate a single React functional component for a '" ++ screenName ++ lit "' using JSX." ++ nl ++
    lit "    The app is a '" ++ appDescription ++ lit "'." ++ nl ++
    lit "    The design style must be '" ++ styleText style ++ lit "'." ++ nl ++
    lit "    The primary color is " ++ primaryColor ++ lit " and the secondary color is " ++ secondaryColor ++ lit ". Use these colors for branding elements like buttons, headers, and highlights." ++ nl ++
    lit "    Use Tailwind CSS for all styling. Do not use custom CSS, styled-components, or inline style objects." ++ nl ++
    lit "    The component should be self-contained and use placeholder data. For icons, use an SVG string directly inside the JSX." ++ nl ++
    lit "    Return ONLY the raw JSX code for the component's body, without any surrounding text, explanations, import statements, or markdown fences like ```jsx." ++ nl ++
    lit "    The root element should be a div with appropriate background and layout classes, styled to look like a mobile screen." in
  {| model := lit "gemini-2.5-pro";
     contents := ContentsText codePrompt;
     config := None |}.

(** [response.text.replace(fences, '').trim()]; an undefined text has no
    [replace]. *)
Definition rawCodeOf (fences : list ustring) (response : Response) : Settled ustring :=
  match text response with
  | Some t => Fulfilled (trim (removeAll fences t))
  | None => Rejected (engineError NullProperty)
  end.

(** [!rawCode || rawCode.length < 50] *)
Definition tooShort (rawCode : ustring) : bool :=
  match rawCode with
  | [] => true
  | _ :: _ => (List.length rawCode <? 50)%nat
  end.

(** [screenName.replace(/[^a-zA-Z0-9]/g, '')]: only a string has a
    [replace] method. *)
Definition componentNameOf (screenName : JSValue) : Settled ustring :=
  match screenName with
  | JStr s => Fulfilled (keepAlphaNumeric s)
  | JUndefined | JNull => Rejected (engineError NullProperty)
  | JBool _ | JNum _ | JArr _ | JObj _ => Rejected (engineError NotAFunction)
  end.

Definition reactComponent (componentName rawCode : ustring) : ustring :=
  lit "import React from 'react';" ++ nl ++
  nl ++
  lit "const " ++ componentName ++ lit " = () => {" ++ nl ++
  lit "  return (" ++ nl ++
  join nl (map (fun line => lit "    " ++ line) (split newline rawCode)) ++ nl ++
  lit "  );" ++ nl ++
  lit "};" ++ nl ++
  nl ++
  lit "export default " ++ componentName ++ lit ";" ++ nl.

Definition generateScreenCodeReact (screenName : JSValue) (appDescription : ustring)
    (style : DesignStyle) (primaryColor secondaryColor : ustring) : M (Promise ustring) :=
  match ToString screenName with
  | Rejected e => ret (rejectedAtOnce e)
  | Fulfilled name =>
      response <- generateContent
        (reactRequest name appDescription style primaryColor secondaryColor) ;;
      ret (tryCatch response
             (fun response =>
                rawCode <~ rawCodeOf [lit "```jsx"; lit "```"] response ;;
                if tooShort rawCode
                then Rejected (Error (lit "AI returned empty or invalid code."))
                else
                  componentName <~ componentNameOf screenName ;;
                  Fulfilled (reactComponent componentName rawCode))
             (fun _ =>
                Rejected (Error (lit "Failed to generate React code for " ++ dq ++ name ++ dq ++ lit "."))))
  end.

(** *** generateScreenCodeFlutter *)

Definition flutterRequest (screenName appDescription : ustring) (style : DesignStyle)
    (primaryColor secondaryColor : ustring) : Request :=
  let codePrompt :=
    lit "Generate a single, self-contained Flutter widget for a '" ++ screenName ++ lit "'." ++ nl ++
    lit "    The app is a '" ++ appDescription ++ lit "'." ++ nl ++
    lit "    The design style must be '" ++ styleText style ++ lit "'." ++ nl ++
    lit "    The primary color is " ++ primaryColor ++ lit " and the secondary color is " ++ secondaryColor ++ lit ". Use these hex colors for branding elements like buttons, headers, and highlights by converting them to Flutter Color objects (e.g., Color(0xFF8B5CF6))." ++ nl ++
    lit "    Use the Material library for UI components (e.g., Scaffold, AppBar, Text, ElevatedButton)." ++ nl ++
    lit "    The widget should be a StatelessWidget or StatefulWidget, be well-structured, and use placeholder data. For icons, use standard Material icons (e.g., Icons.home)." ++ nl ++
    lit "    Return ONLY the raw Dart code for the widget class, without any surrounding text, explanations, import statements, or markdown fences like ```dart." in
  {| model := lit "gemini-2.5-pro";
     contents := ContentsText codePrompt;
     config := None |}.

Definition flutterWidget (rawCode : ustring) : ustring :=
  lit "import 'package:flutter/material.dart';" ++ nl ++
  nl ++
  rawCode ++ nl.

Definition generateScreenCodeFlutter (screenName : JSValue) (appDescription : ustring)
    (style : DesignStyle) (primaryColor secondaryColor : ustring) : M (Promise ustring) :=
  match ToString screenName with
  | Rejected e => ret (rejectedAtOnce e)
  | Fulfilled name =>
      response <- generateContent
        (flutterRequest name appDescription style primaryColor secondaryColor) ;;
      ret (tryCatch response
             (fun response =>
                rawCode <~ rawCodeOf [lit "```dart"; lit "```"] response ;;
                if tooShort rawCode
                then Rejected (Error (lit "AI returned empty or invalid code."))
                else Fulfilled (flutterWidget rawCode))
             (fun _ =>
                Rejected (Error (lit "Failed to generate Flutter code for " ++ dq ++ name ++ dq ++ lit "."))))
  end.

(** *** generateLogo *)

Definition logoRequest (appDescription : ustring) (style : DesignStyle)
    (primaryColor secondaryColor : ustring) : Request :=
  let logoPrompt :=
    lit "Generate a clean, modern, and simple logo for a mobile app." ++ nl ++
    lit "    The app is a '" ++ appDescription ++ lit "'." ++ nl ++
    lit "    The design style should be consistent with a '" ++ styleText style ++ lit "' theme." ++ nl ++
    lit "    The logo should be iconic, easily recognizable, and suitable for a small app icon." ++ nl ++
    lit "    It should be a vector-style graphic. The primary color should be " ++ primaryColor ++ lit " and secondary color " ++ secondaryColor ++ lit "." ++ nl ++
    lit "    The background should be transparent." ++ nl ++
    lit "    Do not include any text in the logo itself." in
  {| model := lit "gemini-2.5-flash-image";
     contents := ContentsParts [textPart logoPrompt];
     config := Some imageConfig |}.

Definition generateLogo (appDescription : ustring) (style : DesignStyle)
    (primaryColor secondaryColor : ustring) : M (Promise ustring) :=
  response <- generateContent (logoRequest appDescription style primaryColor secondaryColor) ;;
  ret (tryCatch response
         (fun response =>
            match inlineImage response with
            | Some url => Fulfilled url
            | None => Rejected (Error (lit "No image data found for logo in response."))
            end)
         (fun _ => Rejected (Error (lit "Failed to generate a logo for the app.")))).

(** *** generateAppScreens *)

(** [screenNames.length === 0] on whatever [extractScreenNames] resolved
    to. *)
Definition lengthIsZero (screenNames : JSValue) : bool :=
  match screenNames with
  | JArr [] => true
  | JStr [] => true
  | JObj props =>
      match lookup (lit "length") props with
      | Some (JNum n) => number_isZero n
      | _ => false
      end
  | _ => false
  end.

(** The async arrow mapped over the screen names: the three requests of a
    screen are issued in order, then awaited together. *)
Definition screenPromise (prompt : ustring) (style : DesignStyle)
    (primaryColor secondaryColor : ustring) (name : JSValue) : M (Promise GeneratedScreen) :=
  image <- generateScreenImage name prompt style primaryColor secondaryColor ;;
  reactCode <- generateScreenCodeReact name prompt style primaryColor secondaryColor ;;
  flutterCode <- generateScreenCodeFlutter name prompt style primaryColor secondaryColor ;;
  ret (andThen (all3 image reactCode flutterCode)
         (fun '(imageUrl, (reactCode, flutterCode)) =>
            {| title := name;
               imageUrl := imageUrl;
               code := {| react := reactCode; flutter := flutterCode |} |})).

(** [e.message || fallback] *)
Definition orElse (s fallback : ustring) : ustring :=
  match s with
  | [] => fallback
  | _ :: _ => s
  end.

(** The [forEach] over the settled results. *)
Definition pushResult (acc : GenerateAppScreensResult) (result : Settled GeneratedScreen)
    : GenerateAppScreensResult :=
  match result with
  | Fulfilled value =>
      {| successfulScreens := successfulScreens acc ++ [value];
         failedScreenReasons := failedScreenReasons acc |}
  | Rejected reason =>
      {| successfulScreens := successfulScreens acc;
         failedScreenReasons :=
           failedScreenReasons acc
           ++ [orElse (message reason) (lit "An unknown screen generation error occurred.")] |}
  end.

Definition collect (results : list (Settled GeneratedScreen)) : GenerateAppScreensResult :=
  fold_left pushResult results {| successfulScreens := []; failedScreenReasons := [] |}.

Definition noScreensMessage : ustring :=
  lit "Could not identify any screens from your description. Please be more specific about the pages you need, e.g., 'login page', 'dashboard'.".

(** [generateAppScreens] from its first await on: [awaited] is the promise
    of [extractScreenNames]. Only an array has a [map] method. *)
Definition generateAppScreens_resume (awaited : Promise JSValue) (prompt : ustring)
    (style : DesignStyle) (primaryColor secondaryColor : ustring)
    : M (Promise GenerateAppScreensResult) :=
  match settled awaited with
  | Rejected e => ret {| settled := Rejected e; settledAt := settledAt awaited |}
  | Fulfilled screenNames =>
      if negb (truthy screenNames) || lengthIsZero screenNames
      then ret {| settled := Rejected (Error noScreensMessage);
                  settledAt := settledAt awaited |}
      else
        match screenNames with
        | JArr names =>
            screenPromises <- mapM (screenPromise prompt style primaryColor secondaryColor) names ;;
            ret (andThen (allSettled screenPromises) collect)
        | JUndefined | JNull =>
            ret {| settled := Rejected (engineError NullProperty);
                   settledAt := settledAt awaited |}
        | JBool _ | JNum _ | JStr _ | JObj _ =>
            ret {| settled := Rejected (engineError NotAFunction);
                   settledAt := settledAt awaited |}
        end
  end.

Definition generateAppScreens (prompt : ustring) (style : DesignStyle)
    (primaryColor secondaryColor : ustring) : M (Promise GenerateAppScreensResult) :=
  screenNames <- extractScreenNames prompt ;;
  generateAppScreens_resume screenNames prompt style primaryColor secondaryColor.

(** *** editImage *)

Definition editRequest (pureBase64 mimeType prompt : ustring) : Request :=
  let imagePart :=
    {| partText := None;
       inlineData := Some {| data := Some pureBase64; mimeType := Some mimeType |} |} in
  {| model := lit "gemini-2.5-flash-image";
     contents := ContentsParts [imagePart; textPart prompt];
     config := Some imageConfig |}.

Definition editImage (base64ImageData mimeType prompt : ustring) : M (Promise ustring) :=
  match nth_error (split comma base64ImageData) 1 with
  | None | Some [] =>
      ret (rejectedAtOnce (Error (lit "Invalid base64 image data provided.")))
  | Some pureBase64 =>
      response <- generateContent (editRequest pureBase64 mimeType prompt) ;;
      ret (tryCatch response
             (fun response =>
                match inlineImage response with
                | Some url => Fulfilled url
                | None => Rejected (Error (lit "No edited image data found in response."))
                end)
             (fun _ => Rejected (Error (lit "Failed to edit the image with the provided prompt."))))
  end.

(** ** App.tsx: the state that [handleGenerate] reads and writes

    Notification ids ([Date.now()]) and their removal after five seconds
    are left out: [notifications] lists what was shown, in order. *)

Inductive NotificationType := success | error.

Record Notification := {
  notificationMessage : ustring;
  notificationType : NotificationType
}.

Record AppState := {
  prompt : ustring;
  selectedStyle : DesignStyle;
  palette : option ColorPalette;
  generatedScreens : list GeneratedScreen;
  logoImageUrl : option ustring;
  isLoading : bool;
  showFigmaInstructions : bool;
  notifications : list Notification
}.

Definition showNotification (msg : ustring) (type : NotificationType) (st : AppState)
    : AppState :=
  {| prompt := prompt st; selectedStyle := selectedStyle st; palette := palette st;
     generatedScreens := generatedScreens st; logoImageUrl := logoImageUrl st;
     isLoading := isLoading st; showFigmaInstructions := showFigmaInstructions st;
     notifications := notifications st ++ [{| notificationMessage := msg; notificationType := type |}] |}.

Definition setIsLoading (b : bool) (st : AppState) : AppState :=
  {| prompt := prompt st; selectedStyle := selectedStyle st; palette := palette st;
     generatedScreens := generatedScreens st; logoImageUrl := logoImageUrl st;
     isLoading := b; showFigmaInstructions := showFigmaInstructions st;
     notifications := notifications st |}.

Definition setGeneratedScreens (screens : list GeneratedScreen) (st : AppState) : AppState :=
  {| prompt := prompt st; selectedStyle := selectedStyle st; palette := palette st;
     generatedScreens := screens; logoImageUrl := logoImageUrl st;
     isLoading := isLoading st; showFigmaInstructions := showFigmaInstructions st;
     notifications := notifications st |}.

Definition setLogoImageUrl (url : option ustring) (st : AppState) : AppState :=
  {| prompt := prompt st; selectedStyle := selectedStyle st; palette := palette st;
     generatedScreens := generatedScreens st; logoImageUrl := url;
     isLoading := isLoading st; showFigmaInstructions := showFigmaInstructions st;
     notifications := notifications st |}.

Definition setShowFigmaInstructions (b : bool) (st : AppState) : AppState :=
  {| prompt := prompt st; selectedStyle := selectedStyle st; palette := palette st;
     generatedScreens := generatedScreens st; logoImageUrl := logoImageUrl st;
     isLoading := isLoading st; showFigmaInstructions := b;
     notifications := notifications st |}.

Definition noScreenGeneratedMessage : ustring :=
  lit "Failed to generate any screens. Please try refining your prompt.".

(** The [try] block of [handleGenerate] once the [Promise.all] has settled:
    the state it leaves, and what it throws if it does. *)
Definition generateTry (awaited : Promise (GenerateAppScreensResult * ustring))
    (st : AppState) : AppState * option Exn :=
  match settled awaited with
  | Rejected e => (st, Some e)
  | Fulfilled (screenResult, logoUrl) =>
      let succeeded := successfulScreens screenResult in
      let failed := failedScreenReasons screenResult in
      let st := setGeneratedScreens succeeded st in
      let st := setLogoImageUrl (Some logoUrl) st in
      let st :=
        if (0 <? List.length succeeded)%nat
        then showNotification
               (lit "Successfully generated " ++ decimal (List.length succeeded) ++ lit " screen(s)!")
               success st
        else st in
      let st :=
        if (0 <? List.length failed)%nat
        then showNotification
               (lit "Could not generate some screens: " ++ join (lit ", ") (firstn 2 failed))
               error st
        else st in
      if (List.length succeeded =? 0)%nat && (0 <? List.length failed)%nat
      then (st, Some (Error noScreenGeneratedMessage))
      else (st, None)
  end.

(** The two arguments of the [Promise.all] in [handleGenerate]. Both calls
    are evaluated before anything is awaited: [generateAppScreens] runs up
    to its first await, which issues the extraction request, then
    [generateLogo] issues the logo request; the per-screen requests follow
    once the extraction reply is there. *)
Definition generateBoth (st : AppState) (colors : ColorPalette)
    : M (Promise GenerateAppScreensResult * Promise ustring) :=
  screenNames <- extractScreenNames (prompt st) ;;
  logo <- generateLogo (prompt st) (selectedStyle st) (primary colors) (secondary colors) ;;
  screens <- generateAppScreens_resume screenNames (prompt st) (selectedStyle st)
               (primary colors) (secondary colors) ;;
  ret (screens, logo).

(** [handleGenerate]: the state once the handler has run to its end. A
    rejection of [generateAppScreens] is one that it awaited, of
    [extractScreenNames]; hence [bothOuter]. *)
Definition handleGenerate (st : AppState) : M AppState :=
  match prompt st with
  | [] => ret (showNotification (lit "Please enter an app description.") error st)
  | _ :: _ =>
      match palette st with
      | None => ret (showNotification (lit "Please generate a color palette first.") error st)
      | Some colors =>
          let st := setIsLoading true st in
          let st := setGeneratedScreens [] st in
          let st := setLogoImageUrl None st in
          let st := setShowFigmaInstructions false st in
          awaited <- generateBoth st colors ;;
          let (screens, logo) := awaited in
          let (st, thrown) := generateTry (bothOuter screens logo) st in
          let st :=
            match thrown with
            | Some e =>
                showNotification
                  (orElse (message e) (lit "An unknown error occurred during generation."))
                  error st
            | None => st
            end in
          ret (setIsLoading false st)
      end
  end.

End Service.

(** ** The component name, in the words of the specification

    "The screen name with all non-alphanumeric characters removed", read
    as the source reads it: a character is alphanumeric when it is an
    ASCII digit or letter; the others are dropped and those kept stay in
    their order. *)

Definition isLetterOrDigit (c : N) : Prop :=
  (48 <= c /\ c <= 57)%N \/ (65 <= c /\ c <= 90)%N \/ (97 <= c /\ c <= 122)%N.

Inductive nonAlphaNumericRemoved : ustring -> ustring -> Prop :=
| removed_end : nonAlphaNumericRemoved [] []
| removed_keep (c : N) (name stripped : ustring) :
    isLetterOrDigit c ->
    nonAlphaNumericRemoved name stripped ->
    nonAlphaNumericRemoved (c :: name) (c :: stripped)
| removed_drop (c : N) (name stripped : ustring) :
    ~ isLetterOrDigit c ->
    nonAlphaNumericRemoved name stripped ->
    nonAlphaNumericRemoved (c :: name) stripped.

(** ** Vocabulary of the properties *)

Section Vocabulary.

Context {numbers : Numbers} {host : Host}.

(** The inline data of the first part of the first candidate, if any. *)
Definition firstInlineData (response : Response) : option Blob :=
  match firstPart response with
  | Some part => inlineData part
  | None => None
  end.

(** The three calls made for one screen of a batch. *)
Record ScreenCalls := {
  screen : JSValue;
  imageCall : Promise ustring;
  reactCall : Promise ustring;
  flutterCall : Promise ustring
}.

(** The calls of a batch over [names], the first of them made when [log]
    lists the requests issued so far. *)
Fixpoint screenCalls (prompt : ustring) (style : DesignStyle)
    (primaryColor secondaryColor : ustring) (names : list JSValue) (log : list Request)
    : list ScreenCalls :=
  match names with
  | [] => []
  | name :: rest =>
      let (image, log1) := generateScreenImage name prompt style primaryColor secondaryColor log in
      let (reactCode, log2) := generateScreenCodeReact name prompt style primaryColor secondaryColor log1 in
      let (flutterCode, log3) := generateScreenCodeFlutter name prompt style primaryColor secondaryColor log2 in
      {| screen := name; imageCall := image; reactCall := reactCode; flutterCall := flutterCode |}
      :: screenCalls prompt style primaryColor secondaryColor rest log3
  end.

(** A screen fails when any of its three calls rejects. *)
Definition screenFails (c : ScreenCalls) : bool :=
  isRejected (imageCall c) || isRejected (reactCall c) || isRejected (flutterCall c).

(** [s] is the record of the screen of [c]: its title, and what its three
    calls were fulfilled with. *)
Definition isRecordOf (c : ScreenCalls) (s : GeneratedScreen) : Prop :=
  title s = screen c
  /\ settled (imageCall c) = Fulfilled (imageUrl s)
  /\ settled (reactCall c) = Fulfilled (react (code s))
  /\ settled (flutterCall c) = Fulfilled (flutter (code s)).

(** What is recorded for a rejection with [e]. *)
Definition reasonOf (e : Exn) : ustring :=
  orElse (message e) (lit "An unknown screen generation error occurred.").

(** [reason] records the rejection of one of the three calls of [c]. *)
Definition recordsRejectionOf (c : ScreenCalls) (reason : ustring) : Prop :=
  exists e,
    reason = reasonOf e
    /\ In (Rejected e) [settled (imageCall c); settled (reactCall c); settled (flutterCall c)].

(** [key] of a parsed palette passes the hex test of [generateColorPalette]. *)
Definition fieldIsHex (palette : JSValue) (key : ustring) : bool :=
  match getProp palette key with
  | Fulfilled v =>
      match isValidHex v with
      | Fulfilled ok => ok
      | Rejected _ => false
      end
  | Rejected _ => false
  end.


(** How the promise of one screen settles: the [Promise.all] of its three
    calls, then the record. *)
Definition settlementOf (c : ScreenCalls) : Settled GeneratedScreen :=
  settled
    (andThen (all3 (imageCall c) (reactCall c) (flutterCall c))
       (fun '(imageUrl, (reactCode, flutterCode)) =>
          {| title := screen c;
             imageUrl := imageUrl;
             code := {| react := reactCode; flutter := flutterCode |} |})).

(** The screens of a batch that succeed, and those that fail. *)
Definition succeeding (calls : list ScreenCalls) : list ScreenCalls :=
  filter (fun c => negb (screenFails c)) calls.

Definition failing (calls : list ScreenCalls) : list ScreenCalls :=
  filter screenFails calls.

End Vocabulary.

(** ** The rest of the program

    The palette and image-edit handlers of [App.tsx], its notifications
    with their ids, the download name of [components/ScreenCard.tsx] and
    the radio group of [components/StyleSelector.tsx]. The zoom and pan
    handlers compute on doubles and are not modelled: of the view, only
    its reset by [handleImageSelect] is. *)

(** [s.includes(p)] *)
Fixpoint includes (p s : ustring) : bool :=
  startsWith p s
  || match s with
     | [] => false
     | _ :: s' => includes p s'
     end.

(** The markdown fence that the code generators remove. *)
Definition fence : ustring := lit "```".

(** [s.replace(/\s+/g, '_')]: every maximal run of white space becomes one
    underscore. [inRun] tells that the code unit before was white space. *)
Fixpoint replaceWhiteSpace (inRun : bool) (s : ustring) : ustring :=
  match s with
  | [] => []
  | c :: s' =>
      if isWhiteSpace c
      then if inRun then replaceWhiteSpace true s' else 95%N :: replaceWhiteSpace true s'
      else c :: replaceWhiteSpace false s'
  end.

(** *** components/StyleSelector.tsx *)

(** [Object.values(DesignStyle)] *)
Definition styles : list DesignStyle := [MINIMAL; MATERIAL; IOS; DARK; MODERN; NEUMORPHIC].

(** [checked={selectedStyle === style}]: at run time a style is its text. *)
Definition checked (selectedStyle style : DesignStyle) : bool :=
  ueqb (styleText selectedStyle) (styleText style).


(** *** App.tsx: notifications with their ids *)

(** A notification of the App state: [id] is the reading of [Date.now()]
    when it was shown. *)
Record TimedNotification := {
  notificationId : N;
  notification : Notification
}.

(** [removeNotification], as the close button and the timer of a
    notification call it. *)
Definition removeNotification (id : N) (current : list TimedNotification)
    : list TimedNotification :=
  filter (fun n => negb (notificationId n =? id)%N) current.

(** [showNotification] when [Date.now()] returns [now]; the timer it starts
    calls [removeNotification now] five seconds later. *)
Definition showNotificationAt (now : N) (msg : ustring) (type : NotificationType)
    (current : list TimedNotification) : list TimedNotification :=
  current
  ++ [{| notificationId := now;
         notification := {| notificationMessage := msg; notificationType := type |} |}].

Section Handlers.

Context {numbers : Numbers} {host : Host}.

(** *** components/ScreenCard.tsx *)

(** [`${screen.title.replace(/\s+/g, '_')}.png`]: only a string has a
    [replace] method. *)
Definition downloadName (title : JSValue) : Settled ustring :=
  match title with
  | JStr s => Fulfilled (replaceWhiteSpace false s ++ lit ".png")
  | JUndefined | JNull => Rejected (engineError NullProperty)
  | JBool _ | JNum _ | JArr _ | JObj _ => Rejected (engineError NotAFunction)
  end.

(** *** App.tsx: what the generator tab shows below its form

    The loader while loading; otherwise, with screens, the logo if there
    is one, the export controls and one card per screen; otherwise the
    placeholder. *)

Record ResultsArea := {
  showsLoader : bool;
  shownLogo : option ustring;
  showsExportControls : bool;
  shownCards : list GeneratedScreen;
  showsPlaceholder : bool
}.

Definition resultsArea (st : AppState) : ResultsArea :=
  let withScreens := negb (isLoading st) && (0 <? List.length (generatedScreens st))%nat in
  {| showsLoader := isLoading st;
     shownLogo :=
       if withScreens
       then match logoImageUrl st with
            | Some (c :: url) => Some (c :: url)
            | Some [] | None => None
            end
       else None;
     showsExportControls := withScreens;
     shownCards := if withScreens then generatedScreens st else [];
     showsPlaceholder :=
       negb (isLoading st) && (List.length (generatedScreens st) =? 0)%nat |}.


(** *** App.tsx: handleGeneratePalette

    The palette of the state is the object that [generateColorPalette]
    returned, as it is. *)

Record PaletteState := {
  baseColor : ustring;
  currentPalette : option JSValue;
  isGeneratingPalette : bool;
  paletteNotifications : list Notification
}.

Definition setBaseColor (color : ustring) (st : PaletteState) : PaletteState :=
  {| baseColor := color; currentPalette := currentPalette st;
     isGeneratingPalette := isGeneratingPalette st;
     paletteNotifications := paletteNotifications st |}.

Definition setPalette (p : option JSValue) (st : PaletteState) : PaletteState :=
  {| baseColor := baseColor st; currentPalette := p;
     isGeneratingPalette := isGeneratingPalette st;
     paletteNotifications := paletteNotifications st |}.

Definition setIsGeneratingPalette (b : bool) (st : PaletteState) : PaletteState :=
  {| baseColor := baseColor st; currentPalette := currentPalette st;
     isGeneratingPalette := b;
     paletteNotifications := paletteNotifications st |}.

Definition notifyPalette (msg : ustring) (type : NotificationType) (st : PaletteState)
    : PaletteState :=
  {| baseColor := baseColor st; currentPalette := currentPalette st;
     isGeneratingPalette := isGeneratingPalette st;
     paletteNotifications :=
       paletteNotifications st ++ [{| notificationMessage := msg; notificationType := type |}] |}.

(** The state of a fresh App. *)
Definition initialPaletteState : PaletteState :=
  {| baseColor := lit "#A78BFA";
     currentPalette :=
       Some (JObj [(lit "primary", JStr (lit "#A78BFA"));
                   (lit "secondary", JStr (lit "#2DD4BF"));
                   (lit "accent", JStr (lit "#F59E0B"))]);
     isGeneratingPalette := false;
     paletteNotifications := [] |}.

(** [handleGeneratePalette]: the state once the handler has run to its
    end. *)
Definition handleGeneratePalette (st : PaletteState) : M PaletteState :=
  let st := setIsGeneratingPalette true st in
  newPalette <- generateColorPalette (baseColor st) ;;
  let st :=
    match settled newPalette with
    | Fulfilled value =>
        notifyPalette (lit "Color palette generated successfully!") success
          (setPalette (Some value) st)
    | Rejected e =>
        notifyPalette (orElse (message e) (lit "Failed to generate color palette.")) error st
    end in
  ret (setIsGeneratingPalette false st).

(** What the user does with the color picker: type or pick a base color,
    or press "Generate Palette" and wait for it to finish. *)
Inductive PaletteEvent :=
| BaseColorChanged (color : ustring)
| GeneratePaletteClicked.

Definition paletteStep (event : PaletteEvent) (st : PaletteState) : M PaletteState :=
  match event with
  | BaseColorChanged color => ret (setBaseColor color st)
  | GeneratePaletteClicked => handleGeneratePalette st
  end.

Fixpoint paletteRun (events : list PaletteEvent) (st : PaletteState) : M PaletteState :=
  match events with
  | [] => ret st
  | event :: rest =>
      st' <- paletteStep event st ;;
      paletteRun rest st'
  end.

(** The three fields of the palette of the state pass the hex test. *)
Definition paletteIsHex (st : PaletteState) : bool :=
  match currentPalette st with
  | Some p =>
      fieldIsHex p (lit "primary") && fieldIsHex p (lit "secondary")
      && fieldIsHex p (lit "accent")
  | None => false
  end.

(** *** What a batch asks of the model *)

(** The requests that the three generators issue for one screen name: none
    when the name cannot be converted to a string. *)
Definition screenRequests (prompt : ustring) (style : DesignStyle)
    (primaryColor secondaryColor : ustring) (name : JSValue) : list Request :=
  match ToString name with
  | Fulfilled n =>
      [imageRequest n prompt style primaryColor secondaryColor;
       reactRequest n prompt style primaryColor secondaryColor;
       flutterRequest n prompt style primaryColor secondaryColor]
  | Rejected _ => []
  end.

(** The names of a batch, if the extraction yields one. *)
Definition batchNames (awaited : Promise JSValue) : list JSValue :=
  match settled awaited with
  | Fulfilled (JArr names) => names
  | _ => []
  end.

End Handlers.

(** *** App.tsx: the image editor *)

Section Editor.

Context {numbers : Numbers} {host : Host}.

(** [{ scale, pan: { x, y } }], and [{ scale: 1, pan: { x: 0, y: 0 } }]. *)
Variable ViewTransform : Type.
Variable initialView : ViewTransform.


(** [base64] is [reader.result]: the data URL of the file, or null when
    the read failed. *)
Record OriginalImage := {
  base64 : option ustring;
  imageMimeType : ustring
}.

Record EditorState := {
  originalImage : option OriginalImage;
  editPrompt : ustring;
  editedImage : option ustring;
  isEditing : bool;
  viewTransform : ViewTransform;
  editorNotifications : list Notification
}.


Definition setEditedImage (url : option ustring) (st : EditorState) : EditorState :=
  {| originalImage := originalImage st; editPrompt := editPrompt st; editedImage := url;
     isEditing := isEditing st; viewTransform := viewTransform st;
     editorNotifications := editorNotifications st |}.

Definition setIsEditing (b : bool) (st : EditorState) : EditorState :=
  {| originalImage := originalImage st; editPrompt := editPrompt st;
     editedImage := editedImage st;
     isEditing := b; viewTransform := viewTransform st;
     editorNotifications := editorNotifications st |}.


Definition notifyEditor (msg : ustring) (type : NotificationType) (st : EditorState)
    : EditorState :=
  {| originalImage := originalImage st; editPrompt := editPrompt st;
     editedImage := editedImage st;
     isEditing := isEditing st; viewTransform := viewTransform st;
     editorNotifications :=
       editorNotifications st ++ [{| notificationMessage := msg; notificationType := type |}] |}.



(** [editImage(originalImage.base64, originalImage.mimeType, editPrompt)]:
    null has no [split]. *)
Definition editOriginal (image : OriginalImage) (prompt : ustring) : M (Promise ustring) :=
  match base64 image with
  | Some base64ImageData => editImage base64ImageData (imageMimeType image) prompt
  | None => ret (rejectedAtOnce (engineError NullProperty))
  end.

(** [handleImageEdit]: the state once the handler has run to its end. *)
Definition handleImageEdit (st : EditorState) : M EditorState :=
  match originalImage st, editPrompt st with
  | Some image, _ :: _ =>
      let st := setIsEditing true st in
      let st := setEditedImage None st in
      resultUrl <- editOriginal image (editPrompt st) ;;
      let st :=
        match settled resultUrl with
        | Fulfilled url =>
            notifyEditor (lit "Image successfully edited!") success
              (setEditedImage (Some url) st)
        | Rejected e =>
            notifyEditor
              (orElse (message e) (lit "An error occurred while editing the image."))
              error st
        end in
      ret (setIsEditing false st)
  | _, _ =>
      ret (notifyEditor (lit "Please upload an image and provide an edit prompt.") error st)
  end.

End Editor.


(** ** Concrete hosts, for the examples *)

Module Sample.

#[local] Open Scope N_scope.

Definition numbers : Numbers :=
  {| number := N;
     number_isZero := N.eqb 0;
     number_toString := fun n => decimal (N.to_nat n) |}.

Definition quoted (s : string) : ustring := dq ++ lit s ++ dq.

(** The texts a sample model answers with, and what they parse to. *)
Definition threeScreensText : ustring :=
  lit "{" ++ quoted "screens" ++ lit ":[" ++ quoted "Login Screen" ++ lit ","
  ++ quoted "Cart" ++ lit "," ++ quoted "Profile" ++ lit "]}".

Definition threeScreens : @JSValue numbers :=
  JObj [(lit "screens", JArr [JStr (lit "Login Screen"); JStr (lit "Cart"); JStr (lit "Profile")])].

Definition oneScreenText : ustring :=
  lit "{" ++ quoted "screens" ++ lit ":[" ++ quoted "Home" ++ lit "]}".

Definition oneScreen : @JSValue numbers := JObj [(lit "screens", JArr [JStr (lit "Home")])].

Definition goodPaletteText : ustring :=
  lit "{" ++ quoted "primary" ++ lit ":" ++ quoted "#A78BFA" ++ lit ","
  ++ quoted "secondary" ++ lit ":" ++ quoted "#2dd4bf" ++ lit ","
  ++ quoted "accent" ++ lit ":" ++ quoted "#F59E0B" ++ lit "}".

Definition goodPalette : @JSValue numbers :=
  JObj [(lit "primary", JStr (lit "#A78BFA"));
        (lit "secondary", JStr (lit "#2dd4bf"));
        (lit "accent", JStr (lit "#F59E0B"))].

Definition badPaletteText : ustring :=
  lit "{" ++ quoted "primary" ++ lit ":" ++ quoted "#A78BFA" ++ lit ","
  ++ quoted "secondary" ++ lit ":" ++ quoted "teal" ++ lit ","
  ++ quoted "accent" ++ lit ":" ++ quoted "#F59E0B" ++ lit "}".

Definition badPalette : @JSValue numbers :=
  JObj [(lit "primary", JStr (lit "#A78BFA"));
        (lit "secondary", JStr (lit "teal"));
        (lit "accent", JStr (lit "#F59E0B"))].

(** A palette whose primary color is an array of one hex string. *)
Definition arrayPaletteText : ustring :=
  lit "{" ++ quoted "primary" ++ lit ":[" ++ quoted "#A78BFA" ++ lit "],"
  ++ quoted "secondary" ++ lit ":" ++ quoted "#2dd4bf" ++ lit ","
  ++ quoted "accent" ++ lit ":" ++ quoted "#F59E0B" ++ lit "}".

Definition arrayPalette : @JSValue numbers :=
  JObj [(lit "primary", JArr [JStr (lit "#A78BFA")]);
        (lit "secondary", JStr (lit "#2dd4bf"));
        (lit "accent", JStr (lit "#F59E0B"))].

Definition parseTable : list (ustring * @JSValue numbers) :=
  [(threeScreensText, threeScreens);
   (oneScreenText, oneScreen);
   (lit "{}", JObj []);
   (goodPaletteText, goodPalette);
   (badPaletteText, badPalette);
   (arrayPaletteText, arrayPalette)].

Definition longCode : ustring :=
  lit "```jsx
<div className='min-h-screen bg-white p-4'>
  <h1>Welcome back</h1>
</div>
```".

Definition shortCode : ustring := lit "```jsx
<div/>
```".

Definition imageResponse : Response :=
  {| text := None;
     candidates := Some [{| content := Some {| parts := Some
       [{| partText := None;
           inlineData :=
             Some {| data := Some (lit "iVBORw0KGgo="); mimeType := Some (lit "image/png") |} |}] |} |}] |}.

(** [{ inlineData: { mimeType: "image/png" } }] as the first part: inline
    data without its bytes. *)
Definition bytelessResponse : Response :=
  {| text := None;
     candidates := Some [{| content := Some {| parts := Some
       [{| partText := None;
           inlineData := Some {| data := None; mimeType := Some (lit "image/png") |} |}] |} |}] |}.

Definition emptyResponse : Response :=
  {| text := None; candidates := Some [] |}.

Definition textResponse (t : ustring) : Response :=
  {| text := Some t;
     candidates := Some [{| content := Some {| parts := Some [textPart t] |} |}] |}.

(** A model that answers the JSON requests with [jsonText], the code
    requests with [codeText] and the image requests with [image], except
    that it rejects the requests whose rank in the log satisfies
    [failing]. The reply to the request of rank [n] arrives at instant
    [n + 1]. *)
Definition oracle (jsonText codeText : ustring) (image : Response) (failing : nat -> bool)
    (log : list Request) (request : Request) : Promise Response :=
  let rank := List.length log in
  {| settled :=
       if failing rank then Rejected (Error (lit "503 Service Unavailable"))
       else if ueqb (model request) (lit "gemini-2.5-flash") then Fulfilled (textResponse jsonText)
       else if ueqb (model request) (lit "gemini-2.5-pro") then Fulfilled (textResponse codeText)
       else Fulfilled image;
     settledAt := S rank |}.

Definition engineText (fault : EngineFault) : ustring :=
  match fault with
  | InvalidJson => lit "Unexpected token in JSON"
  | NullProperty => lit "Cannot read properties of undefined"
  | NotAFunction => lit "is not a function"
  | NoPrimitive => lit "Cannot convert object to primitive value"
  end.

Definition host (jsonText codeText : ustring) (image : Response) (failing : nat -> bool)
    : @Host numbers :=
  {| JSON_parse := fun s => option_map snd (find (fun entry => ueqb (fst entry) s) parseTable);
     engineMessage := engineText;
     ai := oracle jsonText codeText image failing |}.

Definition never : nat -> bool := fun _ => false.

(** The hosts of the examples. Ranks under [generateAppScreens]: 0 is the
    extraction request, then three per screen; under [handleGenerate]: 0
    the extraction request, 1 the logo request, then three per screen. *)
Definition allGood : @Host numbers :=
  host threeScreensText longCode imageResponse never.

Definition secondScreenFails : @Host numbers :=
  host threeScreensText longCode imageResponse (Nat.eqb 5).

Definition secondScreenFailsBesideLogo : @Host numbers :=
  host threeScreensText longCode imageResponse (Nat.eqb 6).

Definition everyScreenFailsBesideLogo : @Host numbers :=
  host threeScreensText longCode imageResponse (fun rank => (2 <=? rank)%nat).

Definition logoFails : @Host numbers :=
  host oneScreenText longCode imageResponse (Nat.eqb 1).

Definition logoAndEveryScreenFail : @Host numbers :=
  host oneScreenText longCode imageResponse (fun rank => (1 <=? rank)%nat).

Definition noScreens : @Host numbers :=
  host (lit "{}") longCode imageResponse never.

Definition shortCodes : @Host numbers :=
  host threeScreensText shortCode imageResponse never.

Definition noImages : @Host numbers :=
  host threeScreensText longCode emptyResponse never.




Definition noBytes : @Host numbers :=
  host threeScreensText longCode bytelessResponse never.

(** A model that fails every request, at the same instant. *)
Definition allAtOnce : @Host numbers :=
  {| JSON_parse := fun s => option_map snd (find (fun entry => ueqb (fst entry) s) parseTable);
     engineMessage := engineText;
     ai := fun _ _ =>
       {| settled := Rejected (Error (lit "503 Service Unavailable")); settledAt := 1 |} |}.

Definition shop : ustring := lit "A shop with a login screen, a cart and a profile page.".

Definition violet : ustring := lit "#A78BFA".
Definition teal : ustring := lit "#2DD4BF".

Definition threeNames : list (@JSValue numbers) :=
  [JStr (lit "Login Screen"); JStr (lit "Cart"); JStr (lit "Profile")].

Definition startColors : ColorPalette :=
  {| primary := violet; secondary := teal; accent := lit "#F59E0B" |}.

Definition startState : @AppState numbers :=
  {| prompt := shop;
     selectedStyle := MODERN;
     palette := Some startColors;
     generatedScreens := [];
     logoImageUrl := None;
     isLoading := false;
     showFigmaInstructions := false;
     notifications := [] |}.

(** What the React generator makes of [longCode] for the screen "Cart",
    and the Flutter generator of the same text. *)
Definition cartComponent : ustring :=
  lit "import React from 'react';

const Cart = () => {
  return (
    <div className='min-h-screen bg-white p-4'>
      <h1>Welcome back</h1>
    </div>
  );
};

export default Cart;
".

(** What the React generator makes of [longCode] for the screen
    "Login Screen #1": the spaces and the [#] are not in the name of the
    component. *)
Definition loginComponent : ustring :=
  lit "import React from 'react';

const LoginScreen1 = () => {
  return (
    <div className='min-h-screen bg-white p-4'>
      <h1>Welcome back</h1>
    </div>
  );
};

export default LoginScreen1;
".

Definition cartWidget : ustring :=
  lit "import 'package:flutter/material.dart';

jsx
<div className='min-h-screen bg-white p-4'>
  <h1>Welcome back</h1>
</div>
".

(** A model whose answer to a request does not depend on what was asked
    before it. *)
Definition steady : @Host numbers :=
  {| JSON_parse := fun s => option_map snd (find (fun entry => ueqb (fst entry) s) parseTable);
     engineMessage := engineText;
     ai := fun _ request => oracle threeScreensText longCode imageResponse never [] request |}.


Definition catPrompt : ustring := lit "Add a cat wearing sunglasses.".


Definition pngImage : OriginalImage :=
  {| base64 := Some (lit "data:image/png;base64,iVBORw0KGgo=");
     imageMimeType := lit "image/png" |}.

Definition editorLoaded : EditorState unit :=
  {| originalImage := Some pngImage;
     editPrompt := catPrompt;
     editedImage := Some (lit "data:image/png;base64,AAAA");
     isEditing := false;
     viewTransform := tt;
     editorNotifications := [] |}.


End Sample.

(** ** Properties *)

Section Properties.

Context {numbers : Numbers} {host : Host}.

(** *** Text *)

Lemma split_nonempty : forall sep s, split sep s <> [].
Proof.
  intros sep s. destruct s as [|c s']; simpl.
  - discriminate.
  - destruct (c =? sep)%N; [discriminate|].
    destruct (split sep s'); discriminate.
Qed.

Lemma matchesHexColor_spec : forall s,
  matchesHexColor s = true <->
  exists body, s = 35%N :: body /\ List.length body = 6 /\ Forall (fun c => isHexDigit c = true) body.
Proof.
  intros s. unfold matchesHexColor. split.
  - destruct s as [|c body]; [discriminate|].
    intros H. apply andb_true_iff in H as [H Hd]. apply andb_true_iff in H as [Hc Hl].
    apply N.eqb_eq in Hc. apply Nat.eqb_eq in Hl. subst c.
    exists body. repeat split; auto. apply Forall_forall. now apply forallb_forall.
  - intros (body & -> & Hl & Hd).
    rewrite N.eqb_refl, Hl. simpl. apply forallb_forall. now apply Forall_forall.
Qed.

(** *** Corners of the dynamic typing *)

(** The hex test converts its argument to a string first: an array of one
    hex string passes it, and a string with anything after the six digits
    does not. *)
Example isValidHex_array :
  isValidHex (JArr [JStr (lit "#A78BFA")]) = Fulfilled true.
Proof. reflexivity. Qed.

Example isValidHex_trailing_newline :
  isValidHex (JStr (lit "#A78BFA" ++ nl)) = Fulfilled false.
Proof. reflexivity. Qed.

Example isValidHex_short_form :
  isValidHex (JStr (lit "#FFF")) = Fulfilled false.
Proof. reflexivity. Qed.

(** A [screens] that is a string is kept by [extractScreenNames], and
    [generateAppScreens] fails on its missing [map]. *)
Example generateAppScreens_screens_string :
  forall prompt style pc sc log awaited,
    settled awaited = Fulfilled (JStr (lit "Home")) ->
    settled (fst (generateAppScreens_resume awaited prompt style pc sc log))
    = Rejected (engineError NotAFunction).
Proof.
  intros prompt style pc sc log awaited H. unfold generateAppScreens_resume. now rewrite H.
Qed.

(** A screen name that cannot be converted to a string makes the three
    generators reject before they issue anything. *)
Example screenPromise_unprintable_name :
  forall prompt style pc sc log,
    screenPromise prompt style pc sc (JObj [(lit "toString", JNull)]) log
    = ({| settled := Rejected (engineError NoPrimitive); settledAt := 0 |}, log).
Proof. reflexivity. Qed.

(** *** editImage *)

(** C10. An image data string in which no segment after the first comma is
    non-empty makes [editImage] reject with "Invalid base64 image data
    provided." and issue no request: the log is left as it was. *)
Theorem editImage_rejects_missing_payload :
  forall (base64ImageData mimeType prompt : ustring) (log : list Request),
    (forall seg, In seg (tl (split comma base64ImageData)) -> seg = []) ->
    editImage base64ImageData mimeType prompt log
    = ({| settled := Rejected (Error (lit "Invalid base64 image data provided."));
          settledAt := 0 |}, log).
Proof.
  intros b64 mt p log H. unfold editImage.
  destruct (split comma b64) as [|seg0 [|seg1 rest]]; simpl in *; try reflexivity.
  rewrite (H seg1) by now left. reflexivity.
Qed.

(** *** Running one generator *)

Lemma generateScreenImage_run :
  forall name n desc style pc sc log,
    ToString name = Fulfilled n ->
    generateScreenImage name desc style pc sc log
    = (tryCatch (ai log (imageRequest n desc style pc sc))
         (fun response =>
            match inlineImage response with
            | Some url => Fulfilled url
            | None => Rejected (Error (lit "No image data found in response for " ++ n ++ lit "."))
            end)
         (fun _ => Rejected (Error (lit "Failed to generate UI for " ++ n ++ lit "."))),
       log ++ [imageRequest n desc style pc sc]).
Proof.
  intros name n desc style pc sc log Hn. unfold generateScreenImage. rewrite Hn. reflexivity.
Qed.

Lemma inlineImage_firstInlineData :
  forall response,
    inlineImage response
    = option_map (fun blob => lit "data:image/png;base64," ++ templateText (data blob))
        (firstInlineData response).
Proof.
  intros response. unfold inlineImage, firstInlineData.
  destruct (firstPart response) as [part|]; [|reflexivity].
  destruct (inlineData part); reflexivity.
Qed.

(** *** The image operations *)

(** X22. For the screen mockup, the logo and the image edit alike: a reply
    whose first candidate's first part has no [inlineData] makes the
    operation reject with a message naming the screen or the operation,
    and a reply that has one makes it return "data:image/png;base64,"
    followed by the [data] of that [inlineData], or by the text
    "undefined" when the [inlineData] has no [data]. *)
Theorem image_operations_inline_data :
  forall (log : list Request) (response : Response),
    (forall name n desc style pc sc,
        ToString name = Fulfilled n ->
        settled (ai log (imageRequest n desc style pc sc)) = Fulfilled response ->
        settled (fst (generateScreenImage name desc style pc sc log))
        = match firstInlineData response with
          | None => Rejected (Error (lit "Failed to generate UI for " ++ n ++ lit "."))
          | Some blob => Fulfilled (lit "data:image/png;base64," ++ templateText (data blob))
          end)
    /\ (forall desc style pc sc,
        settled (ai log (logoRequest desc style pc sc)) = Fulfilled response ->
        settled (fst (generateLogo desc style pc sc log))
        = match firstInlineData response with
          | None => Rejected (Error (lit "Failed to generate a logo for the app."))
          | Some blob => Fulfilled (lit "data:image/png;base64," ++ templateText (data blob))
          end)
    /\ (forall base64ImageData mimeType prompt pureBase64,
        nth_error (split comma base64ImageData) 1 = Some pureBase64 ->
        pureBase64 <> [] ->
        settled (ai log (editRequest pureBase64 mimeType prompt)) = Fulfilled response ->
        settled (fst (editImage base64ImageData mimeType prompt log))
        = match firstInlineData response with
          | None => Rejected (Error (lit "Failed to edit the image with the provided prompt."))
          | Some blob => Fulfilled (lit "data:image/png;base64," ++ templateText (data blob))
          end).
Proof.
  intros log response. repeat split.
  - intros name n desc style pc sc Hn Hreply.
    rewrite (generateScreenImage_run _ _ _ _ _ _ Hn). cbn [fst tryCatch settled].
    rewrite Hreply, inlineImage_firstInlineData.
    destruct (firstInlineData response); reflexivity.
  - intros desc style pc sc Hreply.
    unfold generateLogo, bind, generateContent, ret. cbn [fst tryCatch settled].
    rewrite Hreply, inlineImage_firstInlineData.
    destruct (firstInlineData response); reflexivity.
  - intros b64 mt p pure Hnth Hpure Hreply.
    unfold editImage. rewrite Hnth.
    destruct pure as [|c pure']; [congruence|].
    unfold bind, generateContent, ret. cbn [fst tryCatch settled].
    rewrite Hreply, inlineImage_firstInlineData.
    destruct (firstInlineData response); reflexivity.
Qed.

(** *** The code generators *)

Lemma generateScreenCodeReact_run :
  forall name n desc style pc sc log,
    ToString name = Fulfilled n ->
    generateScreenCodeReact name desc style pc sc log
    = (tryCatch (ai log (reactRequest n desc style pc sc))
         (fun response =>
            rawCode <~ rawCodeOf [lit "```jsx"; lit "```"] response ;;
            if tooShort rawCode
            then Rejected (Error (lit "AI returned empty or invalid code."))
            else
              componentName <~ componentNameOf name ;;
              Fulfilled (reactComponent componentName rawCode))
         (fun _ =>
            Rejected (Error (lit "Failed to generate React code for " ++ dq ++ n ++ dq ++ lit "."))),
       log ++ [reactRequest n desc style pc sc]).
Proof.
  intros name n desc style pc sc log Hn. unfold generateScreenCodeReact. rewrite Hn. reflexivity.
Qed.

Lemma generateScreenCodeFlutter_run :
  forall name n desc style pc sc log,
    ToString name = Fulfilled n ->
    generateScreenCodeFlutter name desc style pc sc log
    = (tryCatch (ai log (flutterRequest n desc style pc sc))
         (fun response =>
            rawCode <~ rawCodeOf [lit "```dart"; lit "```"] response ;;
            if tooShort rawCode
            then Rejected (Error (lit "AI returned empty or invalid code."))
            else Fulfilled (flutterWidget rawCode))
         (fun _ =>
            Rejected (Error (lit "Failed to generate Flutter code for " ++ dq ++ n ++ dq ++ lit "."))),
       log ++ [flutterRequest n desc style pc sc]).
Proof.
  intros name n desc style pc sc log Hn. unfold generateScreenCodeFlutter. rewrite Hn. reflexivity.
Qed.

Lemma tooShort_length : forall rawCode, tooShort rawCode = true <-> List.length rawCode < 50.
Proof.
  intros [|c rest]; simpl tooShort.
  - split; [simpl; lia | reflexivity].
  - apply Nat.ltb_lt.
Qed.

(** C6. For the React and the Flutter generator alike: when the text of
    the reply, its code fences removed and trimmed, has fewer than 50 code
    units (none included), the generator rejects, and the message of the
    rejection names the screen. *)
Theorem code_generators_reject_short_code :
  forall (name : JSValue) (n desc : ustring) (style : DesignStyle) (pc sc : ustring)
         (log : list Request) (response : Response) (t : ustring),
    ToString name = Fulfilled n ->
    text response = Some t ->
    (settled (ai log (reactRequest n desc style pc sc)) = Fulfilled response ->
     List.length (trim (removeAll [lit "```jsx"; lit "```"] t)) < 50 ->
     settled (fst (generateScreenCodeReact name desc style pc sc log))
     = Rejected (Error (lit "Failed to generate React code for " ++ dq ++ n ++ dq ++ lit ".")))
    /\ (settled (ai log (flutterRequest n desc style pc sc)) = Fulfilled response ->
        List.length (trim (removeAll [lit "```dart"; lit "```"] t)) < 50 ->
        settled (fst (generateScreenCodeFlutter name desc style pc sc log))
        = Rejected (Error (lit "Failed to generate Flutter code for " ++ dq ++ n ++ dq ++ lit "."))).
Proof.
  intros name n desc style pc sc log response t Hn Ht. split; intros Hreply Hshort.
  - rewrite (generateScreenCodeReact_run _ _ _ _ _ _ Hn). cbn [fst tryCatch settled].
    rewrite Hreply. unfold rawCodeOf. rewrite Ht. cbn [bindSettled].
    apply tooShort_length in Hshort. rewrite Hshort. reflexivity.
  - rewrite (generateScreenCodeFlutter_run _ _ _ _ _ _ Hn). cbn [fst tryCatch settled].
    rewrite Hreply. unfold rawCodeOf. rewrite Ht. cbn [bindSettled].
    apply tooShort_length in Hshort. rewrite Hshort. reflexivity.
Qed.

Lemma tooShort_false : forall rawCode, tooShort rawCode = false <-> 50 <= List.length rawCode.
Proof.
  intros rawCode. pose proof (tooShort_length rawCode) as H.
  destruct (tooShort rawCode); split; intros H'; try reflexivity; try discriminate.
  - assert (List.length rawCode < 50) by now apply H. lia.
  - lia.
Qed.

Lemma isAlphaNumeric_spec :
  forall c, isAlphaNumeric c = true <-> isLetterOrDigit c.
Proof.
  intros c. unfold isAlphaNumeric, isLetterOrDigit.
  rewrite !orb_true_iff, !andb_true_iff, !N.leb_le. tauto.
Qed.

Lemma keepAlphaNumeric_removed :
  forall s, nonAlphaNumericRemoved s (keepAlphaNumeric s).
Proof.
  induction s as [|c s IH]; [constructor|].
  unfold keepAlphaNumeric in *. cbn [filter].
  destruct (isAlphaNumeric c) eqn:Hc.
  - apply removed_keep; [now apply isAlphaNumeric_spec|exact IH].
  - apply removed_drop; [|exact IH].
    intros H. apply isAlphaNumeric_spec in H. congruence.
Qed.

Lemma nonAlphaNumericRemoved_unique :
  forall s stripped, nonAlphaNumericRemoved s stripped -> stripped = keepAlphaNumeric s.
Proof.
  induction 1 as [|c name stripped Hc _ IH|c name stripped Hc _ IH];
    unfold keepAlphaNumeric in *; cbn [filter]; [reflexivity| |].
  - apply isAlphaNumeric_spec in Hc. now rewrite Hc, IH.
  - destruct (isAlphaNumeric c) eqn:Hc'; [|exact IH].
    apply isAlphaNumeric_spec in Hc'. contradiction.
Qed.

(** C9. A generator returns code exactly when the model's text, its fences
    removed and trimmed, has at least 50 code units (and, for React, the
    screen name is a string), and that code is the program's template
    around that text: the React code starts with the React import and
    wraps the text, each line indented by four spaces, in a component
    whose name is the screen name with all non-alphanumeric characters
    removed; the Flutter code starts with the Material import followed by
    the text. *)
Theorem generated_code_has_preamble :
  forall (name : JSValue) (desc : ustring) (style : DesignStyle) (pc sc : ustring)
         (log : list Request),
    (forall code,
        settled (fst (generateScreenCodeReact name desc style pc sc log)) = Fulfilled code <->
        exists s response t componentName,
          name = JStr s
          /\ settled (ai log (reactRequest s desc style pc sc)) = Fulfilled response
          /\ text response = Some t
          /\ 50 <= List.length (trim (removeAll [lit "```jsx"; lit "```"] t))
          /\ nonAlphaNumericRemoved s componentName
          /\ code =
               lit "import React from 'react';" ++ nl ++
               nl ++
               lit "const " ++ componentName ++ lit " = () => {" ++ nl ++
               lit "  return (" ++ nl ++
               join nl (map (fun line => lit "    " ++ line)
                          (split newline (trim (removeAll [lit "```jsx"; lit "```"] t)))) ++ nl ++
               lit "  );" ++ nl ++
               lit "};" ++ nl ++
               nl ++
               lit "export default " ++ componentName ++ lit ";" ++ nl)
    /\ (forall code,
        settled (fst (generateScreenCodeFlutter name desc style pc sc log)) = Fulfilled code <->
        exists n response t,
          ToString name = Fulfilled n
          /\ settled (ai log (flutterRequest n desc style pc sc)) = Fulfilled response
          /\ text response = Some t
          /\ 50 <= List.length (trim (removeAll [lit "```dart"; lit "```"] t))
          /\ code =
               lit "import 'package:flutter/material.dart';" ++ nl ++
               nl ++
               trim (removeAll [lit "```dart"; lit "```"] t) ++ nl).
Proof.
  intros name desc style pc sc log. split; intros code; split.
  - intros Hcode. destruct (ToString name) as [n|e] eqn:Hn.
    + rewrite (generateScreenCodeReact_run _ _ _ _ _ _ Hn) in Hcode.
      cbn [fst tryCatch settled] in Hcode.
      destruct (settled (ai log (reactRequest n desc style pc sc))) as [response|e] eqn:Hreply;
        [|discriminate].
      unfold rawCodeOf in Hcode.
      destruct (text response) as [t|] eqn:Ht; cbn [bindSettled] in Hcode; [|discriminate].
      destruct (tooShort _) eqn:Hlong; [discriminate|]. apply tooShort_false in Hlong.
      destruct name as [| |b|x|s|items|props]; cbn [componentNameOf bindSettled] in Hcode;
        try discriminate.
      cbn in Hn. injection Hn as <-. injection Hcode as <-.
      exists s, response, t, (keepAlphaNumeric s).
      split; [reflexivity|]. split; [exact Hreply|]. split; [exact Ht|].
      split; [exact Hlong|]. split; [apply keepAlphaNumeric_removed|reflexivity].
    + unfold generateScreenCodeReact in Hcode. rewrite Hn in Hcode. discriminate.
  - intros (s & response & t & componentName & -> & Hreply & Ht & Hlong & Hname & ->).
    apply nonAlphaNumericRemoved_unique in Hname. subst componentName.
    rewrite (generateScreenCodeReact_run (JStr s) desc style pc sc log eq_refl).
    cbn [fst tryCatch settled]. rewrite Hreply. unfold rawCodeOf. rewrite Ht.
    cbn [bindSettled]. apply tooShort_false in Hlong. rewrite Hlong. reflexivity.
  - intros Hcode. destruct (ToString name) as [n|e] eqn:Hn.
    + rewrite (generateScreenCodeFlutter_run _ _ _ _ _ _ Hn) in Hcode.
      cbn [fst tryCatch settled] in Hcode.
      destruct (settled (ai log (flutterRequest n desc style pc sc))) as [response|e] eqn:Hreply;
        [|discriminate].
      unfold rawCodeOf in Hcode.
      destruct (text response) as [t|] eqn:Ht; cbn [bindSettled] in Hcode; [|discriminate].
      destruct (tooShort _) eqn:Hlong; [discriminate|]. apply tooShort_false in Hlong.
      injection Hcode as <-.
      exists n, response, t. repeat split; auto.
    + unfold generateScreenCodeFlutter in Hcode. rewrite Hn in Hcode. discriminate.
  - intros (n & response & t & Hn & Hreply & Ht & Hlong & ->).
    rewrite (generateScreenCodeFlutter_run _ _ _ _ _ _ Hn).
    cbn [fst tryCatch settled]. rewrite Hreply. unfold rawCodeOf. rewrite Ht.
    cbn [bindSettled]. apply tooShort_false in Hlong. rewrite Hlong. reflexivity.
Qed.

(** *** generateColorPalette *)

Lemma isValidHex_string : forall s, isValidHex (JStr s) = Fulfilled (matchesHexColor s).
Proof. reflexivity. Qed.


(** What the hex test of a field amounts to: the text of the field is a
    [#] followed by six hexadecimal digits. *)
Lemma fieldIsHex_spec :
  forall palette key,
    fieldIsHex palette key = true <->
    exists v body,
      getProp palette key = Fulfilled v
      /\ ToString v = Fulfilled (35%N :: body)
      /\ List.length body = 6
      /\ Forall (fun c => isHexDigit c = true) body.
Proof.
  intros palette key. unfold fieldIsHex, isValidHex. split.
  - destruct (getProp palette key) as [v|e]; [|discriminate].
    destruct (ToString v) as [s|e] eqn:Hs; cbn [bindSettled]; [|discriminate].
    intros H. apply matchesHexColor_spec in H as (body & -> & Hlen & Hdigits).
    exists v, body. repeat split; auto.
  - intros (v & body & -> & -> & Hlen & Hdigits). cbn [bindSettled].
    apply matchesHexColor_spec. exists body. repeat split; auto.
Qed.

Lemma fieldIsHex_true :
  forall palette key,
    fieldIsHex palette key = true ->
    exists v, getProp palette key = Fulfilled v /\ isValidHex v = Fulfilled true.
Proof.
  intros palette key. unfold fieldIsHex.
  destruct (getProp palette key) as [v|e]; [|discriminate].
  destruct (isValidHex v) as [ok|e] eqn:Hok; [|discriminate].
  intros ->. now exists v.
Qed.

Lemma checkedPalette_fulfilled :
  forall response palette,
    checkedPalette response = Fulfilled palette <->
    parseText (text response) = Fulfilled palette
    /\ fieldIsHex palette (lit "primary") = true
    /\ fieldIsHex palette (lit "secondary") = true
    /\ fieldIsHex palette (lit "accent") = true.
Proof.
  intros response palette. unfold checkedPalette, fieldIsHex. split.
  - destruct (parseText (text response)) as [parsed|e]; cbn [bindSettled]; [|discriminate].
    destruct (getProp parsed (lit "primary")) as [p|e] eqn:Hp; cbn [bindSettled]; [|discriminate].
    destruct (isValidHex p) as [[|]|e] eqn:Hpok; cbn [bindSettled negb]; try discriminate.
    destruct (getProp parsed (lit "secondary")) as [s|e] eqn:Hs; cbn [bindSettled]; [|discriminate].
    destruct (isValidHex s) as [[|]|e] eqn:Hsok; cbn [bindSettled negb]; try discriminate.
    destruct (getProp parsed (lit "accent")) as [a|e] eqn:Ha; cbn [bindSettled]; [|discriminate].
    destruct (isValidHex a) as [[|]|e] eqn:Haok; cbn [bindSettled negb]; try discriminate.
    intros H. injection H as <-. rewrite Hp, Hpok, Hs, Hsok, Ha, Haok. auto.
  - fold (fieldIsHex palette (lit "primary")) (fieldIsHex palette (lit "secondary"))
      (fieldIsHex palette (lit "accent")).
    intros (-> & Hp & Hs & Ha). cbn [bindSettled].
    apply fieldIsHex_true in Hp as (p & Hp & Hpok).
    apply fieldIsHex_true in Hs as (s & Hs & Hsok).
    apply fieldIsHex_true in Ha as (a & Ha & Haok).
    rewrite Hp. cbn [bindSettled]. rewrite Hpok. cbn [bindSettled negb].
    rewrite Hs. cbn [bindSettled]. rewrite Hsok. cbn [bindSettled negb].
    rewrite Ha. cbn [bindSettled]. rewrite Haok. reflexivity.
Qed.



(** *** generateAppScreens: no screen name *)

Lemma extractScreenNames_run :
  forall prompt log,
    extractScreenNames prompt log
    = (tryCatch (ai log (extractRequest prompt))
         (fun response =>
            jsonResponse <~ parseText (text response) ;;
            screens <~ getProp jsonResponse (lit "screens") ;;
            Fulfilled (if truthy screens then screens else JArr []))
         (fun _ => Rejected (Error (lit "Failed to parse app description. Please try rephrasing your idea."))),
       log ++ [extractRequest prompt]).
Proof. reflexivity. Qed.

Lemma generateAppScreens_run :
  forall prompt style pc sc log,
    generateAppScreens prompt style pc sc log
    = generateAppScreens_resume (fst (extractScreenNames prompt log)) prompt style pc sc
        (log ++ [extractRequest prompt]).
Proof. reflexivity. Qed.

(** C4. When no screen name is extracted, and in particular when the reply
    parses as JSON that has no [screens], [generateAppScreens] rejects with
    its guidance message and the extraction request is the only request it
    issues: no image or code request is made. *)
Theorem generateAppScreens_rejects_without_names :
  forall (prompt : ustring) (style : DesignStyle) (pc sc : ustring) (log : list Request),
    (settled (fst (extractScreenNames prompt log)) = Fulfilled (JArr [])
     \/ exists response t json,
          settled (ai log (extractRequest prompt)) = Fulfilled response
          /\ text response = Some t
          /\ JSON_parse t = Some json
          /\ getProp json (lit "screens") = Fulfilled JUndefined) ->
    settled (fst (generateAppScreens prompt style pc sc log))
    = Rejected (Error (lit "Could not identify any screens from your description. Please be more specific about the pages you need, e.g., 'login page', 'dashboard'."))
    /\ snd (generateAppScreens prompt style pc sc log) = log ++ [extractRequest prompt].
Proof.
  intros prompt style pc sc log H.
  assert (Hnames : settled (fst (extractScreenNames prompt log)) = Fulfilled (JArr [])).
  { destruct H as [H|(response & t & json & Hreply & Ht & Hparse & Hscreens)]; [exact H|].
    rewrite extractScreenNames_run. cbn [fst tryCatch settled].
    rewrite Hreply. unfold parseText. rewrite Ht, Hparse. cbn [bindSettled].
    rewrite Hscreens. reflexivity. }
  rewrite generateAppScreens_run. unfold generateAppScreens_resume. rewrite Hnames.
  cbn [truthy lengthIsZero negb orb]. split; reflexivity.
Qed.

(** *** generateAppScreens: the batch *)

Lemma mapM_cons :
  forall (A B : Type) (f : A -> M B) (item : A) (rest : list A) (log : list Request),
    mapM f (item :: rest) log
    = let (b, log1) := f item log in
      let (bs, log2) := mapM f rest log1 in
      (b :: bs, log2).
Proof.
  intros A B f item rest log. cbn [mapM]. unfold bind, ret.
  destruct (f item log) as [b log1]. destruct (mapM f rest log1). reflexivity.
Qed.

(** Names the promises and the logs of the three calls of the screen that
    the goal runs next. *)
Ltac run_screen :=
  match goal with
  | |- context [generateScreenImage ?name ?prompt ?style ?pc ?sc ?log] =>
      let log1 := fresh "log" in
      let log2 := fresh "log" in
      let log3 := fresh "log" in
      destruct (generateScreenImage name prompt style pc sc log) as [?image log1];
      destruct (generateScreenCodeReact name prompt style pc sc log1) as [?reactCode log2];
      destruct (generateScreenCodeFlutter name prompt style pc sc log2) as [?flutterCode log3]
  end.

Lemma screenPromise_run :
  forall prompt style pc sc name log,
    screenPromise prompt style pc sc name log
    = let (image, log1) := generateScreenImage name prompt style pc sc log in
      let (reactCode, log2) := generateScreenCodeReact name prompt style pc sc log1 in
      let (flutterCode, log3) := generateScreenCodeFlutter name prompt style pc sc log2 in
      (andThen (all3 image reactCode flutterCode)
         (fun '(imageUrl, (reactCode, flutterCode)) =>
            {| title := name;
               imageUrl := imageUrl;
               code := {| react := reactCode; flutter := flutterCode |} |}),
       log3).
Proof.
  intros prompt style pc sc name log. unfold screenPromise, bind, ret.
  run_screen. reflexivity.
Qed.

Lemma mapM_screenPromise :
  forall prompt style pc sc names log,
    map (@settled _) (fst (mapM (screenPromise prompt style pc sc) names log))
    = map settlementOf (screenCalls prompt style pc sc names log).
Proof.
  intros prompt style pc sc names. induction names as [|name rest IH]; intros log.
  - reflexivity.
  - rewrite mapM_cons, screenPromise_run. cbn [screenCalls]. run_screen.
    match goal with
    | |- context [mapM _ rest ?log'] =>
        specialize (IH log'); destruct (mapM (screenPromise prompt style pc sc) rest log')
    end.
    cbn [fst map] in *. now rewrite IH.
Qed.

Lemma screenCalls_screens :
  forall prompt style pc sc names log,
    map screen (screenCalls prompt style pc sc names log) = names.
Proof.
  intros prompt style pc sc names. induction names as [|name rest IH]; intros log.
  - reflexivity.
  - cbn [screenCalls]. run_screen. cbn [map screen]. now rewrite IH.
Qed.

Lemma screenCalls_length :
  forall prompt style pc sc names log,
    List.length (screenCalls prompt style pc sc names log) = List.length names.
Proof.
  intros prompt style pc sc names log.
  rewrite <- (screenCalls_screens prompt style pc sc names log) at 2.
  now rewrite length_map.
Qed.

(** A screen none of whose calls rejects settles to its record. *)
Lemma settlementOf_succeeding :
  forall c,
    screenFails c = false ->
    exists s, isRecordOf c s /\ settlementOf c = Fulfilled s.
Proof.
  intros [name image reactCode flutterCode].
  unfold screenFails, isRecordOf, settlementOf, andThen, all3, both, isRejected.
  cbn [imageCall reactCall flutterCall screen].
  destruct (settled image), (settled reactCode), (settled flutterCode);
    cbn; try discriminate.
  intros _. eexists. split; [|reflexivity]. cbn. auto.
Qed.

(** A screen one of whose calls rejects settles to the rejection of one of
    them. *)
Lemma settlementOf_failing :
  forall c,
    screenFails c = true ->
    exists e,
      settlementOf c = Rejected e
      /\ In (Rejected e) [settled (imageCall c); settled (reactCall c); settled (flutterCall c)].
Proof.
  intros [name image reactCode flutterCode].
  unfold screenFails, settlementOf, andThen, all3, both, isRejected.
  cbn [imageCall reactCall flutterCall screen].
  destruct (settled image), (settled reactCode), (settled flutterCode);
    cbn [orb]; try discriminate; intros _;
    repeat match goal with
           | |- context [if ?b then _ else _] => destruct b
           end;
    cbn; eexists; (split; [reflexivity|]); auto.
Qed.

Lemma collect_from :
  forall calls acc,
    exists succeeded failed,
      fold_left pushResult (map settlementOf calls) acc
      = {| successfulScreens := successfulScreens acc ++ succeeded;
           failedScreenReasons := failedScreenReasons acc ++ failed |}
      /\ Forall2 isRecordOf (succeeding calls) succeeded
      /\ Forall2 recordsRejectionOf (failing calls) failed.
Proof.
  induction calls as [|c rest IH]; intros acc.
  - exists [], []. cbn. rewrite !app_nil_r. destruct acc. repeat split; constructor.
  - cbn [map fold_left]. unfold succeeding, failing in *. cbn [filter].
    destruct (screenFails c) eqn:Hc; cbn [negb].
    + destruct (settlementOf_failing c Hc) as (e & He & Hin). rewrite He.
      destruct (IH (pushResult acc (Rejected e))) as (succeeded & failed & Heq & Hs & Hf).
      exists succeeded, (reasonOf e :: failed). rewrite Heq. cbn [pushResult successfulScreens failedScreenReasons].
      rewrite <- app_assoc. repeat split; auto.
      constructor; auto. exists e. split; auto.
    + destruct (settlementOf_succeeding c Hc) as (s & Hrec & Hs'). rewrite Hs'.
      destruct (IH (pushResult acc (Fulfilled s))) as (succeeded & failed & Heq & Hs & Hf).
      exists (s :: succeeded), failed. rewrite Heq. cbn [pushResult successfulScreens failedScreenReasons].
      rewrite <- app_assoc. repeat split; auto.
Qed.

Lemma succeeding_failing_length :
  forall calls,
    List.length (succeeding calls) + List.length (failing calls) = List.length calls.
Proof.
  unfold succeeding, failing. induction calls as [|c rest IH]; [reflexivity|].
  cbn [filter]. destruct (screenFails c); cbn [negb List.length]; lia.
Qed.

(** With the names at hand, the batch settles to what [collect] makes of
    the settlements of its screens. *)
Lemma resume_batch :
  forall awaited prompt style pc sc log names,
    names <> [] ->
    settled awaited = Fulfilled (JArr names) ->
    settled (fst (generateAppScreens_resume awaited prompt style pc sc log))
    = Fulfilled (collect (map settlementOf (screenCalls prompt style pc sc names log))).
Proof.
  intros awaited prompt style pc sc log names Hne Hnames.
  unfold generateAppScreens_resume. rewrite Hnames.
  destruct names as [|name rest]; [congruence|].
  cbn [truthy lengthIsZero negb orb]. unfold bind, ret.
  rewrite <- mapM_screenPromise.
  destruct (mapM (screenPromise prompt style pc sc) (name :: rest) log).
  reflexivity.
Qed.

Lemma resume_partition :
  forall awaited prompt style pc sc log names,
    names <> [] ->
    settled awaited = Fulfilled (JArr names) ->
    exists result,
      settled (fst (generateAppScreens_resume awaited prompt style pc sc log)) = Fulfilled result
      /\ Forall2 isRecordOf (succeeding (screenCalls prompt style pc sc names log))
           (successfulScreens result)
      /\ Forall2 recordsRejectionOf (failing (screenCalls prompt style pc sc names log))
           (failedScreenReasons result).
Proof.
  intros awaited prompt style pc sc log names Hne Hnames.
  rewrite (resume_batch _ _ _ _ _ _ Hne Hnames). unfold collect.
  destruct (collect_from (screenCalls prompt style pc sc names log)
              {| successfulScreens := []; failedScreenReasons := [] |})
    as (succeeded & failed & Heq & Hs & Hf).
  rewrite Heq. eexists. split; [reflexivity|]. cbn. auto.
Qed.

Lemma generateAppScreens_partition :
  forall prompt style pc sc log names,
    names <> [] ->
    settled (fst (extractScreenNames prompt log)) = Fulfilled (JArr names) ->
    exists result,
      settled (fst (generateAppScreens prompt style pc sc log)) = Fulfilled result
      /\ Forall2 isRecordOf
           (succeeding (screenCalls prompt style pc sc names (log ++ [extractRequest prompt])))
           (successfulScreens result)
      /\ Forall2 recordsRejectionOf
           (failing (screenCalls prompt style pc sc names (log ++ [extractRequest prompt])))
           (failedScreenReasons result).
Proof.
  intros prompt style pc sc log names Hne Hnames.
  rewrite generateAppScreens_run. now apply resume_partition.
Qed.

(** C1. For a non-empty list of extracted names, [generateAppScreens]
    returns a result in which the failed screens are exactly those with a
    rejecting call, each with one recorded reason, which is that of one of
    its rejected calls, and the successful screens are exactly the others,
    each with its record, in the order of the names; when exactly one
    screen fails, there are N-1 successes and one reason. *)
Theorem generateAppScreens_classifies_screens :
  forall (prompt : ustring) (style : DesignStyle) (pc sc : ustring) (log : list Request)
         (names : list JSValue),
    names <> [] ->
    settled (fst (extractScreenNames prompt log)) = Fulfilled (JArr names) ->
    let calls := screenCalls prompt style pc sc names (log ++ [extractRequest prompt]) in
    exists result,
      settled (fst (generateAppScreens prompt style pc sc log)) = Fulfilled result
      /\ map screen calls = names
      /\ Forall2 isRecordOf (succeeding calls) (successfulScreens result)
      /\ Forall2 recordsRejectionOf (failing calls) (failedScreenReasons result)
      /\ (List.length (failing calls) = 1 ->
          List.length (successfulScreens result) = List.length names - 1
          /\ List.length (failedScreenReasons result) = 1).
Proof.
  intros prompt style pc sc log names Hne Hnames calls.
  destruct (generateAppScreens_partition prompt style pc sc log Hne Hnames)
    as (result & Hresult & Hs & Hf).
  fold calls in Hs, Hf.
  exists result. repeat split; auto.
  - apply screenCalls_screens.
  - apply Forall2_length in Hs. rewrite <- Hs.
    pose proof (succeeding_failing_length calls) as Hlen.
    unfold calls in Hlen at 3. rewrite screenCalls_length in Hlen. lia.
  - apply Forall2_length in Hf. lia.
Qed.

Lemma succeeding_all :
  forall calls,
    Forall (fun c => screenFails c = false) calls ->
    succeeding calls = calls /\ failing calls = [].
Proof.
  unfold succeeding, failing. induction 1 as [|c rest Hc _ [IHs IHf]]; [auto|].
  cbn [filter]. rewrite Hc. cbn [negb]. now rewrite IHs, IHf.
Qed.

Lemma isRecordOf_titles :
  forall calls screens,
    Forall2 isRecordOf calls screens -> map title screens = map screen calls.
Proof.
  induction 1 as [|c s calls screens (Ht & _) _ IH]; [reflexivity|].
  cbn [map]. now rewrite Ht, IH.
Qed.

(** C2. When every call of a batch over N names is fulfilled, what
    [generateAppScreens] returns is N records, in the order of the names,
    each with the title of its screen and what the three calls of that
    screen were fulfilled with, and no failure reason; and it does return
    as soon as there is a name. *)
Theorem generateAppScreens_all_succeed :
  forall (prompt : ustring) (style : DesignStyle) (pc sc : ustring) (log : list Request)
         (names : list JSValue),
    settled (fst (extractScreenNames prompt log)) = Fulfilled (JArr names) ->
    let calls := screenCalls prompt style pc sc names (log ++ [extractRequest prompt]) in
    Forall (fun c => screenFails c = false) calls ->
    (forall result,
        settled (fst (generateAppScreens prompt style pc sc log)) = Fulfilled result ->
        Forall2 isRecordOf calls (successfulScreens result)
        /\ map title (successfulScreens result) = names
        /\ List.length (successfulScreens result) = List.length names
        /\ failedScreenReasons result = [])
    /\ (names <> [] ->
        exists result,
          settled (fst (generateAppScreens prompt style pc sc log)) = Fulfilled result).
Proof.
  intros prompt style pc sc log names Hnames calls Hall.
  assert (Hreturns : names <> [] ->
            exists result,
              settled (fst (generateAppScreens prompt style pc sc log)) = Fulfilled result).
  { intros Hne.
    destruct (generateAppScreens_partition prompt style pc sc log Hne Hnames)
      as (result & Hresult & _). now exists result. }
  split; [|exact Hreturns].
  intros result Hresult.
  assert (Hne : names <> []).
  { intros ->. rewrite generateAppScreens_run in Hresult.
    unfold generateAppScreens_resume in Hresult. rewrite Hnames in Hresult. discriminate. }
  destruct (generateAppScreens_partition prompt style pc sc log Hne Hnames)
    as (result' & Hresult' & Hs & Hf).
  rewrite Hresult in Hresult'. injection Hresult' as <-.
  fold calls in Hs, Hf.
  destruct (succeeding_all Hall) as [Hsucc Hfail]. rewrite Hsucc in Hs. rewrite Hfail in Hf.
  assert (Htitles : map title (successfulScreens result) = names).
  { rewrite (isRecordOf_titles Hs). apply screenCalls_screens. }
  repeat split; auto.
  - rewrite <- Htitles. now rewrite length_map.
  - now inversion Hf.
Qed.

(** C8. Every screen of a batch over N names is counted once: the
    successful records and the failure reasons of a result of
    [generateAppScreens] add up to N; and there is a result as soon as
    there is a name. *)
Theorem generateAppScreens_accounts_for_every_screen :
  forall (prompt : ustring) (style : DesignStyle) (pc sc : ustring) (log : list Request)
         (names : list JSValue),
    settled (fst (extractScreenNames prompt log)) = Fulfilled (JArr names) ->
    (forall result,
        settled (fst (generateAppScreens prompt style pc sc log)) = Fulfilled result ->
        List.length (successfulScreens result) + List.length (failedScreenReasons result)
        = List.length names)
    /\ (names <> [] ->
        exists result,
          settled (fst (generateAppScreens prompt style pc sc log)) = Fulfilled result).
Proof.
  intros prompt style pc sc log names Hnames. split.
  - intros result Hresult.
    assert (Hne : names <> []).
    { intros ->. rewrite generateAppScreens_run in Hresult.
      unfold generateAppScreens_resume in Hresult. rewrite Hnames in Hresult. discriminate. }
    destruct (generateAppScreens_partition prompt style pc sc log Hne Hnames)
      as (result' & Hresult' & Hs & Hf).
    rewrite Hresult in Hresult'. injection Hresult' as <-.
    apply Forall2_length in Hs, Hf. rewrite <- Hs, <- Hf.
    rewrite succeeding_failing_length. apply screenCalls_length.
  - intros Hne.
    destruct (generateAppScreens_partition prompt style pc sc log Hne Hnames)
      as (result & Hresult & _). now exists result.
Qed.

(** Without a non-empty array of names there is no batch: whatever else
    the extraction yields, [generateAppScreens] rejects and issues no
    request beyond the extraction request. *)
Lemma generateAppScreens_without_batch :
  forall prompt style pc sc log,
    (forall names,
        settled (fst (extractScreenNames prompt log)) = Fulfilled (JArr names) -> names = []) ->
    isRejected (fst (generateAppScreens prompt style pc sc log)) = true
    /\ snd (generateAppScreens prompt style pc sc log) = log ++ [extractRequest prompt].
Proof.
  intros prompt style pc sc log Hnone.
  rewrite generateAppScreens_run. unfold generateAppScreens_resume, isRejected.
  destruct (settled (fst (extractScreenNames prompt log))) as [screenNames|e];
    [|split; reflexivity].
  destruct (negb (truthy screenNames) || lengthIsZero screenNames) eqn:Hguard;
    [split; reflexivity|].
  destruct screenNames as [| |b|x|s|names|props]; try (split; reflexivity).
  rewrite (Hnone names eq_refl) in Hguard. discriminate.
Qed.

(** *** handleGenerate *)

Lemma generateLogo_run :
  forall desc style pc sc log,
    snd (generateLogo desc style pc sc log) = log ++ [logoRequest desc style pc sc].
Proof. reflexivity. Qed.

Lemma generateBoth_run :
  forall st colors log,
    fst (generateBoth st colors log)
    = (fst (generateAppScreens_resume (fst (extractScreenNames (prompt st) log))
              (prompt st) (selectedStyle st) (primary colors) (secondary colors)
              ((log ++ [extractRequest (prompt st)])
               ++ [logoRequest (prompt st) (selectedStyle st) (primary colors) (secondary colors)])),
       fst (generateLogo (prompt st) (selectedStyle st) (primary colors) (secondary colors)
              (log ++ [extractRequest (prompt st)]))).
Proof.
  intros st colors log. unfold generateBoth, bind, ret.
  rewrite extractScreenNames_run. cbn [fst snd].
  destruct (generateLogo (prompt st) (selectedStyle st) (primary colors) (secondary colors)
              (log ++ [extractRequest (prompt st)])) as [logo log2] eqn:Hlogo.
  pose proof (generateLogo_run (prompt st) (selectedStyle st) (primary colors) (secondary colors)
                (log ++ [extractRequest (prompt st)])) as Hlog.
  rewrite Hlogo in Hlog. cbn [snd] in Hlog. subst log2.
  destruct (generateAppScreens_resume _ _ _ _ _ _). reflexivity.
Qed.

Lemma handleGenerate_run :
  forall st colors log,
    prompt st <> [] ->
    palette st = Some colors ->
    fst (handleGenerate st log)
    = let started :=
        setShowFigmaInstructions false
          (setLogoImageUrl None (setGeneratedScreens [] (setIsLoading true st))) in
      let (screens, logo) := fst (generateBoth st colors log) in
      let (tried, thrown) := generateTry (bothOuter screens logo) started in
      setIsLoading false
        match thrown with
        | Some e =>
            showNotification
              (orElse (message e) (lit "An unknown error occurred during generation."))
              error tried
        | None => tried
        end.
Proof.
  intros st colors log Hprompt Hpalette. unfold handleGenerate.
  destruct (prompt st) as [|c rest] eqn:Hp; [congruence|]. rewrite Hpalette.
  unfold bind, ret.
  change (generateBoth
            (setShowFigmaInstructions false
               (setLogoImageUrl None (setGeneratedScreens [] (setIsLoading true st))))
            colors log)
    with (generateBoth st colors log).
  destruct (generateBoth st colors log) as [[screens logo] log']. cbn [fst].
  destruct (generateTry (bothOuter screens logo) _). reflexivity.
Qed.

(** When the model answers a request the same way whatever was issued
    before it, the batch that [handleGenerate] awaits is that of
    [generateAppScreens]: issuing the logo request in between changes
    nothing. *)
Lemma screenPromise_any_log :
  (forall log log' request, ai log request = ai log' request) ->
  forall prompt style pc sc name log log',
    fst (screenPromise prompt style pc sc name log)
    = fst (screenPromise prompt style pc sc name log').
Proof.
  intros Hai prompt style pc sc name log log'.
  unfold screenPromise, generateScreenImage, generateScreenCodeReact,
    generateScreenCodeFlutter, bind, ret, generateContent.
  destruct (ToString name) as [n|e]; cbn [fst]; [|reflexivity].
  now rewrite (Hai log log'), (Hai (log ++ _) (log' ++ [imageRequest n prompt style pc sc])),
    (Hai ((log ++ _) ++ _)
       ((log' ++ [imageRequest n prompt style pc sc]) ++ [reactRequest n prompt style pc sc])).
Qed.

Lemma mapM_screenPromise_any_log :
  (forall log log' request, ai log request = ai log' request) ->
  forall prompt style pc sc names log log',
    fst (mapM (screenPromise prompt style pc sc) names log)
    = fst (mapM (screenPromise prompt style pc sc) names log').
Proof.
  intros Hai prompt style pc sc names.
  induction names as [|name rest IH]; intros log log'; [reflexivity|].
  rewrite !mapM_cons.
  pose proof (screenPromise_any_log Hai prompt style pc sc name log log') as Hhead.
  destruct (screenPromise prompt style pc sc name log) as [p log1].
  destruct (screenPromise prompt style pc sc name log') as [p' log1'].
  cbn [fst] in Hhead. subst p'. specialize (IH log1 log1').
  destruct (mapM (screenPromise prompt style pc sc) rest log1) as [ps log2].
  destruct (mapM (screenPromise prompt style pc sc) rest log1') as [ps' log2'].
  cbn [fst] in *. now subst ps'.
Qed.

(** X20. With a model that answers a request the same way whatever was
    issued before it, the batch that [handleGenerate] awaits is the one
    of [generateAppScreens]: the logo request issued in between changes
    nothing. *)
Lemma generateBoth_batch :
  (forall log log' request, ai log request = ai log' request) ->
  forall st colors log,
    fst (fst (generateBoth st colors log))
    = fst (generateAppScreens (prompt st) (selectedStyle st) (primary colors) (secondary colors)
             log).
Proof.
  intros Hai st colors log. rewrite generateBoth_run, generateAppScreens_run. cbn [fst].
  unfold generateAppScreens_resume.
  destruct (settled (fst (extractScreenNames (prompt st) log))) as [screenNames|e];
    [|reflexivity].
  destruct (negb (truthy screenNames) || lengthIsZero screenNames); [reflexivity|].
  destruct screenNames as [| |b|x|s|names|props]; try reflexivity.
  unfold bind, ret.
  pose proof (mapM_screenPromise_any_log Hai (prompt st) (selectedStyle st) (primary colors)
                (secondary colors) names
                ((log ++ [extractRequest (prompt st)])
                 ++ [logoRequest (prompt st) (selectedStyle st) (primary colors)
                       (secondary colors)])
                (log ++ [extractRequest (prompt st)])) as Hsame.
  destruct (mapM _ names ((log ++ _) ++ _)) as [ps log1].
  destruct (mapM _ names (log ++ _)) as [ps' log1'].
  cbn [fst] in *. now subst ps'.
Qed.

(** X19. A rejected logo request rejects the [Promise.all]: whatever the
    batch did, no screen is displayed and one error is reported. *)
Lemma handleGenerate_logo_rejected :
  forall st colors log e,
    prompt st <> [] ->
    palette st = Some colors ->
    settled (fst (generateLogo (prompt st) (selectedStyle st) (primary colors) (secondary colors)
                    (log ++ [extractRequest (prompt st)])))
    = Rejected e ->
    generatedScreens (fst (handleGenerate st log)) = []
    /\ logoImageUrl (fst (handleGenerate st log)) = None
    /\ exists msg,
         notifications (fst (handleGenerate st log))
         = notifications st ++ [{| notificationMessage := msg; notificationType := error |}].
Proof.
  intros st colors log e Hprompt Hpalette Hlogo.
  rewrite (handleGenerate_run st log Hprompt Hpalette), generateBoth_run.
  cbv zeta. unfold generateTry, bothOuter. rewrite Hlogo.
  destruct (settled (fst (generateAppScreens_resume _ _ _ _ _ _))) as [result|e'];
    [|destruct (_ <? _)%nat];
    lazy beta iota zeta delta
      [generatedScreens notifications logoImageUrl isLoading setIsLoading setLogoImageUrl
       setGeneratedScreens setShowFigmaInstructions showNotification settled];
    repeat split; eexists; reflexivity.
Qed.

Lemma failing_all :
  forall calls,
    Forall (fun c => screenFails c = true) calls ->
    succeeding calls = [] /\ failing calls = calls.
Proof.
  unfold succeeding, failing. induction 1 as [|c rest Hc _ [IHs IHf]]; [auto|].
  cbn [filter]. rewrite Hc. cbn [negb]. now rewrite IHs, IHf.
Qed.

Lemma succeeding_some :
  forall calls,
    Exists (fun c => screenFails c = false) calls -> succeeding calls <> [].
Proof.
  unfold succeeding. induction 1 as [c rest Hc|c rest _ IH]; cbn [filter].
  - rewrite Hc. discriminate.
  - destruct (negb (screenFails c)); [discriminate|exact IH].
Qed.

(** C3, as amended. Provided the logo request issued alongside the batch is
    fulfilled: the screens displayed after [handleGenerate] are the records
    of the screens that succeed; when every screen of the batch fails,
    nothing is displayed and the last notification is the error "Failed to
    generate any screens. Please try refining your prompt."; when at least
    one screen succeeds, the successful screens are displayed together with
    the logo, a success notification is shown, and the failures, if any,
    are reported by one error notification that does not hide them. *)
Theorem handleGenerate_reports_batch :
  forall (st : AppState) (colors : ColorPalette) (log : list Request)
         (names : list JSValue) (logoUrl : ustring),
    prompt st <> [] ->
    palette st = Some colors ->
    names <> [] ->
    settled (fst (extractScreenNames (prompt st) log)) = Fulfilled (JArr names) ->
    settled (fst (generateLogo (prompt st) (selectedStyle st) (primary colors) (secondary colors)
                    (log ++ [extractRequest (prompt st)])))
    = Fulfilled logoUrl ->
    let calls :=
      screenCalls (prompt st) (selectedStyle st) (primary colors) (secondary colors) names
        ((log ++ [extractRequest (prompt st)])
         ++ [logoRequest (prompt st) (selectedStyle st) (primary colors) (secondary colors)]) in
    let st' := fst (handleGenerate st log) in
    exists failed,
      Forall2 isRecordOf (succeeding calls) (generatedScreens st')
      /\ Forall2 recordsRejectionOf (failing calls) failed
      /\ isLoading st' = false
      /\ (Forall (fun c => screenFails c = true) calls ->
          generatedScreens st' = []
          /\ notifications st'
             = notifications st
               ++ [{| notificationMessage :=
                        lit "Could not generate some screens: " ++ join (lit ", ") (firstn 2 failed);
                      notificationType := error |};
                   {| notificationMessage :=
                        lit "Failed to generate any screens. Please try refining your prompt.";
                      notificationType := error |}])
      /\ (Exists (fun c => screenFails c = false) calls ->
          generatedScreens st' <> []
          /\ logoImageUrl st' = Some logoUrl
          /\ notifications st'
             = notifications st
               ++ [{| notificationMessage :=
                        lit "Successfully generated "
                        ++ decimal (List.length (generatedScreens st')) ++ lit " screen(s)!";
                      notificationType := success |}]
               ++ match failed with
                  | [] => []
                  | _ :: _ =>
                      [{| notificationMessage :=
                            lit "Could not generate some screens: "
                            ++ join (lit ", ") (firstn 2 failed);
                          notificationType := error |}]
                  end).
Proof.
  intros st colors log names logoUrl Hprompt Hpalette Hne Hnames Hlogo calls st'.
  destruct (resume_partition (fst (extractScreenNames (prompt st) log))
              (prompt st) (selectedStyle st) (primary colors) (secondary colors)
              ((log ++ [extractRequest (prompt st)])
               ++ [logoRequest (prompt st) (selectedStyle st) (primary colors) (secondary colors)])
              Hne Hnames)
    as (result & Hresult & Hs & Hf).
  fold calls in Hs, Hf.
  assert (Hst' : st' = fst (handleGenerate st log)) by reflexivity. clearbody st'.
  rewrite (handleGenerate_run st log Hprompt Hpalette), generateBoth_run in Hst'.
  cbv zeta in Hst'. unfold generateTry, bothOuter in Hst'. rewrite Hresult, Hlogo in Hst'.
  cbn [settled] in Hst'.
  destruct result as [succeeded failed]. cbn [successfulScreens failedScreenReasons] in *.
  assert (Hcount : List.length succeeded + List.length failed <> 0).
  { apply Forall2_length in Hs, Hf. rewrite <- Hs, <- Hf, succeeding_failing_length.
    unfold calls. rewrite screenCalls_length. destruct names; [congruence|discriminate]. }
  assert (Hnone : Forall (fun c => screenFails c = true) calls -> succeeded = []).
  { intros Hall. apply failing_all in Hall as [Hall _]. rewrite Hall in Hs. now inversion Hs. }
  assert (Hsome : Exists (fun c => screenFails c = false) calls -> succeeded <> []).
  { intros Hex. apply succeeding_some in Hex. intros ->.
    destruct (succeeding calls); [congruence|inversion Hs]. }
  exists failed.
  destruct succeeded as [|s succeeded'], failed as [|r failed'];
    cbn [List.length Nat.ltb Nat.leb Nat.eqb andb] in Hst'; subst st';
    lazy beta iota zeta delta
      [generatedScreens notifications logoImageUrl isLoading setIsLoading setLogoImageUrl
       setGeneratedScreens setShowFigmaInstructions showNotification message Error];
    (split; [exact Hs|]); (split; [exact Hf|]); (split; [reflexivity|]); split.
  - cbn in Hcount. congruence.
  - cbn in Hcount. congruence.
  - intros _. split; [reflexivity|]. now rewrite <- app_assoc.
  - intros Hex. now apply Hsome in Hex.
  - intros Hall. now apply Hnone in Hall.
  - intros _. repeat split. discriminate.
  - intros Hall. now apply Hnone in Hall.
  - intros _. repeat split; [discriminate|]. now rewrite <- app_assoc.
Qed.

End Properties.

(** ** Further properties

    What the code shows beyond the specification: what is asked of the
    model, how failures are worded, what the generated code and the
    records of a batch look like, and the other handlers of the App. *)

Section FurtherProperties.

Context {numbers : Numbers} {host : Host}.

(** *** Text: prefixes, occurrences, segments *)

Lemma startsWith_app :
  forall p s, startsWith p s = true <-> exists r, s = p ++ r.
Proof.
  induction p as [|x p IH]; intros s; cbn [startsWith].
  - split; [intros _; now exists s | reflexivity].
  - destruct s as [|y s]; split.
    + discriminate.
    + intros (r & Hr). discriminate.
    + intros H. apply andb_true_iff in H as [Hx Hp]. apply N.eqb_eq in Hx. subst y.
      apply IH in Hp as (r & ->). now exists r.
    + intros (r & Hr). cbn [app] in Hr. injection Hr as -> ->.
      rewrite N.eqb_refl. apply IH. now exists r.
Qed.

Lemma startsWith_trans :
  forall a p s, startsWith a p = true -> startsWith p s = true -> startsWith a s = true.
Proof.
  intros a p s Ha Hp.
  apply startsWith_app in Ha as (r & ->). apply startsWith_app in Hp as (r' & ->).
  apply startsWith_app. exists (r ++ r'). now rewrite app_assoc.
Qed.

Lemma includes_true :
  forall p s, includes p s = true <-> exists a b, s = a ++ p ++ b.
Proof.
  intros p s. split.
  - induction s as [|c s IH]; cbn [includes]; intros H; apply orb_true_iff in H as [H|H].
    + apply startsWith_app in H as (r & Hr). now exists [], r.
    + discriminate.
    + apply startsWith_app in H as (r & Hr). now exists [], r.
    + destruct (IH H) as (a & b & ->). now exists (c :: a), b.
  - intros (a & b & ->). induction a as [|c a IH].
    + cbn [app].
      assert (H : startsWith p (p ++ b) = true) by (apply startsWith_app; now exists b).
      destruct (p ++ b); cbn [includes]; now rewrite H.
    + cbn [app includes]. rewrite IH. apply orb_true_r.
Qed.

(** What does not occur in a text occurs in no part of it. *)
Lemma includes_part :
  forall p x s y, includes p (x ++ s ++ y) = false -> includes p s = false.
Proof.
  intros p x s y H. destruct (includes p s) eqn:Hs; [|reflexivity].
  apply includes_true in Hs as (a & b & ->).
  assert (Hall : includes p (x ++ (a ++ p ++ b) ++ y) = true).
  { apply includes_true. exists (x ++ a), (b ++ y). now rewrite <- !app_assoc. }
  congruence.
Qed.

Lemma trimStart_suffix : forall s, exists x, s = x ++ trimStart s.
Proof.
  induction s as [|c s (x & IH)]; cbn [trimStart].
  - now exists [].
  - destruct (isWhiteSpace c).
    + exists (c :: x). cbn [app]. now rewrite <- IH.
    + now exists [].
Qed.

Lemma trim_part : forall s, exists x y, s = x ++ trim s ++ y.
Proof.
  intros s. unfold trim, trimEnd.
  destruct (trimStart_suffix s) as (x & Hx).
  destruct (trimStart_suffix (rev (trimStart s))) as (z & Hz).
  exists x, (rev z). rewrite <- rev_app_distr, <- Hz, rev_involutive. exact Hx.
Qed.

Lemma includes_trim :
  forall p s, includes p s = false -> includes p (trim s) = false.
Proof.
  intros p s H. destruct (trim_part s) as (x & y & Hs).
  rewrite Hs in H. now apply includes_part in H.
Qed.

Lemma split_prefix :
  forall sep s seg segs, split sep s = seg :: segs -> exists r, s = seg ++ r.
Proof.
  intros sep s. induction s as [|c s IH]; intros seg segs; cbn [split].
  - intros [= <- <-]. now exists [].
  - destruct (c =? sep)%N.
    + intros [= <- <-]. now exists (c :: s).
    + destruct (split sep s) as [|seg0 segs0] eqn:Hs.
      * now destruct (split_nonempty sep s).
      * intros [= <- <-]. destruct (IH _ _ eq_refl) as (r & ->). now exists r.
Qed.

Lemma split_segment_part :
  forall sep s seg, In seg (split sep s) -> exists x y, s = x ++ seg ++ y.
Proof.
  intros sep s. induction s as [|c s IH]; intros seg; cbn [split].
  - intros [<-|[]]. now exists [], [].
  - destruct (c =? sep)%N.
    + intros [<-|Hin].
      * now exists [], (c :: s).
      * destruct (IH _ Hin) as (x & y & ->). now exists (c :: x), y.
    + destruct (split sep s) as [|seg0 segs0] eqn:Hs.
      * intros [<-|[]]. now destruct (split_nonempty sep s).
      * intros [<-|Hin].
        -- destruct (split_prefix _ _ Hs) as (r & ->). now exists [], r.
        -- destruct (IH seg (or_intror Hin)) as (x & y & ->). now exists (c :: x), y.
Qed.

Lemma split_segment_no_sep :
  forall sep s, Forall (Forall (fun c => c <> sep)) (split sep s).
Proof.
  intros sep s. induction s as [|c s IH]; cbn [split].
  - repeat constructor.
  - destruct (c =? sep)%N eqn:Hc.
    + constructor; [constructor|exact IH].
    + apply N.eqb_neq in Hc.
      destruct (split sep s) as [|seg0 segs0]; [repeat constructor; exact Hc|].
      inversion IH as [|? ? Hseg Hsegs]; subst. constructor; [|exact Hsegs].
      constructor; assumption.
Qed.

Lemma split_no_sep :
  forall sep s, Forall (fun c => c <> sep) s -> split sep s = [s].
Proof.
  intros sep s. induction 1 as [|c s Hc _ IH]; cbn [split]; [reflexivity|].
  apply N.eqb_neq in Hc. now rewrite Hc, IH.
Qed.

Lemma split_app_sep :
  forall sep a b, split sep (a ++ sep :: b) = split sep a ++ split sep b.
Proof.
  intros sep a b. induction a as [|c a IH]; cbn [app split].
  - now rewrite N.eqb_refl.
  - destruct (c =? sep)%N; rewrite IH; [reflexivity|].
    destruct (split sep a) as [|seg0 segs0] eqn:Ha; [now destruct (split_nonempty sep a)|].
    reflexivity.
Qed.

(** Joining what [split] gives restores the text. *)
Lemma join_split : forall sep s, join [sep] (split sep s) = s.
Proof.
  intros sep s. induction s as [|c s IH]; cbn [split]; [reflexivity|].
  destruct (c =? sep)%N eqn:Hc.
  - apply N.eqb_eq in Hc. subst c.
    destruct (split sep s) as [|seg0 segs0] eqn:Hs; [now destruct (split_nonempty sep s)|].
    cbn [join app] in *. now rewrite IH.
  - destruct (split sep s) as [|seg0 [|seg1 segs1]] eqn:Hs.
    + now destruct (split_nonempty sep s).
    + cbn [join] in *. now rewrite IH.
    + cbn [join app] in *. now rewrite IH.
Qed.

(** Splitting what [join] gives restores the segments, when there is one
    and none holds the separator. *)
Lemma split_join :
  forall sep segs,
    segs <> [] ->
    Forall (Forall (fun c => c <> sep)) segs ->
    split sep (join [sep] segs) = segs.
Proof.
  intros sep segs Hne Hall. induction Hall as [|seg rest Hseg Hrest IH]; [congruence|].
  destruct rest as [|seg' rest'].
  - cbn [join]. now apply split_no_sep.
  - change (join [sep] (seg :: seg' :: rest')) with (seg ++ sep :: join [sep] (seg' :: rest')).
    rewrite split_app_sep, (split_no_sep Hseg), IH by discriminate. reflexivity.
Qed.

Lemma join_app :
  forall sep l1 l2,
    l1 <> [] -> l2 <> [] -> join sep (l1 ++ l2) = join sep l1 ++ sep ++ join sep l2.
Proof.
  intros sep l1 l2 H1 H2. induction l1 as [|seg rest IH]; [congruence|].
  destruct rest as [|seg' rest'].
  - destruct l2 as [|seg2 rest2]; [congruence|]. reflexivity.
  - change (join sep ((seg :: seg' :: rest') ++ l2))
      with (seg ++ sep ++ join sep ((seg' :: rest') ++ l2)).
    rewrite IH by discriminate.
    change (join sep (seg :: seg' :: rest')) with (seg ++ sep ++ join sep (seg' :: rest')).
    now rewrite <- !app_assoc.
Qed.

(** *** The fences *)

Lemma fence_units : fence = [96; 96; 96]%N.
Proof. reflexivity. Qed.

Lemma includes_fence_cons :
  forall c s, c <> 96%N -> includes fence (c :: s) = includes fence s.
Proof.
  intros c s Hc. cbn [includes]. rewrite fence_units at 1. cbn [startsWith].
  apply N.eqb_neq in Hc. rewrite N.eqb_sym in Hc. now rewrite Hc.
Qed.

Lemma startsWith_fence_app :
  forall a c b, c <> 96%N -> startsWith fence (a ++ c :: b) = startsWith fence a.
Proof.
  intros a c b Hc. apply N.eqb_neq in Hc. rewrite N.eqb_sym in Hc. rewrite fence_units.
  destruct a as [|a0 [|a1 [|a2 a]]]; cbn [app startsWith]; rewrite ?Hc;
    rewrite ?andb_false_r; reflexivity.
Qed.

Lemma includes_fence_app :
  forall a c b,
    c <> 96%N -> includes fence (a ++ c :: b) = includes fence a || includes fence b.
Proof.
  intros a c b Hc. induction a as [|a0 a IH].
  - cbn [app]. now rewrite includes_fence_cons.
  - change (includes fence ((a0 :: a) ++ c :: b))
      with (startsWith fence ((a0 :: a) ++ c :: b) || includes fence (a ++ c :: b)).
    rewrite startsWith_fence_app, IH by exact Hc.
    cbn [includes]. now rewrite orb_assoc.
Qed.

Lemma includes_fence_none :
  forall s, Forall (fun c => c <> 96%N) s -> includes fence s = false.
Proof.
  induction 1 as [|c s Hc _ IH]; [reflexivity|]. now rewrite includes_fence_cons.
Qed.

Lemma keepAlphaNumeric_units :
  forall s c, In c (keepAlphaNumeric s) -> isAlphaNumeric c = true.
Proof.
  intros s c Hin. unfold keepAlphaNumeric in Hin. now apply filter_In in Hin.
Qed.

Lemma keepAlphaNumeric_no_backtick :
  forall s, Forall (fun c => c <> 96%N) (keepAlphaNumeric s).
Proof.
  intros s. apply Forall_forall. intros c Hin Hc. subst c.
  apply keepAlphaNumeric_units in Hin. discriminate.
Qed.

Lemma keepAlphaNumeric_no_newline :
  forall s, Forall (fun c => c <> newline) (keepAlphaNumeric s).
Proof.
  intros s. apply Forall_forall. intros c Hin Hc. subst c.
  apply keepAlphaNumeric_units in Hin. discriminate.
Qed.

(** The scan of [removeFrom] leaves no fence when the fence is one of the
    alternatives and every alternative starts with it. *)
Section Fences.

Variable pats : list ustring.
Hypothesis fence_alternative : In fence pats.
Hypothesis fence_starts : forall p, In p pats -> startsWith fence p = true.

Lemma firstMatch_fence :
  forall s p, firstMatch pats s = Some p -> startsWith fence s = true.
Proof.
  intros s p H. unfold firstMatch in H. apply find_some in H as [Hin Hp].
  exact (startsWith_trans _ _ _ (fence_starts _ Hin) Hp).
Qed.

Lemma firstMatch_none :
  forall s, firstMatch pats s = None -> startsWith fence s = false.
Proof.
  intros s H. unfold firstMatch in H. exact (find_none _ _ H _ fence_alternative).
Qed.

Lemma firstMatch_length :
  forall s p, firstMatch pats s = Some p -> List.length p <> 0.
Proof.
  intros s p H. unfold firstMatch in H. apply find_some in H as [Hin _].
  apply fence_starts in Hin. destruct p; [discriminate Hin|discriminate].
Qed.

Lemma removeFrom_one_backtick :
  forall s,
    startsWith [96%N] s = false -> startsWith [96%N] (removeFrom pats 0 s) = false.
Proof.
  intros [|c s] H; [reflexivity|]. cbn [removeFrom].
  destruct (firstMatch pats (c :: s)) as [p|] eqn:Hm.
  - apply firstMatch_fence in Hm. rewrite fence_units in Hm. cbn [startsWith] in *.
    apply andb_true_iff in Hm as [Hc _]. rewrite Hc in H. discriminate.
  - cbn [startsWith] in *. exact H.
Qed.

Lemma removeFrom_two_backticks :
  forall s,
    startsWith [96%N; 96%N] s = false ->
    startsWith [96%N; 96%N] (removeFrom pats 0 s) = false.
Proof.
  intros [|c s] H; [reflexivity|]. cbn [removeFrom].
  destruct (firstMatch pats (c :: s)) as [p|] eqn:Hm.
  - apply firstMatch_fence in Hm. rewrite fence_units in Hm. cbn [startsWith] in Hm, H.
    apply andb_true_iff in Hm as [Hc Hm]. rewrite Hc in H. cbn [andb] in H.
    destruct s as [|d s]; [discriminate|]. cbn [startsWith] in Hm, H.
    apply andb_true_iff in Hm as [Hd _]. rewrite Hd in H. discriminate.
  - cbn [startsWith] in *. destruct (96 =? c)%N; [|reflexivity]. cbn [andb] in *.
    now apply removeFrom_one_backtick.
Qed.

Lemma removeFrom_no_fence :
  forall s skip, includes fence (removeFrom pats skip s) = false.
Proof.
  induction s as [|c s IH]; intros skip; [destruct skip; reflexivity|].
  cbn [removeFrom]. destruct skip as [|k]; [|apply IH].
  destruct (firstMatch pats (c :: s)) as [p|] eqn:Hm.
  - pose proof (firstMatch_length _ Hm) as Hlen.
    destruct (List.length p) as [|k]; [congruence|apply IH].
  - apply firstMatch_none in Hm.
    cbn [includes]. rewrite IH, orb_false_r.
    rewrite fence_units in Hm |- *. cbn [startsWith] in Hm |- *.
    destruct (96 =? c)%N; [|reflexivity]. cbn [andb] in Hm |- *.
    now apply removeFrom_two_backticks.
Qed.

End Fences.

Lemma rawCode_no_fence :
  forall language t,
    includes fence (trim (removeAll [fence ++ language; fence] t)) = false.
Proof.
  intros language t. apply includes_trim. unfold removeAll. apply removeFrom_no_fence.
  - right. now left.
  - intros p [<-|[<-|[]]]; apply startsWith_app; [now exists language | now exists []].
Qed.


(** *** What one generator settles to *)


Lemma generateScreenImage_rejected :
  forall name n desc style pc sc log e,
    ToString name = Fulfilled n ->
    settled (fst (generateScreenImage name desc style pc sc log)) = Rejected e ->
    e = Error (lit "Failed to generate UI for " ++ n ++ lit ".").
Proof.
  intros name n desc style pc sc log e Hn.
  rewrite (generateScreenImage_run _ _ _ _ _ _ Hn). cbn [fst tryCatch settled].
  destruct (settled (ai log _)) as [response|e']; [|now intros [= <-]].
  destruct (inlineImage response); [discriminate|now intros [= <-]].
Qed.

Lemma generateScreenCodeReact_fulfilled :
  forall name desc style pc sc log code,
    settled (fst (generateScreenCodeReact name desc style pc sc log)) = Fulfilled code ->
    exists s t,
      name = JStr s
      /\ 50 <= List.length (trim (removeAll [lit "```jsx"; lit "```"] t))
      /\ code = reactComponent (keepAlphaNumeric s) (trim (removeAll [lit "```jsx"; lit "```"] t)).
Proof.
  intros name desc style pc sc log code. unfold generateScreenCodeReact.
  destruct (ToString name) as [n|e0] eqn:Hn; [|discriminate].
  unfold bind, generateContent, ret. cbn [fst tryCatch settled].
  destruct (settled (ai log _)) as [response|e']; [|discriminate].
  unfold rawCodeOf. destruct (text response) as [t|]; cbn [bindSettled]; [|discriminate].
  destruct (tooShort _) eqn:Hlong; [discriminate|]. apply tooShort_false in Hlong.
  destruct name as [| |b|x|s|items|props]; cbn [componentNameOf bindSettled];
    try discriminate.
  intros [= <-]. now exists s, t.
Qed.

Lemma generateScreenCodeReact_rejected :
  forall name n desc style pc sc log e,
    ToString name = Fulfilled n ->
    settled (fst (generateScreenCodeReact name desc style pc sc log)) = Rejected e ->
    e = Error (lit "Failed to generate React code for " ++ dq ++ n ++ dq ++ lit ".").
Proof.
  intros name n desc style pc sc log e Hn.
  rewrite (generateScreenCodeReact_run _ _ _ _ _ _ Hn). cbn [fst tryCatch settled].
  destruct (settled (ai log _)) as [response|e']; [|now intros [= <-]].
  destruct (rawCodeOf _ response) as [rawCode|e']; cbn [bindSettled]; [|now intros [= <-]].
  destruct (tooShort rawCode); [now intros [= <-]|].
  destruct (componentNameOf name); cbn [bindSettled]; [discriminate|now intros [= <-]].
Qed.

Lemma generateScreenCodeFlutter_fulfilled :
  forall name desc style pc sc log code,
    settled (fst (generateScreenCodeFlutter name desc style pc sc log)) = Fulfilled code ->
    exists t,
      50 <= List.length (trim (removeAll [lit "```dart"; lit "```"] t))
      /\ code = flutterWidget (trim (removeAll [lit "```dart"; lit "```"] t)).
Proof.
  intros name desc style pc sc log code. unfold generateScreenCodeFlutter.
  destruct (ToString name) as [n|e0] eqn:Hn; [|discriminate].
  unfold bind, generateContent, ret. cbn [fst tryCatch settled].
  destruct (settled (ai log _)) as [response|e']; [|discriminate].
  unfold rawCodeOf. destruct (text response) as [t|]; cbn [bindSettled]; [|discriminate].
  destruct (tooShort _) eqn:Hlong; [discriminate|]. apply tooShort_false in Hlong.
  intros [= <-]. now exists t.
Qed.

Lemma generateScreenCodeFlutter_rejected :
  forall name n desc style pc sc log e,
    ToString name = Fulfilled n ->
    settled (fst (generateScreenCodeFlutter name desc style pc sc log)) = Rejected e ->
    e = Error (lit "Failed to generate Flutter code for " ++ dq ++ n ++ dq ++ lit ".").
Proof.
  intros name n desc style pc sc log e Hn.
  rewrite (generateScreenCodeFlutter_run _ _ _ _ _ _ Hn). cbn [fst tryCatch settled].
  destruct (settled (ai log _)) as [response|e']; [|now intros [= <-]].
  destruct (rawCodeOf _ response) as [rawCode|e']; cbn [bindSettled]; [|now intros [= <-]].
  destruct (tooShort rawCode); [now intros [= <-]|discriminate].
Qed.

(** A name that cannot be converted to a string: each generator rejects
    with the error of the conversion. *)
Lemma generators_unprintable :
  forall name e0 desc style pc sc log,
    ToString name = Rejected e0 ->
    settled (fst (generateScreenImage name desc style pc sc log)) = Rejected e0
    /\ settled (fst (generateScreenCodeReact name desc style pc sc log)) = Rejected e0
    /\ settled (fst (generateScreenCodeFlutter name desc style pc sc log)) = Rejected e0.
Proof.
  intros name e0 desc style pc sc log Hn.
  unfold generateScreenImage, generateScreenCodeReact, generateScreenCodeFlutter.
  rewrite Hn. repeat split.
Qed.

Lemma editImage_settled :
  forall base64ImageData mimeType prompt log,
    (exists bytes,
        settled (fst (editImage base64ImageData mimeType prompt log))
        = Fulfilled (lit "data:image/png;base64," ++ bytes))
    \/ settled (fst (editImage base64ImageData mimeType prompt log))
       = Rejected (Error (lit "Invalid base64 image data provided."))
    \/ settled (fst (editImage base64ImageData mimeType prompt log))
       = Rejected (Error (lit "Failed to edit the image with the provided prompt.")).
Proof.
  intros b64 mt p log. unfold editImage.
  destruct (nth_error (split comma b64) 1) as [[|c pure]|]; try (right; left; reflexivity).
  unfold bind, generateContent, ret. cbn [fst tryCatch settled].
  destruct (settled (ai log _)) as [response|e']; [|right; right; reflexivity].
  rewrite inlineImage_firstInlineData.
  destruct (firstInlineData response) as [blob|]; [|right; right; reflexivity].
  left. now exists (templateText (data blob)).
Qed.

(** X1. Whatever the model answers or fails with, a rejection of a
    generator carries the generator's own message, naming the screen where
    there is one: the error of the model, and the errors that the
    generator raises on a reply it cannot use, are never passed on. *)
Theorem generators_reject_with_their_own_message :
  forall (log : list Request) (e : Exn),
    (forall name n desc style pc sc,
        ToString name = Fulfilled n ->
        settled (fst (generateScreenImage name desc style pc sc log)) = Rejected e ->
        e = Error (lit "Failed to generate UI for " ++ n ++ lit "."))
    /\ (forall name n desc style pc sc,
        ToString name = Fulfilled n ->
        settled (fst (generateScreenCodeReact name desc style pc sc log)) = Rejected e ->
        e = Error (lit "Failed to generate React code for " ++ dq ++ n ++ dq ++ lit "."))
    /\ (forall name n desc style pc sc,
        ToString name = Fulfilled n ->
        settled (fst (generateScreenCodeFlutter name desc style pc sc log)) = Rejected e ->
        e = Error (lit "Failed to generate Flutter code for " ++ dq ++ n ++ dq ++ lit "."))
    /\ (forall desc style pc sc,
        settled (fst (generateLogo desc style pc sc log)) = Rejected e ->
        e = Error (lit "Failed to generate a logo for the app."))
    /\ (forall prompt,
        settled (fst (extractScreenNames prompt log)) = Rejected e ->
        e = Error (lit "Failed to parse app description. Please try rephrasing your idea."))
    /\ (forall base64ImageData mimeType prompt,
        settled (fst (editImage base64ImageData mimeType prompt log)) = Rejected e ->
        e = Error (lit "Invalid base64 image data provided.")
        \/ e = Error (lit "Failed to edit the image with the provided prompt.")).
Proof.
  intros log e. split; [|split; [|split; [|split; [|split]]]].
  - intros name n desc style pc sc Hn He. exact (generateScreenImage_rejected _ _ _ _ _ _ Hn He).
  - intros name n desc style pc sc Hn He.
    exact (generateScreenCodeReact_rejected _ _ _ _ _ _ Hn He).
  - intros name n desc style pc sc Hn He.
    exact (generateScreenCodeFlutter_rejected _ _ _ _ _ _ Hn He).
  - intros desc style pc sc. unfold generateLogo, bind, generateContent, ret.
    cbn [fst tryCatch settled].
    destruct (settled (ai log _)) as [response|e']; [|now intros [= <-]].
    destruct (inlineImage response); [discriminate|now intros [= <-]].
  - intros prompt. rewrite extractScreenNames_run. cbn [fst tryCatch settled].
    destruct (settled (ai log _)) as [response|e']; [|now intros [= <-]].
    destruct (parseText (text response)) as [json|e']; cbn [bindSettled]; [|now intros [= <-]].
    destruct (getProp json (lit "screens")); cbn [bindSettled]; [discriminate|now intros [= <-]].
  - intros b64 mt p He.
    destruct (editImage_settled b64 mt p log) as [(bytes & H)|[H|H]]; rewrite H in He.
    + discriminate.
    + left. now injection He as <-.
    + right. now injection He as <-.
Qed.

(** *** The code that is returned *)

(** Peels the literal code units that head the text in which a fence is
    looked for. *)
Ltac peel_literals :=
  repeat match goal with
         | |- context [lit ?s] =>
             let units := eval vm_compute in (lit s) in
             change (lit s) with units
         end;
  unfold nl; cbn [app];
  repeat rewrite includes_fence_cons by discriminate.

Lemma indented_no_fence :
  forall lines,
    Forall (fun line => includes fence line = false) lines ->
    includes fence (join nl (map (fun line => lit "    " ++ line) lines)) = false.
Proof.
  induction 1 as [|line rest Hline Hrest IH]; [reflexivity|].
  destruct rest as [|line' rest'].
  - cbn [map join]. peel_literals. exact Hline.
  - change (join nl (map (fun line => lit "    " ++ line) (line :: line' :: rest')))
      with ((lit "    " ++ line)
            ++ nl ++ join nl (map (fun line => lit "    " ++ line) (line' :: rest'))).
    set (others := join nl (map (fun line => lit "    " ++ line) (line' :: rest'))) in *.
    rewrite <- app_assoc. peel_literals.
    rewrite includes_fence_app by discriminate. now rewrite Hline, IH.
Qed.

Lemma reactComponent_no_fence :
  forall s rawCode,
    includes fence rawCode = false ->
    includes fence (reactComponent (keepAlphaNumeric s) rawCode) = false.
Proof.
  intros s rawCode Hraw. unfold reactComponent.
  assert (Hname : includes fence (keepAlphaNumeric s) = false)
    by apply includes_fence_none, keepAlphaNumeric_no_backtick.
  assert (Hbody : includes fence
                    (join nl (map (fun line => lit "    " ++ line) (split newline rawCode)))
                  = false).
  { apply indented_no_fence. apply Forall_forall. intros line Hin.
    destruct (split_segment_part _ _ _ Hin) as (x & y & Hxy).
    rewrite Hxy in Hraw. now apply includes_part in Hraw. }
  set (body := join nl (map (fun line => lit "    " ++ line) (split newline rawCode))) in *.
  set (componentName := keepAlphaNumeric s) in *.
  peel_literals.
  rewrite includes_fence_app by discriminate. rewrite Hname. cbn [orb].
  repeat rewrite includes_fence_cons by discriminate.
  rewrite includes_fence_app by discriminate. rewrite Hbody. cbn [orb].
  repeat rewrite includes_fence_cons by discriminate.
  rewrite includes_fence_app by discriminate. rewrite Hname. cbn [orb].
  repeat rewrite includes_fence_cons by discriminate.
  reflexivity.
Qed.

Lemma flutterWidget_no_fence :
  forall rawCode,
    includes fence rawCode = false -> includes fence (flutterWidget rawCode) = false.
Proof.
  intros rawCode Hraw. unfold flutterWidget. peel_literals.
  rewrite includes_fence_app by discriminate. now rewrite Hraw.
Qed.

(** X2. The code that a code generator returns holds no markdown fence:
    whatever the text of the model, no three backticks in a row are left
    in the React component or in the Flutter widget. *)
Theorem generated_code_has_no_fence :
  forall (name : JSValue) (desc : ustring) (style : DesignStyle) (pc sc : ustring)
         (log : list Request) (code : ustring),
    settled (fst (generateScreenCodeReact name desc style pc sc log)) = Fulfilled code
    \/ settled (fst (generateScreenCodeFlutter name desc style pc sc log)) = Fulfilled code ->
    includes (lit "```") code = false.
Proof.
  intros name desc style pc sc log code [H|H].
  - apply generateScreenCodeReact_fulfilled in H as (s & t & _ & _ & ->).
    apply reactComponent_no_fence. exact (rawCode_no_fence (lit "jsx") t).
  - apply generateScreenCodeFlutter_fulfilled in H as (t & _ & ->).
    apply flutterWidget_no_fence. exact (rawCode_no_fence (lit "dart") t).
Qed.

(** X3. The React component is the text of the model line by line: its
    lines are the four lines of the head, the lines of the text, each
    after four spaces, and the five lines of the tail; and the lines of
    the text, joined by line feeds, are the text. *)
Theorem reactComponent_lines :
  forall (s rawCode : ustring),
    split newline (reactComponent (keepAlphaNumeric s) rawCode)
    = [lit "import React from 'react';";
       [];
       lit "const " ++ keepAlphaNumeric s ++ lit " = () => {";
       lit "  return ("]
      ++ map (fun line => lit "    " ++ line) (split newline rawCode)
      ++ [lit "  );";
          lit "};";
          [];
          lit "export default " ++ keepAlphaNumeric s ++ lit ";";
          []]
    /\ join nl (split newline rawCode) = rawCode.
Proof.
  intros s rawCode. split; [|apply join_split].
  set (componentName := keepAlphaNumeric s).
  set (body := map (fun line => lit "    " ++ line) (split newline rawCode)).
  assert (Hbody : body <> []).
  { unfold body. destruct (split newline rawCode) eqn:Hs; [|discriminate].
    now destruct (split_nonempty newline rawCode). }
  assert (Hjoin : reactComponent componentName rawCode
                  = join nl ([lit "import React from 'react';"; [];
                              lit "const " ++ componentName ++ lit " = () => {";
                              lit "  return ("]
                             ++ body
                             ++ [lit "  );"; lit "};"; [];
                                 lit "export default " ++ componentName ++ lit ";"; []])).
  { unfold reactComponent. fold body.
    destruct body as [|line rest] eqn:Hb; [congruence|].
    change (join nl ([lit "import React from 'react';"; [];
                      lit "const " ++ componentName ++ lit " = () => {";
                      lit "  return ("]
                     ++ (line :: rest)
                     ++ [lit "  );"; lit "};"; [];
                         lit "export default " ++ componentName ++ lit ";"; []]))
      with (lit "import React from 'react';" ++ nl ++ [] ++ nl
            ++ (lit "const " ++ componentName ++ lit " = () => {") ++ nl
            ++ lit "  return (" ++ nl
            ++ join nl ((line :: rest)
                        ++ [lit "  );"; lit "};"; [];
                            lit "export default " ++ componentName ++ lit ";"; []])).
    rewrite join_app by discriminate.
    change (join nl [lit "  );"; lit "};"; [];
                     lit "export default " ++ componentName ++ lit ";"; []])
      with (lit "  );" ++ nl ++ lit "};" ++ nl ++ [] ++ nl
            ++ (lit "export default " ++ componentName ++ lit ";") ++ nl ++ []).
    cbn [app]. rewrite <- !app_assoc. rewrite app_nil_r. reflexivity. }
  rewrite Hjoin. apply split_join.
  - discriminate.
  - assert (Hlit : forall t : string,
               forallb (fun c => negb (c =? newline)%N) (lit t) = true ->
               Forall (fun c => c <> newline) (lit t)).
    { intros t Ht. apply Forall_forall. intros c Hin.
      rewrite forallb_forall in Ht. apply Ht in Hin.
      apply negb_true_iff in Hin. now apply N.eqb_neq. }
    assert (Hname : Forall (fun c => c <> newline) componentName)
      by apply keepAlphaNumeric_no_newline.
    assert (Hmid : forall a b : string,
               forallb (fun c => negb (c =? newline)%N) (lit a) = true ->
               forallb (fun c => negb (c =? newline)%N) (lit b) = true ->
               Forall (fun c => c <> newline) (lit a ++ componentName ++ lit b)).
    { intros a b Ha Hb. apply Forall_app. split; [now apply Hlit|].
      apply Forall_app. split; [exact Hname|now apply Hlit]. }
    apply Forall_app. split; [|apply Forall_app; split].
    + apply Forall_cons; [now apply Hlit|].
      apply Forall_cons; [apply Forall_nil|].
      apply Forall_cons; [now apply Hmid|].
      apply Forall_cons; [now apply Hlit|]. apply Forall_nil.
    + unfold body. apply Forall_forall. intros line Hin.
      apply in_map_iff in Hin as (line0 & <- & Hin0).
      apply Forall_app. split; [now apply Hlit|].
      pose proof (split_segment_no_sep newline rawCode) as Hsegs.
      rewrite Forall_forall in Hsegs. now apply Hsegs.
    + apply Forall_cons; [now apply Hlit|].
      apply Forall_cons; [now apply Hlit|].
      apply Forall_cons; [apply Forall_nil|].
      apply Forall_cons; [now apply Hmid|].
      apply Forall_cons; [apply Forall_nil|]. apply Forall_nil.
Qed.


(** *** What a batch asks of the model *)

Lemma screenPromise_log :
  forall prompt style pc sc name log,
    snd (screenPromise prompt style pc sc name log)
    = log ++ screenRequests prompt style pc sc name.
Proof.
  intros prompt style pc sc name log.
  unfold screenPromise, screenRequests, generateScreenImage, generateScreenCodeReact,
    generateScreenCodeFlutter, bind, ret, generateContent.
  destruct (ToString name) as [n|e]; cbn [snd].
  - now rewrite <- !app_assoc.
  - now rewrite app_nil_r.
Qed.

Lemma mapM_screenPromise_log :
  forall prompt style pc sc names log,
    snd (mapM (screenPromise prompt style pc sc) names log)
    = log ++ flat_map (screenRequests prompt style pc sc) names.
Proof.
  intros prompt style pc sc names. induction names as [|name rest IH]; intros log.
  - cbn. now rewrite app_nil_r.
  - rewrite mapM_cons.
    pose proof (screenPromise_log prompt style pc sc name log) as Hhead.
    destruct (screenPromise prompt style pc sc name log) as [p log1]. cbn [snd] in Hhead.
    specialize (IH log1).
    destruct (mapM (screenPromise prompt style pc sc) rest log1) as [ps log2].
    cbn [snd flat_map] in *. subst. now rewrite app_assoc.
Qed.

Lemma resume_log :
  forall awaited prompt style pc sc log,
    snd (generateAppScreens_resume awaited prompt style pc sc log)
    = log ++ flat_map (screenRequests prompt style pc sc) (batchNames awaited).
Proof.
  intros awaited prompt style pc sc log. unfold generateAppScreens_resume, batchNames.
  destruct (settled awaited) as [screenNames|e]; [|cbn; now rewrite app_nil_r].
  destruct screenNames as [| |b|x|s|names|props];
    try (destruct (_ || _); cbn; now rewrite app_nil_r).
  destruct names as [|name rest]; [cbn; now rewrite app_nil_r|].
  cbn [truthy lengthIsZero negb orb]. unfold bind, ret.
  pose proof (mapM_screenPromise_log prompt style pc sc (name :: rest) log) as Hlog.
  destruct (mapM (screenPromise prompt style pc sc) (name :: rest) log) as [ps log1].
  exact Hlog.
Qed.

(** What [generateAppScreens] is fulfilled with comes from a batch over a
    non-empty array of names. *)
Lemma resume_fulfilled :
  forall awaited prompt style pc sc log result,
    settled (fst (generateAppScreens_resume awaited prompt style pc sc log)) = Fulfilled result ->
    exists names, names <> [] /\ settled awaited = Fulfilled (JArr names).
Proof.
  intros awaited prompt style pc sc log result. unfold generateAppScreens_resume.
  destruct (settled awaited) as [screenNames|e]; [|discriminate].
  destruct screenNames as [| |b|x|s|names|props];
    try (destruct (_ || _); discriminate).
  destruct names as [|name rest]; [discriminate|].
  intros _. exists (name :: rest). split; [discriminate|reflexivity].
Qed.

Lemma resume_rejected :
  forall awaited prompt style pc sc log e,
    settled (fst (generateAppScreens_resume awaited prompt style pc sc log)) = Rejected e ->
    settled awaited = Rejected e
    \/ e = Error noScreensMessage
    \/ e = engineError NotAFunction.
Proof.
  intros awaited prompt style pc sc log e. unfold generateAppScreens_resume.
  destruct (settled awaited) as [screenNames|e0]; [|intros [= <-]; now left].
  destruct (negb (truthy screenNames) || lengthIsZero screenNames) eqn:Hguard;
    [intros [= <-]; right; now left|].
  destruct screenNames as [| |b|x|s|names|props]; try discriminate Hguard;
    try (intros [= <-]; right; now right).
  unfold bind, ret. destruct (mapM _ names log). discriminate.
Qed.

Lemma batchNames_rejected :
  forall awaited prompt style pc sc log e,
    settled (fst (generateAppScreens_resume awaited prompt style pc sc log)) = Rejected e ->
    batchNames awaited = [].
Proof.
  intros awaited prompt style pc sc log e. unfold generateAppScreens_resume, batchNames.
  destruct (settled awaited) as [screenNames|e0]; [|reflexivity].
  destruct screenNames as [| |b|x|s|names|props]; try reflexivity.
  destruct names as [|name rest]; [reflexivity|].
  cbn [truthy lengthIsZero negb orb]. unfold bind, ret. destruct (mapM _ _ log). discriminate.
Qed.

Lemma screenRequests_string :
  forall prompt style pc sc names,
    Forall (fun name => exists s, name = JStr s) names ->
    List.length (flat_map (screenRequests prompt style pc sc) names) = 3 * List.length names.
Proof.
  intros prompt style pc sc names. induction 1 as [|name rest (s & ->) _ IH]; [reflexivity|].
  cbn [flat_map]. rewrite length_app, IH. cbn. lia.
Qed.

(** X4. The requests of [generateAppScreens], whatever the model answers
    to them: the extraction request, then for each extracted name in turn
    the image, the React and the Flutter request of that screen (none for
    a name that cannot be converted to a string); nothing without a
    non-empty array of names. For N names that are strings that makes
    3N + 1 requests: no failure keeps a later request from being issued. *)
Theorem generateAppScreens_requests :
  forall (prompt : ustring) (style : DesignStyle) (pc sc : ustring) (log : list Request),
    snd (generateAppScreens prompt style pc sc log)
    = log ++ extractRequest prompt
             :: flat_map (screenRequests prompt style pc sc)
                  (batchNames (fst (extractScreenNames prompt log)))
    /\ (forall names,
          settled (fst (extractScreenNames prompt log)) = Fulfilled (JArr names) ->
          Forall (fun name => exists s, name = JStr s) names ->
          List.length (snd (generateAppScreens prompt style pc sc log))
          = List.length log + 1 + 3 * List.length names).
Proof.
  intros prompt style pc sc log.
  assert (Hlog : snd (generateAppScreens prompt style pc sc log)
                 = log ++ extractRequest prompt
                          :: flat_map (screenRequests prompt style pc sc)
                               (batchNames (fst (extractScreenNames prompt log)))).
  { rewrite generateAppScreens_run, resume_log. now rewrite <- app_assoc. }
  split; [exact Hlog|].
  intros names Hnames Hstrings. rewrite Hlog. unfold batchNames. rewrite Hnames.
  rewrite length_app. cbn [List.length]. rewrite (screenRequests_string _ _ _ _ Hstrings). lia.
Qed.

(** X5. [generateAppScreens] rejects only before the batch: the extraction
    request is then the only request it has issued, and the error is that
    of the extraction, the guidance to be more specific, or the engine's
    complaint that what was extracted has no [map]. *)
Theorem generateAppScreens_rejects_before_batch :
  forall (prompt : ustring) (style : DesignStyle) (pc sc : ustring) (log : list Request)
         (e : Exn),
    settled (fst (generateAppScreens prompt style pc sc log)) = Rejected e ->
    snd (generateAppScreens prompt style pc sc log) = log ++ [extractRequest prompt]
    /\ (e = Error (lit "Failed to parse app description. Please try rephrasing your idea.")
        \/ e = Error (lit "Could not identify any screens from your description. Please be more specific about the pages you need, e.g., 'login page', 'dashboard'.")
        \/ e = engineError NotAFunction).
Proof.
  intros prompt style pc sc log e He. rewrite generateAppScreens_run in *. split.
  - rewrite resume_log, (batchNames_rejected _ _ _ _ _ _ He). cbn. now rewrite app_nil_r.
  - apply resume_rejected in He as [He|[He|He]].
    + left. rewrite extractScreenNames_run in He. cbn [fst tryCatch settled] in He.
      destruct (settled (ai log _)) as [response|e']; [|now injection He as <-].
      destruct (parseText (text response)) as [json|e']; cbn [bindSettled] in He;
        [|now injection He as <-].
      destruct (getProp json (lit "screens")); cbn [bindSettled] in He;
        [discriminate|now injection He as <-].
    + right. now left.
    + right. now right.
Qed.

(** *** The records and the reasons of a batch *)

(** Each entry of [screenCalls] holds the promises of the three generators
    for its screen. *)
Lemma screenCalls_In :
  forall prompt style pc sc names log c,
    In c (screenCalls prompt style pc sc names log) ->
    In (screen c) names
    /\ exists log1 log2 log3,
         imageCall c = fst (generateScreenImage (screen c) prompt style pc sc log1)
         /\ reactCall c = fst (generateScreenCodeReact (screen c) prompt style pc sc log2)
         /\ flutterCall c = fst (generateScreenCodeFlutter (screen c) prompt style pc sc log3).
Proof.
  intros prompt style pc sc names. induction names as [|name rest IH]; intros log c.
  - intros [].
  - cbn [screenCalls].
    destruct (generateScreenImage name prompt style pc sc log) as [image log1] eqn:Hi.
    destruct (generateScreenCodeReact name prompt style pc sc log1) as [reactCode log2] eqn:Hr.
    destruct (generateScreenCodeFlutter name prompt style pc sc log2) as [flutterCode log3] eqn:Hf.
    intros [<-|Hin].
    + cbn [screen imageCall reactCall flutterCall]. split; [now left|].
      exists log, log1, log2. rewrite Hi, Hr, Hf. repeat split.
    + destruct (IH _ _ Hin) as (Hname & Hcalls). split; [now right|exact Hcalls].
Qed.

Lemma Forall2_In_r :
  forall (A B : Type) (R : A -> B -> Prop) l1 l2 y,
    Forall2 R l1 l2 -> In y l2 -> exists x, In x l1 /\ R x y.
Proof.
  intros A B R l1 l2 y H. induction H as [|x y' l1 l2 Hxy _ IH]; intros Hin; [destruct Hin|].
  destruct Hin as [<-|Hin].
  - exists x. split; [now left|exact Hxy].
  - destruct (IH Hin) as (x' & Hx' & HR). exists x'. split; [now right|exact HR].
Qed.

Lemma generateAppScreens_fulfilled :
  forall prompt style pc sc log result,
    settled (fst (generateAppScreens prompt style pc sc log)) = Fulfilled result ->
    exists names,
      settled (fst (extractScreenNames prompt log)) = Fulfilled (JArr names)
      /\ Forall2 isRecordOf
           (succeeding (screenCalls prompt style pc sc names (log ++ [extractRequest prompt])))
           (successfulScreens result)
      /\ Forall2 recordsRejectionOf
           (failing (screenCalls prompt style pc sc names (log ++ [extractRequest prompt])))
           (failedScreenReasons result).
Proof.
  intros prompt style pc sc log result Hresult.
  pose proof Hresult as Hinv. rewrite generateAppScreens_run in Hinv.
  apply resume_fulfilled in Hinv as (names & Hne & Hnames).
  destruct (generateAppScreens_partition prompt style pc sc log Hne Hnames)
    as (result' & Hresult' & Hs & Hf).
  rewrite Hresult in Hresult'. injection Hresult' as <-.
  now exists names.
Qed.


(** X7. Every failure reason that [generateAppScreens] returns is about
    one of the extracted screens: for a name with a text, it is the
    message of the image, the React or the Flutter generator for that
    name; for a name that cannot be converted to a string, it is the error
    of that conversion. *)
Theorem failure_reasons_name_their_screen :
  forall (prompt : ustring) (style : DesignStyle) (pc sc : ustring) (log : list Request)
         (result : GenerateAppScreensResult) (reason : ustring),
    settled (fst (generateAppScreens prompt style pc sc log)) = Fulfilled result ->
    In reason (failedScreenReasons result) ->
    exists name,
      In name (batchNames (fst (extractScreenNames prompt log)))
      /\ match ToString name with
         | Fulfilled n =>
             In reason
               [lit "Failed to generate UI for " ++ n ++ lit ".";
                lit "Failed to generate React code for " ++ dq ++ n ++ dq ++ lit ".";
                lit "Failed to generate Flutter code for " ++ dq ++ n ++ dq ++ lit "."]
         | Rejected e =>
             reason = orElse (message e) (lit "An unknown screen generation error occurred.")
         end.
Proof.
  intros prompt style pc sc log result reason Hresult Hin.
  apply generateAppScreens_fulfilled in Hresult as (names & Hnames & _ & Hf).
  destruct (Forall2_In_r _ Hf Hin) as (c & Hc & e & -> & He).
  unfold failing in Hc. apply filter_In in Hc as [Hc _].
  apply screenCalls_In in Hc as (Hname & log1 & log2 & log3 & Hi & Hr & Hfl).
  exists (screen c). unfold batchNames. rewrite Hnames. split; [exact Hname|].
  rewrite Hi, Hr, Hfl in He.
  destruct (ToString (screen c)) as [n|e0] eqn:Hn.
  - destruct He as [He|[He|[He|[]]]].
    + apply (generateScreenImage_rejected _ _ _ _ _ _ Hn) in He. subst e. now left.
    + apply (generateScreenCodeReact_rejected _ _ _ _ _ _ Hn) in He. subst e.
      right. now left.
    + apply (generateScreenCodeFlutter_rejected _ _ _ _ _ _ Hn) in He. subst e.
      right. right. now left.
  - destruct (@generators_unprintable (screen c) e0 prompt style pc sc log1 Hn) as (H1 & _).
    destruct (@generators_unprintable (screen c) e0 prompt style pc sc log2 Hn) as (_ & H2 & _).
    destruct (@generators_unprintable (screen c) e0 prompt style pc sc log3 Hn) as (_ & _ & H3).
    rewrite H1, H2, H3 in He.
    destruct He as [He|[He|[He|[]]]]; injection He as <-; reflexivity.
Qed.


(** *** editImage: what is sent *)

Lemma dataUrl_payload :
  forall header payload rest,
    Forall (fun c => c <> comma) header ->
    Forall (fun c => c <> comma) payload ->
    rest = [] \/ (exists r, rest = comma :: r) ->
    nth_error (split comma (header ++ comma :: payload ++ rest)) 1 = Some payload.
Proof.
  intros header payload rest Hheader Hpayload Hrest.
  rewrite split_app_sep, (split_no_sep Hheader). cbn [app nth_error].
  destruct Hrest as [->|(r & ->)].
  - rewrite app_nil_r, (split_no_sep Hpayload). reflexivity.
  - rewrite split_app_sep, (split_no_sep Hpayload). reflexivity.
Qed.

(** X8. Of a data URL, [editImage] sends what stands between the first
    comma and the next one, or the end, as the bytes of the image, with
    the MIME type it was given: for a header and a payload without comma,
    the one request it issues carries exactly the payload. *)
Theorem editImage_sends_the_payload :
  forall (header payload rest mimeType prompt : ustring) (log : list Request),
    Forall (fun c => c <> comma) header ->
    Forall (fun c => c <> comma) payload ->
    payload <> [] ->
    rest = [] \/ (exists r, rest = comma :: r) ->
    snd (editImage (header ++ comma :: payload ++ rest) mimeType prompt log)
    = log ++ [editRequest payload mimeType prompt].
Proof.
  intros header payload rest mimeType prompt log Hheader Hpayload Hne Hrest.
  unfold editImage. rewrite (dataUrl_payload Hheader Hpayload Hrest).
  destruct payload as [|c payload']; [congruence|]. reflexivity.
Qed.

(** *** handleGenerate: requests and notifications *)

Lemma generateBoth_log :
  forall st colors log,
    snd (generateBoth st colors log)
    = log ++ extractRequest (prompt st)
             :: logoRequest (prompt st) (selectedStyle st) (primary colors) (secondary colors)
             :: flat_map (screenRequests (prompt st) (selectedStyle st) (primary colors)
                            (secondary colors))
                  (batchNames (fst (extractScreenNames (prompt st) log))).
Proof.
  intros st colors log. unfold generateBoth, bind, ret.
  rewrite extractScreenNames_run. cbn [fst snd].
  change (generateLogo (prompt st) (selectedStyle st) (primary colors) (secondary colors)
            (log ++ [extractRequest (prompt st)]))
    with (fst (generateLogo (prompt st) (selectedStyle st) (primary colors) (secondary colors)
                 (log ++ [extractRequest (prompt st)])),
          (log ++ [extractRequest (prompt st)])
          ++ [logoRequest (prompt st) (selectedStyle st) (primary colors) (secondary colors)]).
  cbv iota beta.
  match goal with
  | |- context [generateAppScreens_resume ?a ?p ?s ?pc ?sc ?l] =>
      pose proof (resume_log a p s pc sc l) as Hlog;
      destruct (generateAppScreens_resume a p s pc sc l) as [screens log3]
  end.
  cbn [snd] in *. rewrite Hlog, <- !app_assoc. reflexivity.
Qed.

(** X9. The requests of [handleGenerate]: none without a description or a
    palette; otherwise the extraction request, the logo request, and then
    the three requests of each extracted screen. The logo is asked for
    before the names are known, hence also when none is found. *)
Theorem handleGenerate_requests :
  forall (st : AppState) (log : list Request),
    (prompt st = [] \/ palette st = None -> snd (handleGenerate st log) = log)
    /\ (forall colors,
          prompt st <> [] ->
          palette st = Some colors ->
          snd (handleGenerate st log)
          = log ++ extractRequest (prompt st)
                   :: logoRequest (prompt st) (selectedStyle st) (primary colors)
                        (secondary colors)
                   :: flat_map (screenRequests (prompt st) (selectedStyle st) (primary colors)
                                  (secondary colors))
                        (batchNames (fst (extractScreenNames (prompt st) log)))).
Proof.
  intros st log. split.
  - intros [Hp|Hp]; unfold handleGenerate.
    + now rewrite Hp.
    + destruct (prompt st); [reflexivity|]. now rewrite Hp.
  - intros colors Hprompt Hpalette. unfold handleGenerate.
    destruct (prompt st) as [|c rest] eqn:Hp; [congruence|]. rewrite Hpalette.
    unfold bind, ret.
    change (generateBoth
              (setShowFigmaInstructions false
                 (setLogoImageUrl None (setGeneratedScreens [] (setIsLoading true st))))
              colors log)
      with (generateBoth st colors log).
    pose proof (generateBoth_log st colors log) as Hlog. rewrite Hp in Hlog.
    destruct (generateBoth st colors log) as [[screens logo] log']. cbn [snd] in Hlog.
    destruct (generateTry (bothOuter screens logo) _). cbn [snd]. exact Hlog.
Qed.

Lemma resume_counts :
  forall awaited prompt style pc sc log result,
    settled (fst (generateAppScreens_resume awaited prompt style pc sc log)) = Fulfilled result ->
    successfulScreens result <> [] \/ failedScreenReasons result <> [].
Proof.
  intros awaited prompt style pc sc log result Hresult.
  pose proof Hresult as Hinv. apply resume_fulfilled in Hinv as (names & Hne & Hnames).
  destruct (resume_partition awaited prompt style pc sc log Hne Hnames)
    as (result' & Hresult' & Hs & Hf).
  rewrite Hresult in Hresult'. injection Hresult' as <-.
  apply Forall2_length in Hs, Hf.
  pose proof (succeeding_failing_length (screenCalls prompt style pc sc names log)) as Hlen.
  rewrite screenCalls_length in Hlen.
  destruct (successfulScreens result); [|left; discriminate].
  destruct (failedScreenReasons result); [|right; discriminate].
  destruct names; [congruence|]. cbn in *. lia.
Qed.

(** X10. A run of [handleGenerate] on a description and a palette always
    ends with the loading flag down and with one or two new notifications;
    it displays screens exactly when it notifies of a success, and then it
    has a logo too. *)
Theorem handleGenerate_always_reports :
  forall (st : AppState) (colors : ColorPalette) (log : list Request),
    prompt st <> [] ->
    palette st = Some colors ->
    let st' := fst (handleGenerate st log) in
    isLoading st' = false
    /\ showFigmaInstructions st' = false
    /\ exists added,
         notifications st' = notifications st ++ added
         /\ 1 <= List.length added <= 2
         /\ (generatedScreens st' <> [] <->
             exists n, In n added /\ notificationType n = success)
         /\ (generatedScreens st' <> [] -> logoImageUrl st' <> None).
Proof.
  intros st colors log Hprompt Hpalette st'.
  assert (Hst' : st' = fst (handleGenerate st log)) by reflexivity. clearbody st'.
  rewrite (handleGenerate_run st log Hprompt Hpalette), generateBoth_run in Hst'.
  cbv zeta in Hst'. unfold generateTry, bothOuter in Hst'.
  destruct (settled (fst (generateAppScreens_resume _ _ _ _ _ _))) as [result|e] eqn:Hbatch.
  - apply resume_counts in Hbatch.
    destruct (settled (fst (generateLogo _ _ _ _ _))) as [logoUrl|e].
    + cbn [settled] in Hst'.
      destruct result as [succeeded failed]. cbn [successfulScreens failedScreenReasons] in *.
      destruct succeeded as [|s succeeded'], failed as [|r failed'];
        cbn [List.length Nat.ltb Nat.leb Nat.eqb andb] in Hst'; subst st';
        lazy beta iota zeta delta
          [generatedScreens notifications logoImageUrl isLoading showFigmaInstructions
           setIsLoading setLogoImageUrl setGeneratedScreens setShowFigmaInstructions
           showNotification message Error];
        (split; [reflexivity|]); (split; [reflexivity|]).
      * destruct Hbatch; congruence.
      * eexists. split; [now rewrite <- app_assoc|]. split; [cbn; lia|]. split.
        -- split; [congruence|].
           intros (n & [<-|[<-|[]]] & Hn); discriminate.
        -- congruence.
      * eexists. split; [reflexivity|]. split; [cbn; lia|]. split.
        -- split; [|discriminate]. intros _. eexists. split; [now left|reflexivity].
        -- discriminate.
      * eexists. split; [now rewrite <- app_assoc|]. split; [cbn; lia|]. split.
        -- split; [|discriminate]. intros _. eexists. split; [now left|reflexivity].
        -- discriminate.
    + cbn [settled] in Hst'. subst st'.
      lazy beta iota zeta delta
        [generatedScreens notifications logoImageUrl isLoading showFigmaInstructions
         setIsLoading setLogoImageUrl setGeneratedScreens setShowFigmaInstructions
         showNotification message Error].
      (split; [reflexivity|]); (split; [reflexivity|]).
      eexists. split; [reflexivity|]. split; [cbn; lia|]. split.
      * split; [congruence|]. intros (n & [<-|[]] & Hn). discriminate.
      * congruence.
  - assert (Hrejected :
      exists e',
        st' = setIsLoading false
                (showNotification
                   (orElse (message e') (lit "An unknown error occurred during generation."))
                   error
                   (setShowFigmaInstructions false
                      (setLogoImageUrl None (setGeneratedScreens [] (setIsLoading true st)))))).
    { destruct (settled (fst (generateLogo _ _ _ _ _))) as [logoUrl|e'];
        [|destruct (_ <? _)%nat]; cbn [settled] in Hst'; eexists; exact Hst'. }
    destruct Hrejected as (e' & ->).
    lazy beta iota zeta delta
      [generatedScreens notifications logoImageUrl isLoading showFigmaInstructions
       setIsLoading setLogoImageUrl setGeneratedScreens setShowFigmaInstructions
       showNotification message Error].
    (split; [reflexivity|]); (split; [reflexivity|]).
    eexists. split; [reflexivity|]. split; [cbn; lia|]. split.
    + split; [congruence|]. intros (n & [<-|[]] & Hn). discriminate.
    + congruence.
Qed.


(** *** handleGeneratePalette *)

Lemma generateColorPalette_hex :
  forall baseColor log p,
    settled (fst (generateColorPalette baseColor log)) = Fulfilled p ->
    fieldIsHex p (lit "primary") = true
    /\ fieldIsHex p (lit "secondary") = true
    /\ fieldIsHex p (lit "accent") = true.
Proof.
  intros baseColor log p.
  unfold generateColorPalette, bind, generateContent, ret. cbn [fst tryCatch settled].
  destruct (settled (ai log (paletteRequest baseColor))) as [response|e]; [|discriminate].
  destruct (checkedPalette response) as [p'|e] eqn:Hp; [|discriminate].
  intros [= <-]. now apply checkedPalette_fulfilled in Hp as (_ & Hfields).
Qed.

Lemma generateColorPalette_rejected :
  forall baseColor log e,
    settled (fst (generateColorPalette baseColor log)) = Rejected e ->
    e = Error (lit "Failed to generate a valid color palette from the AI.").
Proof.
  intros baseColor log e.
  unfold generateColorPalette, bind, generateContent, ret. cbn [fst tryCatch settled].
  destruct (settled (ai log (paletteRequest baseColor))) as [response|e'].
  - destruct (checkedPalette response); [discriminate|]. now intros [= <-].
  - now intros [= <-].
Qed.

Lemma handleGeneratePalette_run :
  forall st log,
    handleGeneratePalette st log
    = (setIsGeneratingPalette false
         match settled (fst (generateColorPalette (baseColor st) log)) with
         | Fulfilled value =>
             notifyPalette (lit "Color palette generated successfully!") success
               (setPalette (Some value) (setIsGeneratingPalette true st))
         | Rejected e =>
             notifyPalette (orElse (message e) (lit "Failed to generate color palette."))
               error (setIsGeneratingPalette true st)
         end,
       log ++ [paletteRequest (baseColor st)]).
Proof. reflexivity. Qed.

(** X11. [handleGeneratePalette] issues the one palette request for the
    base color and ends with the flag down and one new notification:
    either the palette of the state is the one that [generateColorPalette]
    returned and the notification tells of a success, or the palette of
    the state is the one it was and the notification is the error "Failed
    to generate a valid color palette from the AI.". *)
Theorem handleGeneratePalette_outcome :
  forall (st : PaletteState) (log : list Request),
    let st' := fst (handleGeneratePalette st log) in
    snd (handleGeneratePalette st log) = log ++ [paletteRequest (baseColor st)]
    /\ isGeneratingPalette st' = false
    /\ baseColor st' = baseColor st
    /\ ((exists p,
            settled (fst (generateColorPalette (baseColor st) log)) = Fulfilled p
            /\ currentPalette st' = Some p
            /\ paletteNotifications st'
               = paletteNotifications st
                 ++ [{| notificationMessage := lit "Color palette generated successfully!";
                        notificationType := success |}])
        \/ (isRejected (fst (generateColorPalette (baseColor st) log)) = true
            /\ currentPalette st' = currentPalette st
            /\ paletteNotifications st'
               = paletteNotifications st
                 ++ [{| notificationMessage :=
                          lit "Failed to generate a valid color palette from the AI.";
                        notificationType := error |}])).
Proof.
  intros st log st'. subst st'. rewrite handleGeneratePalette_run. cbn [fst snd].
  split; [reflexivity|]. unfold isRejected.
  destruct (settled (fst (generateColorPalette (baseColor st) log))) as [p|e] eqn:Hp.
  - split; [reflexivity|]. split; [reflexivity|]. left. now exists p.
  - apply generateColorPalette_rejected in Hp. subst e.
    split; [reflexivity|]. split; [reflexivity|]. right. repeat split.
Qed.

Lemma handleGeneratePalette_hex :
  forall st log,
    paletteIsHex st = true -> paletteIsHex (fst (handleGeneratePalette st log)) = true.
Proof.
  intros st log Hst. rewrite handleGeneratePalette_run. cbn [fst].
  destruct (settled (fst (generateColorPalette (baseColor st) log))) as [p|e] eqn:Hp.
  - apply generateColorPalette_hex in Hp as (H1 & H2 & H3).
    unfold paletteIsHex. cbn. now rewrite H1, H2, H3.
  - exact Hst.
Qed.

Lemma paletteRun_hex :
  forall events st log,
    paletteIsHex st = true -> paletteIsHex (fst (paletteRun events st log)) = true.
Proof.
  induction events as [|event rest IH]; intros st log Hst; [exact Hst|].
  cbn [paletteRun]. unfold bind.
  destruct (paletteStep event st log) as [st1 log1] eqn:Hstep. apply IH.
  destruct event as [color|]; cbn [paletteStep] in Hstep.
  - injection Hstep as <- _. exact Hst.
  - change st1 with (fst (st1, log1)). rewrite <- Hstep. now apply handleGeneratePalette_hex.
Qed.

(** X12. The palette of the state always consists of three hex colors:
    from the palette of a fresh App on, whatever base colors are entered
    and however often a palette is generated, and whatever the model
    answers, the primary, the secondary and the accent color of the state
    pass the hex test. *)
Theorem palette_is_always_hex :
  forall (events : list PaletteEvent) (log : list Request),
    paletteIsHex (fst (paletteRun events initialPaletteState log)) = true.
Proof.
  intros events log. now apply paletteRun_hex.
Qed.

(** *** The notifications and their ids *)

(** X13. Notifications are removed by their id, the clock reading at which
    they were shown: one shown at another reading stays, in its place, and
    two shown at the same reading go together, whichever of the two is
    closed or times out. *)
Theorem removeNotification_by_instant :
  forall (current : list TimedNotification) (now later : N)
         (msg1 msg2 : ustring) (type1 type2 : NotificationType),
    removeNotification now
      (showNotificationAt now msg2 type2 (showNotificationAt now msg1 type1 current))
    = removeNotification now current
    /\ (later <> now ->
        removeNotification now
          (showNotificationAt later msg2 type2 (showNotificationAt now msg1 type1 current))
        = showNotificationAt later msg2 type2 (removeNotification now current)).
Proof.
  intros current now later msg1 msg2 type1 type2.
  unfold removeNotification, showNotificationAt. split.
  - rewrite !filter_app. cbn [filter notificationId]. rewrite N.eqb_refl. cbn [negb].
    now rewrite !app_nil_r.
  - intros Hlater. apply N.eqb_neq in Hlater.
    rewrite !filter_app. cbn [filter notificationId]. rewrite N.eqb_refl, Hlater. cbn [negb].
    now rewrite app_nil_r.
Qed.

(** *** The screen card *)

Lemma replaceWhiteSpace_none :
  forall s inRun, Forall (fun c => isWhiteSpace c = false) (replaceWhiteSpace inRun s).
Proof.
  induction s as [|c s IH]; intros inRun; cbn [replaceWhiteSpace]; [constructor|].
  destruct (isWhiteSpace c) eqn:Hc.
  - destruct inRun; [apply IH|]. constructor; [reflexivity|apply IH].
  - constructor; [exact Hc|apply IH].
Qed.

Lemma replaceWhiteSpace_same :
  forall s inRun,
    Forall (fun c => isWhiteSpace c = false) s -> replaceWhiteSpace inRun s = s.
Proof.
  intros s inRun H. revert inRun. induction H as [|c s Hc _ IH]; intros inRun; [reflexivity|].
  cbn [replaceWhiteSpace]. now rewrite Hc, IH.
Qed.

(** The calls behind a record that [generateAppScreens] returns. *)
Lemma successful_screen_calls :
  forall prompt style pc sc log result s,
    settled (fst (generateAppScreens prompt style pc sc log)) = Fulfilled result ->
    In s (successfulScreens result) ->
    exists log1 log2 log3,
      settled (fst (generateScreenImage (title s) prompt style pc sc log1))
      = Fulfilled (imageUrl s)
      /\ settled (fst (generateScreenCodeReact (title s) prompt style pc sc log2))
         = Fulfilled (react (code s))
      /\ settled (fst (generateScreenCodeFlutter (title s) prompt style pc sc log3))
         = Fulfilled (flutter (code s)).
Proof.
  intros prompt style pc sc log result s Hresult Hin.
  apply generateAppScreens_fulfilled in Hresult as (names & _ & Hs & _).
  destruct (Forall2_In_r _ Hs Hin) as (c & Hc & Htitle & Himage & Hreact & Hflutter).
  unfold succeeding in Hc. apply filter_In in Hc as [Hc _].
  apply screenCalls_In in Hc as (_ & log1 & log2 & log3 & Hi & Hr & Hf).
  rewrite Hi in Himage. rewrite Hr in Hreact. rewrite Hf in Hflutter.
  exists log1, log2, log3. rewrite Htitle. now repeat split.
Qed.

(** X14. The card of every screen that [generateAppScreens] returns has a
    download name: the title is a string, so its [replace] is there, and
    the name is the title, each run of white space made one underscore,
    followed by ".png"; it holds no white space, and it is the title
    itself before ".png" when the title holds none. *)
Theorem returned_screens_have_a_download_name :
  forall (prompt : ustring) (style : DesignStyle) (pc sc : ustring) (log : list Request)
         (result : GenerateAppScreensResult) (s : GeneratedScreen),
    settled (fst (generateAppScreens prompt style pc sc log)) = Fulfilled result ->
    In s (successfulScreens result) ->
    exists t,
      title s = JStr t
      /\ downloadName (title s) = Fulfilled (replaceWhiteSpace false t ++ lit ".png")
      /\ Forall (fun c => isWhiteSpace c = false) (replaceWhiteSpace false t ++ lit ".png")
      /\ (Forall (fun c => isWhiteSpace c = false) t ->
          downloadName (title s) = Fulfilled (t ++ lit ".png")).
Proof.
  intros prompt style pc sc log result s Hresult Hin.
  destruct (successful_screen_calls _ _ _ _ _ _ Hresult Hin) as (log1 & log2 & log3 & _ & Hr & _).
  apply generateScreenCodeReact_fulfilled in Hr as (t & reactText & Ht & _).
  exists t. rewrite Ht. split; [reflexivity|]. split; [reflexivity|]. split.
  - apply Forall_app. split; [apply replaceWhiteSpace_none|].
    apply Forall_forall. intros c Hc. vm_compute in Hc.
    repeat (destruct Hc as [<-|Hc]; [reflexivity|]). destruct Hc.
  - intros Hnone. cbn [downloadName]. now rewrite (replaceWhiteSpace_same false Hnone).
Qed.


(** *** The image editor *)

Section EditorProperties.

Variable ViewTransform : Type.
Variable initialView : ViewTransform.

Lemma handleImageEdit_run :
  forall (st : EditorState ViewTransform) image log,
    originalImage st = Some image ->
    editPrompt st <> [] ->
    handleImageEdit st log
    = (setIsEditing false
         match settled (fst (editOriginal image (editPrompt st) log)) with
         | Fulfilled url =>
             notifyEditor (lit "Image successfully edited!") success
               (setEditedImage (Some url) (setEditedImage None (setIsEditing true st)))
         | Rejected e =>
             notifyEditor
               (orElse (message e) (lit "An error occurred while editing the image."))
               error (setEditedImage None (setIsEditing true st))
         end,
       snd (editOriginal image (editPrompt st) log)).
Proof.
  intros st image log Himage Hprompt. unfold handleImageEdit. rewrite Himage.
  destruct (editPrompt st) as [|c rest] eqn:Hp; [congruence|].
  unfold bind, ret. cbn [editPrompt setEditedImage setIsEditing]. rewrite Hp.
  destruct (editOriginal image (c :: rest) log) as [resultUrl log1]. reflexivity.
Qed.

Lemma editOriginal_settled :
  forall image prompt log url,
    settled (fst (editOriginal image prompt log)) = Fulfilled url ->
    exists bytes, url = lit "data:image/png;base64," ++ bytes.
Proof.
  intros image prompt log url. unfold editOriginal.
  destruct (base64 image) as [b|]; [|discriminate].
  destruct (editImage_settled b (imageMimeType image) prompt log) as [(bytes & H)|[H|H]];
    rewrite H; [|discriminate|discriminate].
  intros [= <-]. now exists bytes.
Qed.

(** X15. [handleImageEdit] does nothing but notify when there is no image
    or no edit prompt. Otherwise it ends with the editing flag down, the
    original image and the view as they were, and one new notification:
    either the edited image is the PNG data URL that [editImage] returned
    and the notification tells of a success, or there is no edited image,
    the one of an earlier edit included, and the notification is an
    error. *)
Theorem handleImageEdit_outcome :
  forall (st : EditorState ViewTransform) (log : list Request),
    let st' := fst (handleImageEdit st log) in
    (originalImage st = None \/ editPrompt st = [] ->
     snd (handleImageEdit st log) = log
     /\ st' = notifyEditor (lit "Please upload an image and provide an edit prompt.") error st)
    /\ (forall image,
          originalImage st = Some image ->
          editPrompt st <> [] ->
          isEditing st' = false
          /\ originalImage st' = Some image
          /\ viewTransform st' = viewTransform st
          /\ exists n,
               editorNotifications st' = editorNotifications st ++ [n]
               /\ match editedImage st' with
                  | Some url =>
                      n = {| notificationMessage := lit "Image successfully edited!";
                             notificationType := success |}
                      /\ settled (fst (editOriginal image (editPrompt st) log)) = Fulfilled url
                      /\ exists bytes, url = lit "data:image/png;base64," ++ bytes
                  | None =>
                      notificationType n = error
                      /\ isRejected (fst (editOriginal image (editPrompt st) log)) = true
                  end).
Proof.
  intros st log st'. subst st'. split.
  - intros [H|H]; unfold handleImageEdit; rewrite H.
    + split; reflexivity.
    + destruct (originalImage st); split; reflexivity.
  - intros image Himage Hprompt. rewrite (handleImageEdit_run st log Himage Hprompt).
    cbn [fst]. unfold isRejected.
    destruct (settled (fst (editOriginal image (editPrompt st) log))) as [url|e] eqn:Hedit.
    + split; [reflexivity|]. split; [exact Himage|]. split; [reflexivity|].
      eexists. split; [reflexivity|]. cbn [editedImage setIsEditing notifyEditor setEditedImage].
      split; [reflexivity|]. split; [reflexivity|].
      exact (editOriginal_settled _ _ _ Hedit).
    + split; [reflexivity|]. split; [exact Himage|]. split; [reflexivity|].
      eexists. split; [reflexivity|]. cbn [editedImage setIsEditing notifyEditor setEditedImage].
      split; reflexivity.
Qed.



End EditorProperties.


(** *** The promise of one screen *)

(** X17. A screen fails with its first rejection: when the promise of a
    screen is rejected, its reason is that of one of the three calls of
    the screen, and no other call of the screen was rejected before that
    one. *)
Theorem screen_fails_with_its_first_rejection :
  forall (prompt : ustring) (style : DesignStyle) (pc sc : ustring) (name : JSValue)
         (log : list Request) (e : Exn),
    settled (fst (screenPromise prompt style pc sc name log)) = Rejected e ->
    exists c call,
      screenCalls prompt style pc sc [name] log = [c]
      /\ In call [imageCall c; reactCall c; flutterCall c]
      /\ settled call = Rejected e
      /\ forall other,
           In other [imageCall c; reactCall c; flutterCall c] ->
           isRejected other = true ->
           settledAt call <= settledAt other.
Proof.
  intros prompt style pc sc name log e. rewrite screenPromise_run. cbn [screenCalls].
  destruct (generateScreenImage name prompt style pc sc log) as [image log1].
  destruct (generateScreenCodeReact name prompt style pc sc log1) as [reactCode log2].
  destruct (generateScreenCodeFlutter name prompt style pc sc log2) as [flutterCode log3].
  cbn [fst]. unfold andThen, all3, both. intros He.
  exists {| screen := name; imageCall := image; reactCall := reactCode;
            flutterCall := flutterCode |}.
  cbn [imageCall reactCall flutterCall].
  destruct (settled image) as [i|ei] eqn:Hi, (settled reactCode) as [r|er] eqn:Hr,
    (settled flutterCode) as [f|ef] eqn:Hf;
    cbn [settled settledAt] in He;
    repeat match type of He with
           | context [if ?b then _ else _] => destruct b eqn:?; cbn [settled settledAt] in He
           end;
    try discriminate; injection He as <-;
    repeat match goal with
           | H : (_ <=? _)%nat = true |- _ => apply Nat.leb_le in H
           | H : (_ <=? _)%nat = false |- _ => apply Nat.leb_gt in H
           end;
    first
      [ exists image; split; [reflexivity|]; split; [now left|]; split; [assumption|]
      | exists reactCode; split; [reflexivity|]; split; [right; now left|]; split; [assumption|]
      | exists flutterCode; split; [reflexivity|]; split; [right; right; now left|];
        split; [assumption|] ];
    intros other [<-|[<-|[<-|[]]]] Hrej; unfold isRejected in Hrej;
    rewrite ?Hi, ?Hr, ?Hf in Hrej; try discriminate; lia.
Qed.

(** *** The style selector *)

(** X18. The radio group of the style selector has one button per style,
    each with a text of its own as its key and id, and whatever style is
    selected, the button of that style is the one that is checked. *)
Theorem one_style_is_checked :
  forall selectedStyle : DesignStyle,
    filter (checked selectedStyle) styles = [selectedStyle]
    /\ NoDup (map styleText styles).
Proof.
  intros selectedStyle. split.
  - destruct selectedStyle; reflexivity.
  - assert (H : nodup (list_eq_dec N.eq_dec) (map styleText styles) = map styleText styles)
      by (vm_compute; reflexivity).
    rewrite <- H. apply NoDup_nodup.
Qed.


(** *** What is shown after a generation *)

Lemma generateLogo_fulfilled :
  forall desc style pc sc log url,
    settled (fst (generateLogo desc style pc sc log)) = Fulfilled url ->
    exists bytes, url = lit "data:image/png;base64," ++ bytes.
Proof.
  intros desc style pc sc log url. unfold generateLogo, bind, generateContent, ret.
  cbn [fst tryCatch settled].
  destruct (settled (ai log _)) as [response|e']; [|discriminate].
  rewrite inlineImage_firstInlineData.
  destruct (firstInlineData response) as [blob|]; [|discriminate].
  intros [= <-]. now exists (templateText (data blob)).
Qed.

Lemma handleGenerate_displayed :
  forall st colors log,
    prompt st <> [] ->
    palette st = Some colors ->
    isLoading (fst (handleGenerate st log)) = false
    /\ (generatedScreens (fst (handleGenerate st log)) <> [] ->
        exists logoUrl,
          logoImageUrl (fst (handleGenerate st log)) = Some logoUrl
          /\ settled (fst (generateLogo (prompt st) (selectedStyle st) (primary colors)
                             (secondary colors) (log ++ [extractRequest (prompt st)])))
             = Fulfilled logoUrl).
Proof.
  intros st colors log Hprompt Hpalette.
  rewrite (handleGenerate_run st log Hprompt Hpalette), generateBoth_run.
  cbv zeta. unfold generateTry, bothOuter.
  destruct (settled (fst (generateAppScreens_resume _ _ _ _ _ _))) as [result|e].
  - destruct (settled (fst (generateLogo _ _ _ _ _))) as [logoUrl|e] eqn:Hlogo.
    + cbn [settled]. destruct result as [succeeded failed].
      cbn [successfulScreens failedScreenReasons].
      destruct succeeded as [|s succeeded'], failed as [|r failed'];
        cbn [List.length Nat.ltb Nat.leb Nat.eqb andb];
        lazy beta iota zeta delta
          [generatedScreens notifications logoImageUrl isLoading showFigmaInstructions
           setIsLoading setLogoImageUrl setGeneratedScreens setShowFigmaInstructions
           showNotification message Error];
        (split; [reflexivity|]); intros Hshown; try congruence;
        exists logoUrl; split; reflexivity.
    + cbn [settled].
      lazy beta iota zeta delta
        [generatedScreens notifications logoImageUrl isLoading showFigmaInstructions
         setIsLoading setLogoImageUrl setGeneratedScreens setShowFigmaInstructions
         showNotification message Error].
      split; [reflexivity|congruence].
  - destruct (settled (fst (generateLogo _ _ _ _ _))) as [logoUrl|e'];
      [|destruct (_ <? _)%nat]; cbn [settled];
      lazy beta iota zeta delta
        [generatedScreens notifications logoImageUrl isLoading showFigmaInstructions
         setIsLoading setLogoImageUrl setGeneratedScreens setShowFigmaInstructions
         showNotification message Error];
      (split; [reflexivity|congruence]).
Qed.

(** X21. Below the form the generator tab shows exactly one of three
    things: the loader, the screens, or the placeholder. After a run of
    [handleGenerate] on a description and a palette it is not the loader;
    the cards are those of the screens of the state; and whenever there
    are cards, the logo is shown with them, as a PNG data URL. *)
Theorem results_area_after_generate :
  forall (st : AppState),
    (let v := resultsArea st in
     (showsLoader v = true /\ shownCards v = [] /\ showsPlaceholder v = false
      /\ shownLogo v = None /\ showsExportControls v = false)
     \/ (showsLoader v = false /\ shownCards v = generatedScreens st /\ shownCards v <> []
         /\ showsPlaceholder v = false /\ showsExportControls v = true)
     \/ (showsLoader v = false /\ shownCards v = [] /\ showsPlaceholder v = true
         /\ shownLogo v = None /\ showsExportControls v = false))
    /\ (forall colors log,
          prompt st <> [] ->
          palette st = Some colors ->
          let v := resultsArea (fst (handleGenerate st log)) in
          showsLoader v = false
          /\ shownCards v = generatedScreens (fst (handleGenerate st log))
          /\ (shownCards v <> [] ->
              exists bytes, shownLogo v = Some (lit "data:image/png;base64," ++ bytes))).
Proof.
  intros st. split.
  - unfold resultsArea. cbn [showsLoader shownLogo showsExportControls shownCards
      showsPlaceholder].
    destruct (isLoading st); cbn [negb andb].
    + left. repeat split.
    + destruct (generatedScreens st) as [|s rest]; cbn [List.length Nat.ltb Nat.leb Nat.eqb].
      * right. right. repeat split.
      * right. left. repeat split. discriminate.
  - intros colors log Hprompt Hpalette v.
    destruct (handleGenerate_displayed st log Hprompt Hpalette) as (Hloading & Hlogo).
    subst v. unfold resultsArea.
    cbn [showsLoader shownLogo showsExportControls shownCards showsPlaceholder].
    rewrite Hloading. cbn [negb andb].
    destruct (generatedScreens (fst (handleGenerate st log))) as [|s rest] eqn:Hscreens;
      cbn [List.length Nat.ltb Nat.leb].
    + split; [reflexivity|]. split; [reflexivity|]. congruence.
    + split; [reflexivity|]. split; [reflexivity|]. intros _.
      destruct Hlogo as (logoUrl & -> & Hurl); [discriminate|].
      apply generateLogo_fulfilled in Hurl as (bytes & ->).
      exists bytes. reflexivity.
Qed.


End FurtherProperties.

(** ** Examples

    Each property with a premise is applied here to a concrete host. *)

Lemma editImage_rejects_missing_payload_witness :
  (forall seg, In seg (tl (split comma (lit "data:image/png;base64,"))) -> seg = [])
  /\ editImage (host := Sample.allGood) (lit "data:image/png;base64,") (lit "image/png")
       (lit "Add a cat wearing sunglasses.") []
     = ({| settled := Rejected (Error (lit "Invalid base64 image data provided."));
           settledAt := 0 |}, []).
Proof.
  assert (H : forall seg, In seg (tl (split comma (lit "data:image/png;base64,"))) -> seg = []).
  { intros seg Hin. vm_compute in Hin. destruct Hin as [<-|[]]. reflexivity. }
  split; [exact H|].
  exact (editImage_rejects_missing_payload (host := Sample.allGood) _ _ _ [] H).
Defined.

Lemma generateAppScreens_classifies_screens_witness :
  Sample.threeNames <> []
  /\ settled (fst (extractScreenNames (host := Sample.secondScreenFails) Sample.shop []))
     = Fulfilled (JArr Sample.threeNames)
  /\ exists result,
       settled (fst (generateAppScreens (host := Sample.secondScreenFails)
                       Sample.shop MODERN Sample.violet Sample.teal []))
       = Fulfilled result
       /\ List.length (successfulScreens result) = 2
       /\ List.length (failedScreenReasons result) = 1.
Proof.
  assert (Hne : Sample.threeNames <> []) by discriminate.
  assert (Hnames : settled (fst (extractScreenNames (host := Sample.secondScreenFails)
                                   Sample.shop []))
                   = Fulfilled (JArr Sample.threeNames)) by (vm_compute; reflexivity).
  split; [exact Hne|]. split; [exact Hnames|].
  destruct (generateAppScreens_classifies_screens (host := Sample.secondScreenFails)
              Sample.shop MODERN Sample.violet Sample.teal [] Hne Hnames)
    as (result & Hresult & _ & _ & _ & Hone).
  exists result. split; [exact Hresult|]. apply Hone. vm_compute. reflexivity.
Defined.

Lemma generateAppScreens_all_succeed_witness :
  settled (fst (extractScreenNames (host := Sample.allGood) Sample.shop []))
  = Fulfilled (JArr Sample.threeNames)
  /\ exists result,
       settled (fst (generateAppScreens (host := Sample.allGood)
                       Sample.shop MODERN Sample.violet Sample.teal []))
       = Fulfilled result
       /\ map (@title _) (successfulScreens result) = Sample.threeNames
       /\ List.length (successfulScreens result) = 3
       /\ failedScreenReasons result = [].
Proof.
  assert (Hnames : settled (fst (extractScreenNames (host := Sample.allGood) Sample.shop []))
                   = Fulfilled (JArr Sample.threeNames)) by (vm_compute; reflexivity).
  split; [exact Hnames|].
  destruct (generateAppScreens_all_succeed (host := Sample.allGood)
              Sample.shop MODERN Sample.violet Sample.teal [] Hnames)
    as (Hrecords & Hreturns).
  { vm_compute. repeat constructor. }
  destruct Hreturns as (result & Hresult); [discriminate|].
  destruct (Hrecords result Hresult) as (_ & Htitles & Hlen & Hfailed).
  exists result. auto.
Defined.

Lemma generateAppScreens_accounts_for_every_screen_witness :
  settled (fst (extractScreenNames (host := Sample.secondScreenFails) Sample.shop []))
  = Fulfilled (JArr Sample.threeNames)
  /\ exists result,
       settled (fst (generateAppScreens (host := Sample.secondScreenFails)
                       Sample.shop MODERN Sample.violet Sample.teal []))
       = Fulfilled result
       /\ List.length (successfulScreens result) + List.length (failedScreenReasons result) = 3.
Proof.
  assert (Hnames : settled (fst (extractScreenNames (host := Sample.secondScreenFails)
                                   Sample.shop []))
                   = Fulfilled (JArr Sample.threeNames)) by (vm_compute; reflexivity).
  split; [exact Hnames|].
  destruct (generateAppScreens_accounts_for_every_screen (host := Sample.secondScreenFails)
              Sample.shop MODERN Sample.violet Sample.teal [] Hnames)
    as (Hcount & Hreturns).
  destruct Hreturns as (result & Hresult); [discriminate|].
  exists result. split; [exact Hresult|]. exact (Hcount result Hresult).
Defined.

Lemma generateAppScreens_rejects_without_names_witness :
  (exists response t json,
      settled (ai (Host := Sample.noScreens) [] (extractRequest Sample.shop)) = Fulfilled response
      /\ text response = Some t
      /\ JSON_parse (Host := Sample.noScreens) t = Some json
      /\ getProp (host := Sample.noScreens) json (lit "screens") = Fulfilled JUndefined)
  /\ settled (fst (generateAppScreens (host := Sample.noScreens)
                     Sample.shop MODERN Sample.violet Sample.teal []))
     = Rejected (Error (lit "Could not identify any screens from your description. Please be more specific about the pages you need, e.g., 'login page', 'dashboard'."))
  /\ snd (generateAppScreens (host := Sample.noScreens)
            Sample.shop MODERN Sample.violet Sample.teal [])
     = [extractRequest Sample.shop].
Proof.
  assert (H : exists response t json,
             settled (ai (Host := Sample.noScreens) [] (extractRequest Sample.shop))
             = Fulfilled response
             /\ text response = Some t
             /\ JSON_parse (Host := Sample.noScreens) t = Some json
             /\ getProp (host := Sample.noScreens) json (lit "screens") = Fulfilled JUndefined).
  { exists (Sample.textResponse (lit "{}")), (lit "{}"), (JObj []).
    repeat split; vm_compute; reflexivity. }
  split; [exact H|].
  exact (generateAppScreens_rejects_without_names (host := Sample.noScreens)
           Sample.shop MODERN Sample.violet Sample.teal [] (or_intror H)).
Defined.


Lemma code_generators_reject_short_code_witness :
  ToString (host := Sample.shortCodes) (JStr (lit "Cart")) = Fulfilled (lit "Cart")
  /\ List.length (trim (removeAll [lit "```jsx"; lit "```"] Sample.shortCode)) = 6
  /\ List.length (trim (removeAll [lit "```dart"; lit "```"] Sample.shortCode)) = 10
  /\ settled (fst (generateScreenCodeReact (host := Sample.shortCodes) (JStr (lit "Cart"))
                     Sample.shop MODERN Sample.violet Sample.teal []))
     = Rejected (Error (lit "Failed to generate React code for " ++ dq ++ lit "Cart" ++ dq ++ lit "."))
  /\ settled (fst (generateScreenCodeFlutter (host := Sample.shortCodes) (JStr (lit "Cart"))
                     Sample.shop MODERN Sample.violet Sample.teal []))
     = Rejected (Error (lit "Failed to generate Flutter code for " ++ dq ++ lit "Cart" ++ dq ++ lit ".")).
Proof.
  split; [reflexivity|]. split; [vm_compute; reflexivity|]. split; [vm_compute; reflexivity|].
  destruct (code_generators_reject_short_code (host := Sample.shortCodes)
              (JStr (lit "Cart")) Sample.shop MODERN Sample.violet Sample.teal []
              (Sample.textResponse Sample.shortCode) eq_refl eq_refl)
    as [Hreact Hflutter].
  split.
  - apply Hreact; [vm_compute; reflexivity|vm_compute; lia].
  - apply Hflutter; [vm_compute; reflexivity|vm_compute; lia].
Defined.

Lemma image_operations_inline_data_witness :
  (settled (fst (generateScreenImage (host := Sample.noImages) (JStr (lit "Cart"))
                   Sample.shop MODERN Sample.violet Sample.teal []))
   = Rejected (Error (lit "Failed to generate UI for Cart."))
   /\ settled (fst (generateLogo (host := Sample.noImages)
                      Sample.shop MODERN Sample.violet Sample.teal []))
      = Rejected (Error (lit "Failed to generate a logo for the app."))
   /\ settled (fst (editImage (host := Sample.noImages) (lit "data:image/png;base64,AAAA")
                      (lit "image/png") (lit "Add a cat wearing sunglasses.") []))
      = Rejected (Error (lit "Failed to edit the image with the provided prompt.")))
  /\ (settled (fst (generateScreenImage (host := Sample.allGood) (JStr (lit "Cart"))
                      Sample.shop MODERN Sample.violet Sample.teal []))
      = Fulfilled (lit "data:image/png;base64,iVBORw0KGgo=")
      /\ settled (fst (generateLogo (host := Sample.allGood)
                         Sample.shop MODERN Sample.violet Sample.teal []))
         = Fulfilled (lit "data:image/png;base64,iVBORw0KGgo=")
      /\ settled (fst (editImage (host := Sample.allGood) (lit "data:image/png;base64,AAAA")
                         (lit "image/png") (lit "Add a cat wearing sunglasses.") []))
         = Fulfilled (lit "data:image/png;base64,iVBORw0KGgo=")).
Proof.
  split.
  - destruct (image_operations_inline_data (host := Sample.noImages) [] Sample.emptyResponse)
      as (Himage & Hlogo & Hedit).
    split; [|split].
    + exact (Himage (JStr (lit "Cart")) (lit "Cart") Sample.shop MODERN Sample.violet Sample.teal
               eq_refl eq_refl).
    + exact (Hlogo Sample.shop MODERN Sample.violet Sample.teal eq_refl).
    + apply (Hedit (lit "data:image/png;base64,AAAA") (lit "image/png")
               (lit "Add a cat wearing sunglasses.") (lit "AAAA"));
        [reflexivity|discriminate|reflexivity].
  - destruct (image_operations_inline_data (host := Sample.allGood) [] Sample.imageResponse)
      as (Himage & Hlogo & Hedit).
    split; [|split].
    + exact (Himage (JStr (lit "Cart")) (lit "Cart") Sample.shop MODERN Sample.violet Sample.teal
               eq_refl eq_refl).
    + exact (Hlogo Sample.shop MODERN Sample.violet Sample.teal eq_refl).
    + apply (Hedit (lit "data:image/png;base64,AAAA") (lit "image/png")
               (lit "Add a cat wearing sunglasses.") (lit "AAAA"));
        [reflexivity|discriminate|reflexivity].
Defined.

Lemma generated_code_has_preamble_witness :
  (settled (fst (generateScreenCodeReact (host := Sample.allGood) (JStr (lit "Login Screen #1"))
                   Sample.shop MODERN Sample.violet Sample.teal []))
   = Fulfilled Sample.loginComponent
   /\ exists s response t componentName,
        @JStr Sample.numbers (lit "Login Screen #1") = JStr s
        /\ settled (ai (Host := Sample.allGood) []
                      (reactRequest s Sample.shop MODERN Sample.violet Sample.teal))
           = Fulfilled response
        /\ text response = Some t
        /\ 50 <= List.length (trim (removeAll [lit "```jsx"; lit "```"] t))
        /\ nonAlphaNumericRemoved s componentName
        /\ Sample.loginComponent =
             lit "import React from 'react';" ++ nl ++
             nl ++
             lit "const " ++ componentName ++ lit " = () => {" ++ nl ++
             lit "  return (" ++ nl ++
             join nl (map (fun line => lit "    " ++ line)
                        (split newline (trim (removeAll [lit "```jsx"; lit "```"] t)))) ++ nl ++
             lit "  );" ++ nl ++
             lit "};" ++ nl ++
             nl ++
             lit "export default " ++ componentName ++ lit ";" ++ nl)
  /\ (settled (fst (generateScreenCodeFlutter (host := Sample.allGood) (JStr (lit "Cart"))
                      Sample.shop MODERN Sample.violet Sample.teal []))
      = Fulfilled Sample.cartWidget
      /\ exists n response t,
           ToString (host := Sample.allGood) (JStr (lit "Cart")) = Fulfilled n
           /\ settled (ai (Host := Sample.allGood) []
                         (flutterRequest n Sample.shop MODERN Sample.violet Sample.teal))
              = Fulfilled response
           /\ text response = Some t
           /\ 50 <= List.length (trim (removeAll [lit "```dart"; lit "```"] t))
           /\ Sample.cartWidget =
                lit "import 'package:flutter/material.dart';" ++ nl ++
                nl ++
                trim (removeAll [lit "```dart"; lit "```"] t) ++ nl).
Proof.
  split.
  - assert (H : settled (fst (generateScreenCodeReact (host := Sample.allGood)
                                (JStr (lit "Login Screen #1")) Sample.shop MODERN Sample.violet
                                Sample.teal []))
                = Fulfilled Sample.loginComponent) by (vm_compute; reflexivity).
    split; [exact H|].
    exact (proj1 (proj1 (generated_code_has_preamble (host := Sample.allGood)
                           (JStr (lit "Login Screen #1")) Sample.shop MODERN Sample.violet
                           Sample.teal [])
                    Sample.loginComponent) H).
  - assert (H : settled (fst (generateScreenCodeFlutter (host := Sample.allGood)
                                (JStr (lit "Cart")) Sample.shop MODERN Sample.violet
                                Sample.teal []))
                = Fulfilled Sample.cartWidget) by (vm_compute; reflexivity).
    split; [exact H|].
    exact (proj1 (proj2 (generated_code_has_preamble (host := Sample.allGood)
                           (JStr (lit "Cart")) Sample.shop MODERN Sample.violet Sample.teal [])
                    Sample.cartWidget) H).
Defined.

Lemma handleGenerate_reports_batch_witness :
  (prompt Sample.startState <> []
   /\ palette Sample.startState = Some Sample.startColors
   /\ Sample.threeNames <> []
   /\ settled (fst (extractScreenNames (host := Sample.secondScreenFailsBesideLogo)
                      (prompt Sample.startState) []))
      = Fulfilled (JArr Sample.threeNames)
   /\ settled (fst (generateLogo (host := Sample.secondScreenFailsBesideLogo)
                      (prompt Sample.startState) (selectedStyle Sample.startState)
                      Sample.violet Sample.teal
                      ([] ++ [extractRequest (prompt Sample.startState)])))
      = Fulfilled (lit "data:image/png;base64,iVBORw0KGgo="))
  /\ (generatedScreens
        (fst (handleGenerate (host := Sample.secondScreenFailsBesideLogo) Sample.startState []))
      <> []
      /\ logoImageUrl
           (fst (handleGenerate (host := Sample.secondScreenFailsBesideLogo) Sample.startState []))
         = Some (lit "data:image/png;base64,iVBORw0KGgo="))
  /\ (generatedScreens
        (fst (handleGenerate (host := Sample.everyScreenFailsBesideLogo) Sample.startState []))
      = []
      /\ last (notifications
                 (fst (handleGenerate (host := Sample.everyScreenFailsBesideLogo)
                         Sample.startState [])))
              {| notificationMessage := []; notificationType := success |}
         = {| notificationMessage :=
                lit "Failed to generate any screens. Please try refining your prompt.";
              notificationType := error |}).
Proof.
  assert (Hprompt : prompt Sample.startState <> []) by discriminate.
  assert (Hne : Sample.threeNames <> []) by discriminate.
  split; [|split].
  - repeat split; try assumption; vm_compute; reflexivity.
  - destruct (handleGenerate_reports_batch (host := Sample.secondScreenFailsBesideLogo)
                Sample.startState (colors := Sample.startColors) []
                (names := Sample.threeNames) (logoUrl := lit "data:image/png;base64,iVBORw0KGgo=")
                Hprompt eq_refl Hne)
      as (failed & _ & _ & _ & _ & Hsome);
      [vm_compute; reflexivity|vm_compute; reflexivity|].
    destruct Hsome as (Hshown & Hlogo & _).
    { apply Exists_cons_hd. vm_compute. reflexivity. }
    split; assumption.
  - destruct (handleGenerate_reports_batch (host := Sample.everyScreenFailsBesideLogo)
                Sample.startState (colors := Sample.startColors) []
                (names := Sample.threeNames) (logoUrl := lit "data:image/png;base64,iVBORw0KGgo=")
                Hprompt eq_refl Hne)
      as (failed & _ & _ & _ & Hnone & _);
      [vm_compute; reflexivity|vm_compute; reflexivity|].
    destruct Hnone as (Hshown & Hnotes).
    { vm_compute. repeat constructor. }
    split; [exact Hshown|]. rewrite Hnotes. reflexivity.
Defined.

(** C3, as stated, fails when the logo request is rejected. In the first
    run the one screen of the batch succeeds, yet [handleGenerate] displays
    no screen and reports only the failure of the logo; in the second every
    call of the batch rejects, yet the error about the screens is never
    raised: the failure of the logo is all that is reported. *)
Lemma handleGenerate_logo_rejection_hides_screens :
  ((exists result,
       settled (fst (fst (generateBoth (host := Sample.logoFails)
                            Sample.startState Sample.startColors [])))
       = Fulfilled result
       /\ List.length (successfulScreens result) = 1
       /\ failedScreenReasons result = [])
   /\ generatedScreens (fst (handleGenerate (host := Sample.logoFails) Sample.startState [])) = []
   /\ notifications (fst (handleGenerate (host := Sample.logoFails) Sample.startState []))
      = [{| notificationMessage := lit "Failed to generate a logo for the app.";
            notificationType := error |}])
  /\ ((exists result,
          settled (fst (fst (generateBoth (host := Sample.logoAndEveryScreenFail)
                               Sample.startState Sample.startColors [])))
          = Fulfilled result
          /\ successfulScreens result = []
          /\ List.length (failedScreenReasons result) = 1)
      /\ notifications
           (fst (handleGenerate (host := Sample.logoAndEveryScreenFail) Sample.startState []))
         = [{| notificationMessage := lit "Failed to generate a logo for the app.";
               notificationType := error |}]).
Proof.
  split; split.
  - eexists. split; [vm_compute; reflexivity|]. split; reflexivity.
  - split; vm_compute; reflexivity.
  - eexists. split; [vm_compute; reflexivity|]. split; reflexivity.
  - vm_compute. reflexivity.
Qed.

(** ** Further examples *)

(** Two runs of white space in a title, and the download name. *)
Example downloadName_login :
  downloadName (host := Sample.allGood) (JStr (lit "Login  Screen" ++ nl))
  = Fulfilled (lit "Login_Screen_.png").
Proof. reflexivity. Qed.

Lemma generators_reject_with_their_own_message_witness :
  ToString (host := Sample.noImages) (JStr (lit "Cart")) = Fulfilled (lit "Cart")
  /\ settled (fst (generateScreenImage (host := Sample.noImages) (JStr (lit "Cart"))
                     Sample.shop MODERN Sample.violet Sample.teal []))
     = Rejected (Error (lit "Failed to generate UI for Cart."))
  /\ Error (lit "Failed to generate UI for Cart.")
     = Error (lit "Failed to generate UI for " ++ lit "Cart" ++ lit ".").
Proof.
  assert (H : settled (fst (generateScreenImage (host := Sample.noImages) (JStr (lit "Cart"))
                              Sample.shop MODERN Sample.violet Sample.teal []))
              = Rejected (Error (lit "Failed to generate UI for Cart.")))
    by (vm_compute; reflexivity).
  split; [reflexivity|]. split; [exact H|].
  exact (proj1 (generators_reject_with_their_own_message (host := Sample.noImages) [] _)
           (JStr (lit "Cart")) (lit "Cart") Sample.shop MODERN Sample.violet Sample.teal
           eq_refl H).
Defined.

Lemma generated_code_has_no_fence_witness :
  includes (lit "```") Sample.longCode = true
  /\ settled (fst (generateScreenCodeReact (host := Sample.allGood) (JStr (lit "Cart"))
                     Sample.shop MODERN Sample.violet Sample.teal []))
     = Fulfilled Sample.cartComponent
  /\ includes (lit "```") Sample.cartComponent = false.
Proof.
  assert (H : settled (fst (generateScreenCodeReact (host := Sample.allGood)
                              (JStr (lit "Cart")) Sample.shop MODERN Sample.violet
                              Sample.teal []))
              = Fulfilled Sample.cartComponent) by (vm_compute; reflexivity).
  split; [vm_compute; reflexivity|]. split; [exact H|].
  exact (generated_code_has_no_fence (host := Sample.allGood) (JStr (lit "Cart")) Sample.shop
           MODERN Sample.violet Sample.teal [] (or_introl H)).
Defined.

Lemma generateAppScreens_requests_witness :
  settled (fst (extractScreenNames (host := Sample.shortCodes) Sample.shop []))
  = Fulfilled (JArr Sample.threeNames)
  /\ Forall (fun name => exists s, name = JStr s) Sample.threeNames
  /\ List.length (snd (generateAppScreens (host := Sample.shortCodes)
                         Sample.shop MODERN Sample.violet Sample.teal []))
     = List.length (@nil Request) + 1 + 3 * List.length Sample.threeNames.
Proof.
  assert (Hnames : settled (fst (extractScreenNames (host := Sample.shortCodes) Sample.shop []))
                   = Fulfilled (JArr Sample.threeNames)) by (vm_compute; reflexivity).
  assert (Hstrings : Forall (fun name => exists s, name = @JStr Sample.numbers s)
                       Sample.threeNames)
    by (repeat constructor; eexists; reflexivity).
  split; [exact Hnames|]. split; [exact Hstrings|].
  exact (proj2 (generateAppScreens_requests (host := Sample.shortCodes)
                  Sample.shop MODERN Sample.violet Sample.teal [])
           Sample.threeNames Hnames Hstrings).
Defined.

Lemma generateAppScreens_rejects_before_batch_witness :
  settled (fst (generateAppScreens (host := Sample.noScreens)
                  Sample.shop MODERN Sample.violet Sample.teal []))
  = Rejected (Error noScreensMessage)
  /\ snd (generateAppScreens (host := Sample.noScreens)
            Sample.shop MODERN Sample.violet Sample.teal [])
     = [] ++ [extractRequest Sample.shop]
  /\ (Error noScreensMessage
      = Error (lit "Failed to parse app description. Please try rephrasing your idea.")
      \/ Error noScreensMessage
         = Error (lit "Could not identify any screens from your description. Please be more specific about the pages you need, e.g., 'login page', 'dashboard'.")
      \/ Error noScreensMessage = engineError (host := Sample.noScreens) NotAFunction).
Proof.
  assert (H : settled (fst (generateAppScreens (host := Sample.noScreens)
                              Sample.shop MODERN Sample.violet Sample.teal []))
              = Rejected (Error noScreensMessage)) by (vm_compute; reflexivity).
  split; [exact H|].
  exact (generateAppScreens_rejects_before_batch (host := Sample.noScreens)
           Sample.shop MODERN Sample.violet Sample.teal [] H).
Defined.


Lemma failure_reasons_name_their_screen_witness :
  exists result reason,
    settled (fst (generateAppScreens (host := Sample.secondScreenFails)
                    Sample.shop MODERN Sample.violet Sample.teal []))
    = Fulfilled result
    /\ In reason (failedScreenReasons result)
    /\ exists name,
         In name (batchNames
                    (fst (extractScreenNames (host := Sample.secondScreenFails) Sample.shop [])))
         /\ match ToString (host := Sample.secondScreenFails) name with
            | Fulfilled n =>
                In reason
                  [lit "Failed to generate UI for " ++ n ++ lit ".";
                   lit "Failed to generate React code for " ++ dq ++ n ++ dq ++ lit ".";
                   lit "Failed to generate Flutter code for " ++ dq ++ n ++ dq ++ lit "."]
            | Rejected e =>
                reason = orElse (message e) (lit "An unknown screen generation error occurred.")
            end.
Proof.
  destruct (settled (fst (generateAppScreens (host := Sample.secondScreenFails)
                            Sample.shop MODERN Sample.violet Sample.teal [])))
    as [result|e] eqn:Hresult; [|vm_compute in Hresult; discriminate].
  destruct (failedScreenReasons result) as [|reason rest] eqn:Hreasons.
  - exfalso. vm_compute in Hresult. injection Hresult as <-. discriminate.
  - exists result, reason. split; [reflexivity|]. rewrite Hreasons. split; [now left|].
    apply (failure_reasons_name_their_screen (host := Sample.secondScreenFails)
             Sample.shop MODERN Sample.violet Sample.teal [] reason Hresult).
    rewrite Hreasons. now left.
Defined.

Lemma editImage_sends_the_payload_witness :
  Forall (fun c => c <> comma) (lit "data:image/png;base64")
  /\ Forall (fun c => c <> comma) (lit "iVBORw0KGgo=")
  /\ lit "iVBORw0KGgo=" <> []
  /\ snd (editImage (host := Sample.allGood)
            (lit "data:image/png;base64" ++ comma :: lit "iVBORw0KGgo=" ++ [])
            (lit "image/png") Sample.catPrompt [])
     = [] ++ [editRequest (lit "iVBORw0KGgo=") (lit "image/png") Sample.catPrompt].
Proof.
  assert (Hheader : Forall (fun c => c <> comma) (lit "data:image/png;base64")).
  { apply Forall_forall. intros c Hc. vm_compute in Hc.
    repeat (destruct Hc as [<-|Hc]; [discriminate|]). destruct Hc. }
  assert (Hpayload : Forall (fun c => c <> comma) (lit "iVBORw0KGgo=")).
  { apply Forall_forall. intros c Hc. vm_compute in Hc.
    repeat (destruct Hc as [<-|Hc]; [discriminate|]). destruct Hc. }
  assert (Hne : lit "iVBORw0KGgo=" <> []) by discriminate.
  split; [exact Hheader|]. split; [exact Hpayload|]. split; [exact Hne|].
  exact (editImage_sends_the_payload (host := Sample.allGood) (lit "image/png")
           Sample.catPrompt [] Hheader Hpayload Hne (or_introl eq_refl)).
Defined.

Lemma handleGenerate_requests_witness :
  prompt Sample.startState <> []
  /\ palette Sample.startState = Some Sample.startColors
  /\ snd (handleGenerate (host := Sample.noScreens) Sample.startState [])
     = [] ++ [extractRequest Sample.shop;
              logoRequest Sample.shop MODERN Sample.violet Sample.teal].
Proof.
  assert (Hprompt : prompt Sample.startState <> []) by discriminate.
  split; [exact Hprompt|]. split; [reflexivity|].
  exact (proj2 (handleGenerate_requests (host := Sample.noScreens) Sample.startState [])
           Sample.startColors Hprompt eq_refl).
Defined.

Lemma handleGenerate_always_reports_witness :
  prompt Sample.startState <> []
  /\ palette Sample.startState = Some Sample.startColors
  /\ let st' := fst (handleGenerate (host := Sample.secondScreenFailsBesideLogo)
                       Sample.startState []) in
     isLoading st' = false
     /\ showFigmaInstructions st' = false
     /\ exists added,
          notifications st' = notifications Sample.startState ++ added
          /\ 1 <= List.length added <= 2
          /\ (generatedScreens st' <> [] <->
              exists n, In n added /\ notificationType n = success)
          /\ (generatedScreens st' <> [] -> logoImageUrl st' <> None).
Proof.
  assert (Hprompt : prompt Sample.startState <> []) by discriminate.
  split; [exact Hprompt|]. split; [reflexivity|].
  exact (handleGenerate_always_reports (host := Sample.secondScreenFailsBesideLogo)
           Sample.startState [] Hprompt eq_refl).
Defined.

Lemma removeNotification_by_instant_witness :
  1730000000001%N <> 1730000000000%N
  /\ removeNotification 1730000000000
       (showNotificationAt 1730000000001 noScreenGeneratedMessage error
          (showNotificationAt 1730000000000 (lit "Could not generate some screens: ") error []))
     = showNotificationAt 1730000000001 noScreenGeneratedMessage error
         (removeNotification 1730000000000 []).
Proof.
  assert (H : 1730000000001%N <> 1730000000000%N) by discriminate.
  split; [exact H|].
  exact (proj2 (removeNotification_by_instant [] 1730000000000 1730000000001
                  (lit "Could not generate some screens: ") noScreenGeneratedMessage
                  error error)
           H).
Defined.

Lemma returned_screens_have_a_download_name_witness :
  exists result s,
    settled (fst (generateAppScreens (host := Sample.allGood)
                    Sample.shop MODERN Sample.violet Sample.teal []))
    = Fulfilled result
    /\ In s (successfulScreens result)
    /\ exists t,
         title s = JStr t
         /\ downloadName (host := Sample.allGood) (title s)
            = Fulfilled (replaceWhiteSpace false t ++ lit ".png")
         /\ Forall (fun c => isWhiteSpace c = false) (replaceWhiteSpace false t ++ lit ".png")
         /\ (Forall (fun c => isWhiteSpace c = false) t ->
             downloadName (host := Sample.allGood) (title s) = Fulfilled (t ++ lit ".png")).
Proof.
  destruct (settled (fst (generateAppScreens (host := Sample.allGood)
                            Sample.shop MODERN Sample.violet Sample.teal [])))
    as [result|e] eqn:Hresult; [|vm_compute in Hresult; discriminate].
  destruct (successfulScreens result) as [|s rest] eqn:Hscreens.
  - exfalso. vm_compute in Hresult. injection Hresult as <-. discriminate.
  - exists result, s. split; [reflexivity|]. rewrite Hscreens. split; [now left|].
    apply (returned_screens_have_a_download_name (host := Sample.allGood)
             Sample.shop MODERN Sample.violet Sample.teal [] s Hresult).
    rewrite Hscreens. now left.
Defined.

Lemma handleImageEdit_outcome_witness :
  originalImage Sample.editorLoaded = Some Sample.pngImage
  /\ editPrompt Sample.editorLoaded <> []
  /\ let st' := fst (handleImageEdit (host := Sample.logoAndEveryScreenFail)
                       Sample.editorLoaded [extractRequest Sample.shop]) in
     isEditing st' = false
     /\ originalImage st' = Some Sample.pngImage
     /\ viewTransform st' = viewTransform Sample.editorLoaded
     /\ exists n,
          editorNotifications st' = editorNotifications Sample.editorLoaded ++ [n]
          /\ match editedImage st' with
             | Some url =>
                 n = {| notificationMessage := lit "Image successfully edited!";
                        notificationType := success |}
                 /\ settled (fst (editOriginal (host := Sample.logoAndEveryScreenFail)
                                    Sample.pngImage (editPrompt Sample.editorLoaded)
                                    [extractRequest Sample.shop]))
                    = Fulfilled url
                 /\ exists bytes, url = lit "data:image/png;base64," ++ bytes
             | None =>
                 notificationType n = error
                 /\ isRejected (fst (editOriginal (host := Sample.logoAndEveryScreenFail)
                                       Sample.pngImage (editPrompt Sample.editorLoaded)
                                       [extractRequest Sample.shop]))
                    = true
             end.
Proof.
  assert (Hprompt : editPrompt Sample.editorLoaded <> []) by discriminate.
  split; [reflexivity|]. split; [exact Hprompt|].
  exact (proj2 (handleImageEdit_outcome (host := Sample.logoAndEveryScreenFail)
                  Sample.editorLoaded [extractRequest Sample.shop])
           Sample.pngImage eq_refl Hprompt).
Defined.


Lemma screen_fails_with_its_first_rejection_witness :
  settled (fst (screenPromise (host := Sample.logoAndEveryScreenFail)
                  Sample.shop MODERN Sample.violet Sample.teal (JStr (lit "Home")) []))
  = Rejected (Error (lit "Failed to generate React code for " ++ dq ++ lit "Home" ++ dq
                     ++ lit "."))
  /\ exists c call,
       screenCalls (host := Sample.logoAndEveryScreenFail)
         Sample.shop MODERN Sample.violet Sample.teal [JStr (lit "Home")] [] = [c]
       /\ In call [imageCall c; reactCall c; flutterCall c]
       /\ settled call
          = Rejected (Error (lit "Failed to generate React code for " ++ dq ++ lit "Home" ++ dq
                             ++ lit "."))
       /\ forall other,
            In other [imageCall c; reactCall c; flutterCall c] ->
            isRejected other = true ->
            settledAt call <= settledAt other.
Proof.
  assert (H : settled (fst (screenPromise (host := Sample.logoAndEveryScreenFail)
                              Sample.shop MODERN Sample.violet Sample.teal
                              (JStr (lit "Home")) []))
              = Rejected (Error (lit "Failed to generate React code for " ++ dq ++ lit "Home"
                                 ++ dq ++ lit "."))) by (vm_compute; reflexivity).
  split; [exact H|].
  exact (screen_fails_with_its_first_rejection (host := Sample.logoAndEveryScreenFail)
           Sample.shop MODERN Sample.violet Sample.teal (JStr (lit "Home")) [] H).
Defined.

Lemma handleGenerate_logo_rejected_witness :
  prompt Sample.startState <> []
  /\ palette Sample.startState = Some Sample.startColors
  /\ settled (fst (generateLogo (host := Sample.logoFails)
                     (prompt Sample.startState) (selectedStyle Sample.startState)
                     (primary Sample.startColors) (secondary Sample.startColors)
                     ([] ++ [extractRequest (prompt Sample.startState)])))
     = Rejected (Error (lit "Failed to generate a logo for the app."))
  /\ generatedScreens (fst (handleGenerate (host := Sample.logoFails) Sample.startState [])) = []
  /\ logoImageUrl (fst (handleGenerate (host := Sample.logoFails) Sample.startState [])) = None
  /\ exists msg,
       notifications (fst (handleGenerate (host := Sample.logoFails) Sample.startState []))
       = notifications Sample.startState
         ++ [{| notificationMessage := msg; notificationType := error |}].
Proof.
  assert (Hprompt : prompt Sample.startState <> []) by discriminate.
  assert (Hlogo : settled (fst (generateLogo (host := Sample.logoFails)
                                  (prompt Sample.startState) (selectedStyle Sample.startState)
                                  (primary Sample.startColors) (secondary Sample.startColors)
                                  ([] ++ [extractRequest (prompt Sample.startState)])))
                  = Rejected (Error (lit "Failed to generate a logo for the app.")))
    by (vm_compute; reflexivity).
  split; [exact Hprompt|]. split; [reflexivity|]. split; [exact Hlogo|].
  exact (handleGenerate_logo_rejected (host := Sample.logoFails) Sample.startState []
           Hprompt eq_refl Hlogo).
Defined.

Lemma generateBoth_batch_witness :
  (forall log log' request,
      ai (Host := Sample.steady) log request = ai (Host := Sample.steady) log' request)
  /\ fst (fst (generateBoth (host := Sample.steady) Sample.startState Sample.startColors []))
     = fst (generateAppScreens (host := Sample.steady) (prompt Sample.startState)
              (selectedStyle Sample.startState) (primary Sample.startColors)
              (secondary Sample.startColors) []).
Proof.
  assert (H : forall log log' request,
             ai (Host := Sample.steady) log request = ai (Host := Sample.steady) log' request)
    by reflexivity.
  split; [exact H|].
  exact (generateBoth_batch (host := Sample.steady) H Sample.startState Sample.startColors []).
Defined.

Lemma results_area_after_generate_witness :
  prompt Sample.startState <> []
  /\ palette Sample.startState = Some Sample.startColors
  /\ let v := resultsArea (fst (handleGenerate (host := Sample.secondScreenFailsBesideLogo)
                                   Sample.startState [])) in
     showsLoader v = false
     /\ shownCards v
        = generatedScreens (fst (handleGenerate (host := Sample.secondScreenFailsBesideLogo)
                                   Sample.startState []))
     /\ (shownCards v <> [] ->
         exists bytes, shownLogo v = Some (lit "data:image/png;base64," ++ bytes)).
Proof.
  assert (Hprompt : prompt Sample.startState <> []) by discriminate.
  split; [exact Hprompt|]. split; [reflexivity|].
  exact (proj2 (results_area_after_generate (host := Sample.secondScreenFailsBesideLogo)
                  Sample.startState)
           Sample.startColors [] Hprompt eq_refl).
Defined.

(** ** Where the program departs from the specification *)


(** C7. The failing input: a reply whose first part is
    [{ inlineData: { mimeType: "image/png" } }], inline data without its
    bytes. The claim has each image operation either fail with its typed
    error or return the data URL of the bytes; the program tests
    [inlineData] only and returns "data:image/png;base64,undefined" from
    the screen image, the logo and the image edit alike. *)
Theorem image_operations_return_undefined_bytes :
  firstInlineData Sample.bytelessResponse
  = Some {| data := None; mimeType := Some (lit "image/png") |}
  /\ settled (fst (generateScreenImage (host := Sample.noBytes) (JStr (lit "Cart"))
                     Sample.shop MODERN Sample.violet Sample.teal []))
     = Fulfilled (lit "data:image/png;base64,undefined")
  /\ settled (fst (generateLogo (host := Sample.noBytes)
                     Sample.shop MODERN Sample.violet Sample.teal []))
     = Fulfilled (lit "data:image/png;base64,undefined")
  /\ settled (fst (editImage (host := Sample.noBytes) (lit "data:image/png;base64,iVBORw0KGgo=")
                     (lit "image/png") Sample.catPrompt []))
     = Fulfilled (lit "data:image/png;base64,undefined").
Proof.
  split; [reflexivity|]. split; [vm_compute; reflexivity|].
  split; vm_compute; reflexivity.
Qed.

(** When the extraction and the logo are rejected at the same instant,
    the error that [handleGenerate] reports is that of the logo. *)
Example handleGenerate_reports_logo_on_tie :
  notifications (fst (handleGenerate (host := Sample.allAtOnce) Sample.startState []))
  = [{| notificationMessage := lit "Failed to generate a logo for the app.";
        notificationType := error |}].
Proof. vm_compute. reflexivity. Qed.
